(** * Pokemon Showdown chat commands (config/commands.js)

    A shallow embedding of the command table of [config/commands.js] and of
    its [dexsearch] handler, with the properties of the command engine and of
    the multi-criteria filter engine stated over that embedding.

    Conventions of the embedding.
    - A JavaScript string is the [string] of the bytes of its UTF-8
      encoding.  On text of ASCII characters the bytes are the UTF-16
      code units of the string, and case conversion, trimming, slicing
      and searching are the operations of JavaScript; outside ASCII,
      [toLowerCase] and [trim] leave alone characters that JavaScript
      would convert or strip.  A statement that depends on the exact
      text the user typed says that this text is ASCII ([ascii_only]).
      The [length] of a string is its number of UTF-16 code units
      ([code_units]).
    - A JavaScript object used as a dictionary is an association list in
      property-enumeration order ([jsobj]): assigning to an existing key
      keeps its place, assigning to a new key appends it, [delete] removes
      it.  The list holds the own properties.  Where the source tests
      text the user typed with [in], or assigns under it, the names every
      object inherits from [Object.prototype] are taken into account
      ([js_in], [Parse.assign]); the names of the catalogue (species,
      tiers, colours, types, abilities, moves) are none of those names.
    - [for (k in o)] enumerates the keys the object had when the loop
      started, skipping those deleted before their turn; keys added while
      the loop runs are not visited (the behaviour of V8, on which the
      server runs).
    - The collaborators the handlers consult ([Tools], [Users], [Rooms],
      the permission provider) are fields of environment records. *)

From Stdlib Require Import String Ascii List Bool Arith ZArith Lia.
From Stdlib Require Import Permutation Sorted.
Import ListNotations.
Local Open Scope list_scope.
Local Open Scope string_scope.

Set Implicit Arguments.

(** ** JavaScript strings *)

Module JsString.

(** The double quote character, as a one-character string. *)
Definition dq : string := String (ascii_of_nat 34) EmptyString.

(** The line feed, as a one-character string. *)
Definition nl : string := String (ascii_of_nat 10) EmptyString.

(** The white space and line terminators of ASCII. *)
Definition is_space (c : ascii) : bool :=
  let n := nat_of_ascii c in
  ((n =? 32) || ((9 <=? n) && (n <=? 13)))%nat.

(** Whether the text consists of ASCII characters. *)
Fixpoint ascii_only (s : string) : bool :=
  match s with
  | EmptyString => true
  | String c s' => (nat_of_ascii c <? 128)%nat && ascii_only s'
  end.

(** [s.length]: the number of UTF-16 code units of the text whose UTF-8
    encoding is [s].  A continuation byte adds none, the first byte of a
    four-byte sequence (a character beyond the basic plane) adds two,
    any other byte adds one. *)
Fixpoint code_units (s : string) : nat :=
  match s with
  | EmptyString => 0
  | String c s' =>
      let n := nat_of_ascii c in
      (if ((128 <=? n) && (n <? 192))%nat then 0
       else if (240 <=? n)%nat then 2 else 1)
      + code_units s'
  end.

Definition lower (c : ascii) : ascii :=
  let n := nat_of_ascii c in
  if ((65 <=? n) && (n <=? 90))%nat then ascii_of_nat (n + 32) else c.

Definition upper (c : ascii) : ascii :=
  let n := nat_of_ascii c in
  if ((97 <=? n) && (n <=? 122))%nat then ascii_of_nat (n - 32) else c.

Fixpoint map_chars (f : ascii -> ascii) (s : string) : string :=
  match s with
  | EmptyString => EmptyString
  | String c s' => String (f c) (map_chars f s')
  end.

(** [s.toLowerCase()] and [s.toUpperCase()] of ASCII text: the letters
    [A-Z], [a-z] are converted, every other character is kept. *)
Definition toLowerCase : string -> string := map_chars lower.
Definition toUpperCase : string -> string := map_chars upper.

Fixpoint trim_left (s : string) : string :=
  match s with
  | String c s' => if is_space c then trim_left s' else s
  | EmptyString => EmptyString
  end.

Fixpoint trim_right (s : string) : string :=
  match s with
  | EmptyString => EmptyString
  | String c s' =>
      match trim_right s' with
      | EmptyString => if is_space c then EmptyString else String c EmptyString
      | r => String c r
      end
  end.

(** [s.trim()] of ASCII text. *)
Definition trim (s : string) : string := trim_right (trim_left s).

(** [s.slice(b, e)] for indices within [0 .. ] (no negative index occurs
    in the source). *)
Definition slice (b e : nat) (s : string) : string := substring b (e - b) s.

(** [s.slice(b)]. *)
Definition slice_from (b : nat) (s : string) : string :=
  substring b (String.length s - b) s.

(** [s.charAt(0)]. *)
Definition charAt0 (s : string) : string := substring 0 1 s.

(** [s.indexOf(p)], [None] standing for [-1]. *)
Definition indexOf (p s : string) : option nat := index 0 p s.

Fixpoint join (sep : string) (l : list string) : string :=
  match l with
  | [] => ""
  | [x] => x
  | x :: rest => x ++ sep ++ join sep rest
  end.

(** [s.split(re)] for a separator that is one character out of [seps]. *)
Fixpoint split_any (seps : list ascii) (s : string) : list string :=
match s with
| EmptyString => [""]
| String c s' =>
    if existsb (Ascii.eqb c) seps then "" :: split_any seps s'
    else match split_any seps s' with
         | h :: t => String c h :: t
         | [] => [String c ""]
         end
end.

(** [s.split(',')] and its like. *)
Definition split (sep : ascii) (s : string) : list string := split_any [sep] s.

(** Decimal rendering of a natural number ([String(n)]). *)
Fixpoint digits (fuel n : nat) (acc : string) : string :=
  match fuel with
  | O => acc
  | S fuel' =>
      let d := String (ascii_of_nat (48 + n mod 10)) acc in
      if (n <? 10)%nat then d else digits fuel' (n / 10) d
  end.

Definition string_of_nat (n : nat) : string := digits (S n) n "".

(** *** [parseInt]

    White space is skipped, a sign is read, a [0x] prefix selects base
    sixteen, and the longest run of digits is converted; [None] is [NaN]. *)

Definition digit_value (radix : nat) (c : ascii) : option nat :=
  let n := nat_of_ascii c in
  let v := if ((48 <=? n) && (n <=? 57))%nat then Some (n - 48)
           else if ((97 <=? n) && (n <=? 122))%nat then Some (n - 87)
           else if ((65 <=? n) && (n <=? 90))%nat then Some (n - 55)
           else None in
  match v with
  | Some d => if (d <? radix)%nat then Some d else None
  | None => None
  end.

Fixpoint read_digits (radix : nat) (s : string) (acc : option nat) : option nat :=
  match s with
  | EmptyString => acc
  | String c s' =>
      match digit_value radix c with
      | Some d =>
          read_digits radix s'
            (Some (match acc with Some a => a * radix + d | None => d end))
      | None => acc
      end
  end.

Definition parseInt (s : string) : option Z :=
  let s1 := trim_left s in
  let '(neg, s2) :=
    match s1 with
    | String "-" r => (true, r)
    | String "+" r => (false, r)
    | _ => (false, s1)
    end in
  let '(radix, s3) :=
    match s2 with
    | String "0" (String "x" r) => (16, r)
    | String "0" (String "X" r) => (16, r)
    | _ => (10, s2)
    end in
  match read_digits radix s3 None with
  | Some n => Some (if neg then (- Z.of_nat n)%Z else Z.of_nat n)
  | None => None
  end.

End JsString.
Import JsString.

(** ** JavaScript objects as ordered dictionaries *)

Module JsObj.
Section Obj.
Variable V : Type.

Definition jsobj : Type := list (string * V).

(** [o[k]], [None] standing for [undefined]. *)
Fixpoint get (k : string) (o : jsobj) : option V :=
  match o with
  | [] => None
  | (k', v) :: o' => if String.eqb k k' then Some v else get k o'
  end.

(** [k in o]. *)
Definition has (k : string) (o : jsobj) : bool :=
  match get k o with Some _ => true | None => false end.

(** [o[k] = v]. *)
Fixpoint set (k : string) (v : V) (o : jsobj) : jsobj :=
  match o with
  | [] => [(k, v)]
  | (k', v') :: o' =>
      if String.eqb k k' then (k, v) :: o' else (k', v') :: set k v o'
  end.

(** [delete o[k]]. *)
Fixpoint delete (k : string) (o : jsobj) : jsobj :=
  match o with
  | [] => []
  | (k', v') :: o' =>
      if String.eqb k k' then delete k o' else (k', v') :: delete k o'
  end.

(** [Object.keys(o)]. *)
Definition keys (o : jsobj) : list string := map fst o.

(** [Object.size(o)]. *)
Definition size (o : jsobj) : nat := List.length o.

End Obj.

(** [Object.count(o, true)]: the number of properties whose value is
    [true]. *)
Definition count_true (o : jsobj bool) : nat :=
  List.length (filter (fun kv => snd kv) o).

(** [o[k]] is truthy, for a dictionary of booleans. *)
Definition truthy (k : string) (o : jsobj bool) : bool :=
  match get k o with Some true => true | _ => false end.

(** [o[k] === false]. *)
Definition is_false (k : string) (o : jsobj bool) : bool :=
  match get k o with Some false => true | _ => false end.

End JsObj.
Import JsObj.

(** ** The execution context of a command

    A handler runs with [this] bound to the context of one invocation and
    acts through it.  The calls a handler makes on its context, and the
    assignments it makes to shared objects, are the constructors of
    [prog]; a handler is a function from its arguments to a [prog]. *)

Module Context.

(** What a handler returns. *)
Inductive retval : Type :=
| Undefined
| JsFalse
| JsTrue
| JsString (s : string).

(** Replies and assignments to shared state. *)
Inductive action : Type :=
| sendReply (message : string)
| sendReplyBox (html : string)
| logModCommand (message : string)
| lobby_addRaw (html : string)          (* Rooms.lobby.addRaw(html) *)
| simulator_eval (code : string)        (* Simulator.SimulatorProcess.eval(code) *)
| set_rulesLink (link : string)         (* room.rulesLink = link *)
| set_chatRoomData_rulesLink (link : string)
| writeChatRoomData                     (* Rooms.global.writeChatRoomData() *)
| set_potd (pokemon : string)           (* config.potd = pokemon *)
| popupReply (message : string)
| room_add (message : string)           (* room.add(message) *)
| leave_lobby                           (* user.leaveRoom(Rooms.lobby, ...) *)
| join_lobby                            (* user.joinRoom(Rooms.lobby, ...) *)
| connection_send (data : string).

Inductive prog : Type :=
| Return (v : retval)
| Do (a : action) (k : prog)
| canBroadcast (k : bool -> prog)              (* this.canBroadcast() *)
| can (permission : string) (k : bool -> prog) (* this.can(permission, ...) *)
| broadcasting (k : bool -> prog)              (* this.broadcasting *)
| parse (message : string) (k : retval -> prog) (* this.parse(message) *)
| random_sort (l : list string) (k : list string -> prog).
    (* l.sort(function(a,b) {return Math.round(Math.random());}) *)

(** [return this.sendReply(m)] and its like. *)
Definition reply (a : action) : prog := Do a (Return Undefined).

(** A run of actions, then [k]. *)
Definition sends (l : list action) (k : prog) : prog := fold_right Do k l.

(** [if (!this.canBroadcast()) return; body]. *)
Definition guarded (body : prog) : prog :=
  canBroadcast (fun ok => if negb ok then Return Undefined else body).

(** What the context of one run answers to the calls of a handler: the
    sigil the command was typed with, whether the user may broadcast
    (permission and cooldown), what the permission provider grants, what
    nested commands return, and how the random sort leaves an array. *)
Record invocation : Type := {
  sigil : bool;                       (* typed as !command *)
  may_broadcast : bool;
  grants : string -> bool;
  nested : string -> retval;          (* what this.parse returns *)
  shuffled : list string -> list string
}.

(** What an observer of the invocation sees, in order.  [Called room a]
    is the action [a], [room] telling whether replies then went to the
    whole room; a refused check stands for the notice the gate gives. *)
Inductive event : Type :=
| BroadcastChecked (granted : bool)
| PermissionChecked (permission : string) (granted : bool)
| Called (room : bool) (a : action)
| Parsed (message : string).

(** Modelled from the spec: the Broadcast Controller and the Permission
    Gate behind [this.canBroadcast] and [this.can], which commands.js
    calls and does not define.  As the specification and the header of
    commands.js describe them, [canBroadcast] returns false when the
    command was typed with the broadcast sigil and the user may not
    broadcast, and otherwise returns true, having set replies up to go to
    the room when the sigil was used; [can] returns what the permission
    provider grants and, when it refuses, gives the user the
    access-denied notice itself.  [flag] is [this.broadcasting]. *)
Fixpoint exec (c : invocation) (flag : bool) (p : prog) : list event * retval :=
  match p with
  | Return v => ([], v)
  | Do a k =>
      let '(t, v) := exec c flag k in (Called flag a :: t, v)
  | canBroadcast k =>
      if sigil c then
        if may_broadcast c then
          let '(t, v) := exec c true (k true) in (BroadcastChecked true :: t, v)
        else
          let '(t, v) := exec c flag (k false) in (BroadcastChecked false :: t, v)
      else
        let '(t, v) := exec c flag (k true) in (BroadcastChecked true :: t, v)
  | can permission k =>
      let g := grants c permission in
      let '(t, v) := exec c flag (k g) in (PermissionChecked permission g :: t, v)
  | broadcasting k => exec c flag (k flag)
  | parse message k =>
      let '(t, v) := exec c flag (k (nested c message)) in (Parsed message :: t, v)
  | random_sort l k => exec c flag (k (shuffled c l))
  end.

(** An invocation starts in the private state. *)
Definition run (c : invocation) (p : prog) : list event * retval :=
  exec c false p.

Definition trace (c : invocation) (p : prog) : list event := fst (run c p).

(** A program that returns at once, with [undefined], whenever the
    broadcast check answers no. *)
Inductive obedient : prog -> Prop :=
| obedient_Return v : obedient (Return v)
| obedient_Do a k : obedient k -> obedient (Do a k)
| obedient_canBroadcast k :
    k false = Return Undefined -> obedient (k true) -> obedient (canBroadcast k)
| obedient_can permission k :
    (forall b, obedient (k b)) -> obedient (can permission k)
| obedient_broadcasting k :
    (forall b, obedient (k b)) -> obedient (broadcasting k)
| obedient_parse message k :
    (forall v, obedient (k v)) -> obedient (parse message k)
| obedient_random_sort l k :
    (forall l', obedient (k l')) -> obedient (random_sort l k).

(** The broadcast check passes: the command was typed with the private
    sigil, or the user may broadcast. *)
Definition passes_broadcast (c : invocation) : Prop :=
  sigil c = true -> may_broadcast c = true.

(** The shared objects the handlers assign to. *)
Record shared : Type := {
  room_rulesLink : option string;
  chatRoomData_rulesLink : option string;
  config_potd : string
}.

Definition assign (a : action) (w : shared) : shared :=
  match a with
  | set_rulesLink link =>
      {| room_rulesLink := Some link;
         chatRoomData_rulesLink := chatRoomData_rulesLink w;
         config_potd := config_potd w |}
  | set_chatRoomData_rulesLink link =>
      {| room_rulesLink := room_rulesLink w;
         chatRoomData_rulesLink := Some link;
         config_potd := config_potd w |}
  | set_potd pokemon =>
      {| room_rulesLink := room_rulesLink w;
         chatRoomData_rulesLink := chatRoomData_rulesLink w;
         config_potd := pokemon |}
  | _ => w
  end.

(** The shared objects after the events of a run. *)
Definition after (t : list event) (w : shared) : shared :=
  fold_left (fun w e => match e with Called _ a => assign a w | _ => w end) t w.

(** What the handler itself did in a run: its replies, its assignments
    and its other calls. *)
Definition actions (t : list event) : list action :=
  flat_map (fun e => match e with Called _ a => [a] | _ => [] end) t.

(** The permissions the gate refused in a run; the gate tells the user
    so once for each. *)
Definition denials (t : list event) : list string :=
  flat_map (fun e => match e with
                     | PermissionChecked p false => [p]
                     | _ => []
                     end) t.

End Context.
Import Context.

(** ** The catalogue and its data provider ([Tools]) *)

(** An ability or move descriptor, as [Tools.getAbility] and
    [Tools.getMove] return it.  [text] is the string the descriptor
    becomes when it is concatenated to a string. *)
Record effect : Type := {
  exists_ : bool;
  name : string;
  id_ : string;
  text : string
}.

(** A species template, as [Tools.getTemplate] returns it.  [speciesid]
    is its [id]; [learnset] is [None] when the template has none and
    otherwise lists the move ids it has an entry for; [prevo] is empty
    when there is no earlier evolution; [abilities] lists the values of
    the template's ability slots. *)
Record template : Type := {
  speciesid : string;
  species : string;
  baseSpecies : string;
  tier : string;
  types : list string;
  abilities : list string;
  color : string;
  gen : nat;
  evos : list string;
  prevo : string;
  isMega : bool;
  learnset : option (list string)
}.

Record tools : Type := {
  (** the keys of [Tools.data.Pokedex], in enumeration order *)
  Pokedex : list string;
  getTemplate : string -> template;
  getAbility : string -> effect;
  getMove : string -> effect;
  (** the keys of [Tools.data.TypeChart] *)
  TypeChart : list string;
  (** [Tools.data.Formats['lc'].banlist] *)
  lc_banlist : list string
}.

(** Membership of a string in an array or in the own keys of an object. *)
Definition mem (x : string) (l : list string) : bool :=
  existsb (String.eqb x) l.

(** The names of the properties every object inherits from
    [Object.prototype]: those of the language and the accessors V8 adds.
    No library of the server is taken to add a property to it. *)
Definition inherited : list string :=
  ["constructor"; "toString"; "toLocaleString"; "valueOf"; "hasOwnProperty";
   "isPrototypeOf"; "propertyIsEnumerable"; "__defineGetter__";
   "__defineSetter__"; "__lookupGetter__"; "__lookupSetter__"; "__proto__"].

(** [k in o] for an object literal whose own keys are [own]: the test
    succeeds on the own keys and on the inherited names. *)
Definition js_in (k : string) (own : list string) : bool :=
  mem k own || mem k inherited.

(** ** [dexsearch]: the parsing phase *)

Module Parse.

Definition allTiers : list string := ["uber"; "ou"; "lc"; "cap"; "bl"].

Definition allColours : list string :=
  ["green"; "red"; "blue"; "white"; "brown"; "yellow"; "purple"; "pink";
   "gray"; "black"].

(** The variables the token loop updates: [searches], [showAll] and
    [megaSearch] ([None] is [null]). *)
Record state : Type := {
  searches : jsobj (jsobj bool);
  showAll : bool;
  megaSearch : option bool
}.

Definition initial : state :=
  {| searches := []; showAll := false; megaSearch := None |}.

(** [searches[cat]], after [if (!searches[cat]) searches[cat] = {}]. *)
Definition category (cat : string) (s : jsobj (jsobj bool)) : jsobj bool :=
  match get cat s with Some o => o | None => [] end.

(** [o[k] = v] for a boolean [v]: an own property is written, except
    under the name [__proto__], whose setter ignores a value that is no
    object. *)
Definition assign (k : string) (v : bool) (o : jsobj bool) : jsobj bool :=
  if String.eqb k "__proto__" then o else set k v o.

(** [if (!searches[cat]) searches[cat] = {}; searches[cat][k] = v]. *)
Definition record (cat k : string) (v : bool) (st : state) : state :=
  {| searches := set cat (assign k v (category cat (searches st))) (searches st);
     showAll := showAll st;
     megaSearch := megaSearch st |}.

(** The token after [trim().toLowerCase()], and whether it began with
    an exclamation mark (which is then removed); [trim] and [toLowerCase]
    are those of ASCII text. *)
Definition normalise (raw : string) : bool * string :=
  let target := toLowerCase (trim raw) in
  if String.eqb (slice 0 1 target) "!" then (true, slice_from 1 target)
  else (false, target).

(** [0 < parseInt(target) && parseInt(target) < 7]. *)
Definition is_gen (target : string) : bool :=
  match parseInt target with
  | Some n => ((0 <? n) && (n <? 7))%Z
  | None => false
  end.

(** The value [target] takes in the type branch:
    [target.charAt(0).toUpperCase() + target.slice(1, target.indexOf(' type'))]. *)
Definition type_word (target : string) (i : nat) : string :=
  toUpperCase (charAt0 target) ++ slice 1 i target.

Definition not_found (target : string) : string :=
  dq ++ target ++ dq ++ " could not be found in any of the search categories.".

(** The last branch of the loop body: [target] is looked up as a move. *)
Definition move_branch (T : tools) (isNotSearch : bool) (target : string)
    (st : state) : string + state :=
  let targetMove := getMove T target in
  if exists_ targetMove then
    if (count_true (category "moves" (searches st)) =? 4)%nat && negb isNotSearch
    then inl "Specify a maximum of 4 moves."
    else inr (record "moves" (name targetMove) (negb isNotSearch) st)
  else inl (not_found target).

(** One turn of [for (var i in targets)]: the reply the handler returns
    with, or the updated variables. *)
Definition token (T : tools) (broadcasting : bool) (st : state) (raw : string)
    : string + state :=
  let '(isNotSearch, target) := normalise raw in
  let targetAbility := getAbility T raw in
  if exists_ targetAbility then
    if (count_true (category "ability" (searches st)) =? 1)%nat && negb isNotSearch
    then inl "Specify only one ability."
    else inr (record "ability" (name targetAbility) (negb isNotSearch) st)
  else if js_in target allTiers then
    inr (record "tier" target (negb isNotSearch) st)
  else if js_in target allColours then
    inr (record "color" target (negb isNotSearch) st)
  else if is_gen target then
    inr (record "gen" target (negb isNotSearch) st)
  else if String.eqb target "all" then
    if broadcasting
    then inl ("A search with the parameter " ++ dq ++ "all" ++ dq
              ++ " cannot be broadcast.")
    else inr {| searches := searches st; showAll := true;
                megaSearch := megaSearch st |}
  else if String.eqb target "megas" || String.eqb target "mega" then
    inr {| searches := searches st; showAll := showAll st;
           megaSearch := Some (negb isNotSearch) |}
  else
    match indexOf " type" target with
    | Some i =>
        let target := type_word target i in
        if js_in target (TypeChart T) then
          if (count_true (category "types" (searches st)) =? 2)%nat
             && negb isNotSearch
          then inl "Specify a maximum of two types."
          else inr (record "types" target (negb isNotSearch) st)
        else move_branch T isNotSearch target st
    | None => move_branch T isNotSearch target st
    end.

(** The tests of the loop body between the ability test and the type
    test: tier, colour, generation, [all], [mega]. *)
Definition keyword (target : string) : bool :=
  js_in target allTiers || js_in target allColours || is_gen target
  || String.eqb target "all"
  || (String.eqb target "megas" || String.eqb target "mega").

(** The type a token names: it contains [" type"] and the word before it,
    capitalised, is in the type chart. *)
Definition as_type (T : tools) (target : string) : option string :=
  match indexOf " type" target with
  | Some i =>
      if js_in (type_word target i) (TypeChart T) then Some (type_word target i)
      else None
  | None => None
  end.

(** What [target] holds when the loop body looks it up as a move. *)
Definition search_term (target : string) : string :=
  match indexOf " type" target with
  | Some i => type_word target i
  | None => target
  end.

(** The whole loop over [targets]. *)
Fixpoint tokens (T : tools) (broadcasting : bool) (st : state)
    (targets : list string) : string + state :=
  match targets with
  | [] => inr st
  | raw :: rest =>
      match token T broadcasting st raw with
      | inl reply => inl reply
      | inr st' => tokens T broadcasting st' rest
      end
  end.

Definition only_all : string :=
  "No search parameters other than " ++ dq ++ "all" ++ dq ++ " were found."
  ++ nl
  ++ "Try " ++ dq ++ "/help dexsearch" ++ dq
  ++ " for more information on this command.".

(** The parsing phase: the token loop and the check that follows it. *)
Definition parse (T : tools) (broadcasting : bool) (targets : list string)
    : string + state :=
  match tokens T broadcasting initial targets with
  | inl reply => inl reply
  | inr st =>
      if showAll st && (size (searches st) =? 0)%nat
         && match megaSearch st with None => true | Some _ => false end
      then inl only_all
      else inr st
  end.

(** What one accepted token does to the variables of the loop. *)
Inductive accepted (st : state) : state -> Prop :=
| acc_record cat k v :
    (v = true -> cat = "ability" ->
     count_true (category "ability" (searches st)) <> 1) ->
    (v = true -> cat = "types" ->
     count_true (category "types" (searches st)) <> 2) ->
    (v = true -> cat = "moves" ->
     count_true (category "moves" (searches st)) <> 4) ->
    (cat = "types" -> k <> "undefined") ->
    accepted st (record cat k v st)
| acc_all :
    accepted st {| searches := searches st; showAll := true;
                   megaSearch := megaSearch st |}
| acc_mega m :
    accepted st {| searches := searches st; showAll := showAll st;
                   megaSearch := Some m |}.


Definition types_named (st : state) : Prop :=
  get "undefined" (category "types" (searches st)) = None.

End Parse.

(** ** [dexsearch]: the evaluation phase *)

Module Filter.

(** [dex], between the passes: species id to template. *)
Definition dex : Type := jsobj template.

(** The condition under which a species of the Pokedex enters [dex]. *)
Definition legal (st : Parse.state) (t : template) : bool :=
  negb (String.eqb (tier t) "Illegal")
  && (negb (String.eqb (tier t) "CAP")
      || match get "tier" (Parse.searches st) with
         | Some o => truthy "cap" o
         | None => false
         end)
  && match Parse.megaSearch st with
     | None => true
     | Some true => isMega t
     | Some false => negb (isMega t)
     end.

(** [for (var pokemon in Tools.data.Pokedex) ...]. *)
Definition initial_dex (T : tools) (st : Parse.state) : dex :=
  fold_left
    (fun d pokemon =>
       let t := getTemplate T pokemon in
       if legal st t then set pokemon t d else d)
    (Pokedex T) [].

(** [a[i]] used as a property name: a missing element reads as
    [undefined], whose name as a property is the string of that word. *)
Definition prop_name (l : list string) (i : nat) : string :=
  nth i l "undefined".

(** *** The passes that only delete the entry they visit *)

(** [case 'types']: whether the entry is deleted. *)
Definition types_deleted (s : jsobj bool) (t : template) : bool :=
  let t0 := prop_name (types t) 0 in
  let t1 := prop_name (types t) 1 in
  if (count_true s =? 2)%nat then
    negb (truthy t0 s) || negb (truthy t1 s)
  else
    is_false t0 s || is_false t1 s
    || ((0 <? count_true s)%nat && (negb (truthy t0 s) && negb (truthy t1 s))).

Definition types_pass (s : jsobj bool) (d : dex) : dex :=
  filter (fun e => negb (types_deleted s (snd e))) d.

(** [String(dex[mon][search]).toLowerCase()] for the categories that
    compare a field. *)
Definition field (search : string) (t : template) : string :=
  toLowerCase
    (if String.eqb search "tier" then tier t
     else if String.eqb search "gen" then string_of_nat (gen t)
     else color t).

(** The test shared by [case 'tier'], [case 'gen'] and [case 'color']. *)
Definition field_deleted (search : string) (s : jsobj bool) (t : template) : bool :=
  if is_false (field search t) s then true
  else (0 <? count_true s)%nat && negb (truthy (field search t) s).

Definition field_pass (search : string) (s : jsobj bool) (d : dex) : dex :=
  filter (fun e => negb (field_deleted search s (snd e))) d.

(** [isLC], the legality computed from the evolution links. *)
Definition isLC (T : tools) (t : template) : bool :=
  (0 <? List.length (evos t))%nat
  && String.eqb (prevo t) ""
  && negb (mem (species t) (lc_banlist T)).

(** [case 'tier']: whether the entry is deleted. *)
Definition tier_deleted (T : tools) (s : jsobj bool) (t : template) : bool :=
  if has "lc" s
     && ((truthy "lc" s && negb (isLC T t)) || (negb (truthy "lc" s) && isLC T t))
  then true
  else field_deleted "tier" s t.

Definition tier_pass (T : tools) (s : jsobj bool) (d : dex) : dex :=
  filter (fun e => negb (tier_deleted T s (snd e))) d.

(** [case 'ability']: the entry is kept when, for every ability of the
    spec, having it agrees with needing it. *)
Definition ability_kept (s : jsobj bool) (t : template) : bool :=
  forallb
    (fun kv => Bool.eqb (0 <? count_occ string_dec (abilities t) (fst kv))%nat (snd kv))
    s.

Definition ability_pass (s : jsobj bool) (d : dex) : dex :=
  filter (fun e => ability_kept s (snd e)) d.

(** *** The moves pass *)

(** A value of [dex] while the moves pass runs: a template, or the
    sentinel [false] ([None]). *)
Definition marked : Type := jsobj (option template).

(** The learn-set the first loop consults for an entry: its own, or
    failing that the one of its base species; [None] is [continue]. *)
Definition learnset_of (T : tools) (t : template) : option (list string) :=
  let template := getTemplate T (speciesid t) in
  match learnset template with
  | Some l => Some l
  | None => learnset (getTemplate T (baseSpecies template))
  end.

Definition unlearnable : list string := ["chatter"; "struggle"; "magikarpsrevenge"].

Definition canLearn (l : list string) (move : effect) : bool :=
  (mem "sketch" l && negb (mem (id_ move) unlearnable)) || mem (id_ move) l.

Definition unknown_move (move : effect) : string :=
  dq ++ text move ++ dq ++ " is not a known move.".

(** [for (var i in searches[search])], for the entry [mon]. *)
Fixpoint check_moves (T : tools) (l : list string) (mon : string)
    (s : jsobj bool) (d : marked) : string + marked :=
  match s with
  | [] => inr d
  | (i, wanted) :: rest =>
      let move := getMove T i in
      if negb (exists_ move) then inl (unknown_move move)
      else if negb (canLearn l move) && wanted then
        check_moves T l mon rest (delete mon d)
      else if negb wanted && canLearn l move then
        check_moves T l mon rest (set mon None d)
      else check_moves T l mon rest d
  end.

(** The first loop.  It visits the entries [dex] had when it started;
    each turn changes the visited entry only. *)
Fixpoint mark (T : tools) (s : jsobj bool) (todo : dex) (d : marked)
    : string + marked :=
  match todo with
  | [] => inr d
  | (mon, t) :: rest =>
      match learnset_of T t with
      | None => mark T s rest d
      | Some l =>
          match check_moves T l mon s d with
          | inl reply => inl reply
          | inr d' => mark T s rest d'
          end
      end
  end.

(** [if (dex[evo] !== false) dex[evo] = Tools.getTemplate(evo)]. *)
Definition pull (T : tools) (d : marked) (evo : string) : marked :=
  match get evo d with
  | Some None => d
  | _ => set evo (Some (getTemplate T evo)) d
  end.

(** One turn of the second loop.  The evolutions are those of the
    template [dex[mon]] holds when the turn starts. *)
Definition propagate_step (T : tools) (d : marked) (mon : string) : marked :=
  match get mon d with
  | None => d
  | Some None => delete mon d
  | Some (Some t) =>
      let d' := fold_left (pull T) (evos t) d in
      match get mon d' with
      | Some (Some _) => d'
      | _ => delete mon d'
      end
  end.

(** The second loop, over the keys [dex] has when it starts. *)
Definition propagate (T : tools) (d : marked) : marked :=
  fold_left (propagate_step T) (keys d) d.

(** The entries of [dex] that hold a template. *)
Fixpoint templates (d : marked) : dex :=
  match d with
  | [] => []
  | (mon, Some t) :: rest => (mon, t) :: templates rest
  | (mon, None) :: rest => templates rest
  end.

(** [case 'moves']. *)
Definition moves_pass (T : tools) (s : jsobj bool) (d : dex) : string + dex :=
  match mark T s d (map (fun e => (fst e, Some (snd e))) d) with
  | inl reply => inl reply
  | inr d' => inr (templates (propagate T d'))
  end.

(** [dex] holds a template under [k]. *)
Definition holds_template (d : marked) (k : string) : Prop :=
  exists t, get k d = Some (Some t).

(** Every template of [dex] is the one the provider gives for its key. *)
Definition canonical (T : tools) (d : marked) : Prop :=
  forall k t, get k d = Some (Some t) -> t = getTemplate T k.

(** *** The sequence of passes *)

Definition broke : string :=
  "Something broke! PM TalkTakesTime here or on the Smogon forums with the command you tried.".

(** The body of [for (var search in {...})] for one category: the reply
    the handler returns with, or [dex] after the pass. *)
Definition pass (T : tools) (searches : jsobj (jsobj bool)) (search : string)
    (d : dex) : action + dex :=
  match get search searches with
  | None => inr d
  | Some s =>
      if String.eqb search "types" then inr (types_pass s d)
      else if String.eqb search "tier" then inr (tier_pass T s d)
      else if String.eqb search "gen" || String.eqb search "color"
      then inr (field_pass search s d)
      else if String.eqb search "ability" then inr (ability_pass s d)
      else if String.eqb search "moves" then
        match moves_pass T s d with
        | inl html => inl (sendReplyBox html)
        | inr d' => inr d'
        end
      else inl (sendReply broke)
  end.

(** The keys of the object literal the loop enumerates. *)
Definition order : list string :=
  ["moves"; "types"; "ability"; "tier"; "gen"; "color"].

Fixpoint passes (T : tools) (searches : jsobj (jsobj bool))
    (cats : list string) (d : dex) : action + dex :=
  match cats with
  | [] => inr d
  | search :: rest =>
      match pass T searches search d with
      | inl a => inl a
      | inr d' => passes T searches rest d'
      end
  end.

(** The evaluation phase: the reply of an aborted pass, or the final [dex]. *)
Definition run (T : tools) (st : Parse.state) : action + dex :=
  passes T (Parse.searches st) order (initial_dex T st).

(** [Object.keys(dex).map(function(speciesid) {return dex[speciesid].species;})] *)
Definition results (d : dex) : list string := map (fun e => species (snd e)) d.

End Filter.

(** ** [dexsearch]: the reply *)

Module Output.

(** [results.sort()]: the strings in ascending order of their code
    units.  The order is total, so the sorted array does not depend on the
    sorting algorithm; insertion is used here. *)
Fixpoint insert (x : string) (l : list string) : list string :=
  match l with
  | [] => [x]
  | y :: l' => if String.leb x y then x :: l else y :: insert x l'
  end.

Fixpoint sort (l : list string) : list string :=
  match l with
  | [] => []
  | x :: l' => insert x (sort l')
  end.

(** The order of [sort]. *)
Definition le (a b : string) : Prop := String.leb a b = true.

(** The display cap, [output]. *)
Definition output : nat := 10.

(** Modelled from the spec: the global helper [string] of the server,
    which commands.js calls and does not define.  The reply states how
    many further matches exist: the helper renders the number in
    decimal. *)
Definition string_ (n : nat) : string := string_of_nat n.

Definition redo : string :=
  " more. Redo the search with " ++ dq ++ "all" ++ dq
  ++ " as a search parameter to show all results.".

(** [resultsStr].  [shuffled] is the array after
    [results.sort(function(a,b) {return Math.round(Math.random());})],
    consulted only on the branch that sorts that way. *)
Definition resultsStr (showAll : bool) (results shuffled : list string) : string :=
  if (0 <? List.length results)%nat then
    if showAll || (List.length results <=? output)%nat then
      join ", " (sort results)
    else
      join ", " (firstn 10 shuffled) ++ ", and "
      ++ string_ (List.length results - output) ++ redo
  else "No Pokémon found.".

End Output.

(** ** The commands *)

Module Commands.

Record User : Type := {
  userid : string;
  uname : string;                 (* user.name *)
  group : string;
  prevNames : list string;        (* the values of user.prevNames *)
  named : bool;
  connected : bool;
  isSysop : bool;
  authenticated : bool;
  ips : list string;              (* Object.keys(user.ips) *)
  latestIp : string;
  roomCount : list string         (* the keys of user.roomCount *)
}.

Record Room : Type := {
  room_id : string;
  title : string;
  rulesLink : option string;
  chatRoomData : bool             (* room.chatRoomData is set *)
}.

(** The arguments of a handler, [function(target, room, user, connection, cmd)]. *)
Record args : Type := {
  target : string;
  room : Room;
  user : User;
  cmd : string
}.

(** An entry of [Tools.dataSearch]. *)
Record found : Type := {
  found_id : string;
  found_name : string;
  searchType : string
}.

(** The collaborators of the handlers.  The last six fields stand for
    the part of a handler that computes replies from the team validator,
    the type chart, the process clock or [Math.random]: that part makes no
    call on the context other than the replies listed. *)
Record services : Type := {
  Tools : tools;
  toId : string -> string;
  sanitize : string -> string;
  (** [this.splitTarget(target)]: [this.targetUser], [this.targetUsername]
      and the rest of the target *)
  splitTarget : string -> option User * string * string;
  user_can : User -> string -> User -> bool;   (* user.can(permission, target) *)
  getAlts : User -> list User;                 (* Users.get over user.getAlts() *)
  group_name : string -> option string;        (* config.groups[g].name *)
  groupsranking0 : string;                     (* config.groupsranking[0] *)
  isPrivate : string -> bool;                  (* Rooms.get(id).isPrivate *)
  room_exists : string -> bool;                (* Rooms.get(id) *)
  has_lobby : bool;                            (* Rooms.lobby *)
  Users_users : list User;                     (* the values of Users.users *)
  dataSearch : string -> list found;           (* empty for null *)
  data_alias : string -> bool;                 (* Tools.data.Aliases[id] *)
  found_exists : string -> string -> bool;     (* Tools[method](x).exists *)
  learn_rest : string -> string -> list action;
  weakness_rest : string -> list action;
  effectiveness_text : string -> string;
  uptimeText : string;
  smogdex_rest : string -> list action;
  dice_rest : string -> list action
}.

Definition handler : Type := args -> prog.

(** [user === targetUser]. *)
Definition same_user (u v : User) : bool := String.eqb (userid u) (userid v).

(** A string is truthy when it is not empty. *)
Definition nonempty (s : string) : bool := negb (String.eqb s "").

(** [this.targetUserOrSelf(target)], with [this.targetUsername]. *)
Definition targetUserOrSelf (S : services) (a : args) : option User * string :=
  if nonempty (target a) then
    let '(u, n, _) := splitTarget S (target a) in (u, n)
  else (Some (user a), uname (user a)).

(** The loop that joins previous names: [if (output) output += ", "; output += n]. *)
Definition names (l : list string) : string :=
  fold_left (fun output n => (if nonempty output then output ++ ", " else output) ++ n)
    l "".

Definition previous (u : User) : list action :=
  if nonempty (names (prevNames u))
  then [sendReply ("Previous names: " ++ names (prevNames u))]
  else [].

Definition alt_lines (viewer targetAlt : User) : list action :=
  if negb (named targetAlt) && negb (connected targetAlt) then []
  else if String.eqb (group targetAlt) "~" && negb (String.eqb (group viewer) "~")
  then []
  else (sendReply ("Alt: " ++ uname targetAlt) :: previous targetAlt)%list.

(** The line that lists the IP addresses of a user. *)
Definition ip_line (targetUser : User) : string :=
  "IP" ++ (if (1 <? List.length (ips targetUser))%nat then "s" else "") ++ ": "
  ++ join ", " (ips targetUser).

Definition room_link (i : string) : string :=
  "<a href=" ++ dq ++ "/" ++ i ++ dq ++ " room=" ++ dq ++ i ++ dq ++ ">" ++ i ++ "</a>".

Definition rooms_line (S : services) (targetUser : User) : string :=
  "In rooms: "
  ++ join " | "
       (map room_link
          (filter (fun i => negb (String.eqb i "global" || isPrivate S i))
             (roomCount targetUser))).

(** The replies [whois] sends before it comes to the IP addresses. *)
Definition heading (S : services) (x : args) (targetUser : User) : list action :=
  ([sendReply ("User: " ++ uname targetUser)]
   ++ (if user_can S (user x) "alts" targetUser
       then previous targetUser
            ++ flat_map (alt_lines (user x)) (getAlts S targetUser)
       else [])
   ++ match group_name S (group targetUser) with
      | Some n => [sendReply ("Group: " ++ n ++ " (" ++ group targetUser ++ ")")]
      | None => []
      end
   ++ (if isSysop targetUser
       then [sendReply "(Pokémon Showdown System Operator)"] else [])
   ++ (if negb (authenticated targetUser)
       then [sendReply "(Unregistered)"] else []))%list.

(** Whether [whois] sends the line of IP addresses. *)
Definition shows_ip (S : services) (x : args) (flag : bool) (targetUser : User)
    : bool :=
  negb flag
  && (user_can S (user x) "ip" targetUser || same_user (user x) targetUser).

(** [whois], line 155. *)
Definition whois (S : services) (a : args) : prog :=
  match targetUserOrSelf S a with
  | (None, targetUsername) =>
      reply (sendReply ("User " ++ targetUsername ++ " not found."))
  | (Some targetUser, _) =>
      sends (heading S a targetUser)
        (broadcasting (fun b =>
           sends
             (if shows_ip S a b targetUser
              then [sendReply (ip_line targetUser)] else [])
             (reply (sendReply ("|raw|" ++ rooms_line S targetUser)))))
  end.

(** A reply that is not a line of IP addresses: it does not begin with
    the letters IP. *)
Definition other_line (x : action) : Prop :=
  match x with
  | sendReply m => prefix "IP" m = false
  | _ => True
  end.

(** [ipsearch], line 210. *)
Definition ipsearch (S : services) (a : args) : prog :=
  can "rangeban" (fun ok =>
    if negb ok then Return Undefined
    else
      let hits := filter (fun u => String.eqb (latestIp u) (target a)) (Users_users S) in
      sends
        ([sendReply ("Users with IP " ++ target a ++ ":")]
         ++ map (fun u => sendReply ((if connected u then "+" else "-") ++ " " ++ uname u))
              hits
         ++ match hits with [] => [sendReply "No results found."] | _ => [] end)%list
        (Return Undefined)).

(** [invite], line 228. *)
Definition invite (S : services) (a : args) : prog :=
  let '(targetUser, targetUsername, rest) := splitTarget S (target a) in
  match targetUser with
  | None => reply (sendReply ("User " ++ targetUsername ++ " not found."))
  | Some _ =>
      let roomid := if nonempty rest then rest else room_id (room a) in
      if negb (room_exists S roomid)
      then reply (sendReply ("Room " ++ roomid ++ " not found."))
      else parse ("/msg " ++ targetUsername ++ ", /invite " ++ roomid) Return
  end.

(** The text [data] sends. *)
Definition data_text (S : services) (target : string) : string :=
  let targetId := toId S target in
  match dataSearch S target with
  | [] =>
      "No Pokemon, item, move or ability named '" ++ target
      ++ "' was found. (Check your spelling?)"
  | first :: _ =>
      (if negb (String.eqb (found_id first) targetId) && negb (data_alias S targetId)
       then "No Pokemon, item, move or ability named '" ++ target
            ++ "' was found. Showing the data of '" ++ found_name first
            ++ "' instead." ++ nl
       else "")
      ++ String.concat ""
           (map (fun f => "|c|~|/data-" ++ searchType f ++ " " ++ found_name f ++ nl)
              (dataSearch S target))
  end.

(** [data], line 247. *)
Definition data (S : services) (a : args) : prog :=
  guarded (reply (sendReply (data_text S (target a)))).

(** [dexsearch], line 268. *)
Definition dexsearch (S : services) (a : args) : prog :=
  guarded
    (if negb (nonempty (target a)) then parse "/help dexsearch" Return
     else
       broadcasting (fun b =>
         match Parse.parse (Tools S) b (split "," (target a)) with
         | inl message => reply (sendReply message)
         | inr st =>
             match Filter.run (Tools S) st with
             | inl r => reply r
             | inr d =>
                 let results := Filter.results d in
                 if (0 <? List.length results)%nat
                    && negb (Parse.showAll st
                             || (List.length results <=? Output.output)%nat)
                 then
                   random_sort results (fun shuffled =>
                     reply (sendReplyBox
                              (Output.resultsStr (Parse.showAll st) results shuffled)))
                 else
                   reply (sendReplyBox
                            (Output.resultsStr (Parse.showAll st) results results))
             end
         end)).

(** The reply of a run in which the broadcast check passes. *)
Definition answer (c : invocation) (S : services) (target : string) : action :=
  match Parse.parse (Tools S) (sigil c) (split "," target) with
  | inl message => sendReply message
  | inr st =>
      match Filter.run (Tools S) st with
      | inl r => r
      | inr d =>
          sendReplyBox
            (Output.resultsStr (Parse.showAll st) (Filter.results d)
               (shuffled c (Filter.results d)))
      end
  end.

(** [learn], line 458. *)
Definition learn (S : services) (a : args) : prog :=
  if negb (nonempty (target a)) then parse "/help learn" Return
  else guarded (sends (learn_rest S (target a) (cmd a)) (Return Undefined)).

(** [weakness], line 519. *)
Definition weakness (S : services) (a : args) : prog :=
  sends (weakness_rest S (target a)) (Return Undefined).

(** The inner loop of [effectiveness]: the first method under which the
    name exists. *)
Definition search (S : services) (searchMethods : list string) (x : string)
    : option string :=
  find (fun method => found_exists S method x) searchMethods.

Definition sourceMethods : list string := ["getType"; "getMove"].
Definition targetMethods : list string := ["getType"; "getTemplate"].

(** [effectiveness], line 558. *)
Definition effectiveness (S : services) (a : args) : prog :=
  let targets := firstn 2 (split_any ["," ; "/"]%char (target a)) in
  if negb (List.length targets =? 2)%nat
  then reply (sendReply "Attacker and defender must be separated with a comma.")
  else
    match search S ["getType"; "getMove"; "getTemplate"] (nth 0 targets "") with
    | None => parse "/help effectiveness" Return
    | Some method =>
        let searchMethods :=
          if mem method sourceMethods then targetMethods else sourceMethods in
        match search S searchMethods (nth 1 targets "") with
        | None => parse "/help effectiveness" Return
        | Some _ =>
            guarded (reply (sendReplyBox (effectiveness_text S (target a))))
        end
    end.

(** [uptime], line 611. *)
Definition uptime (S : services) (a : args) : prog :=
  guarded (reply (sendReplyBox ("Uptime: <b>" ++ uptimeText S ++ "</b>"))).

(** [roomhelp], line 755. *)
Definition roomhelp (a : args) : prog :=
  if String.eqb (room_id (room a)) "lobby"
  then reply (sendReply "This command is too spammy for lobby.")
  else guarded (reply (sendReplyBox
    "Room drivers (%) can use:<br />- /warn OR /k <em>username</em>: warn a user and show the Pokemon Showdown rules<br />- /mute OR /m <em>username</em>: 7 minute mute<br />- /hourmute OR /hm <em>username</em>: 60 minute mute<br />- /unmute <em>username</em>: unmute<br />- /announce OR /wall <em>message</em>: make an announcement<br /><br />Room moderators (@) can also use:<br />- /roomban OR /rb <em>username</em>: bans user from the room<br />- /roomunban <em>username</em>: unbans user from the room<br />- /roomvoice <em>username</em>: appoint a room voice<br />- /roomdevoice <em>username</em>: remove a room voice<br />- /modchat <em>[off/autoconfirmed/+]</em>: set modchat level<br /><br />Room owners (#) can also use:<br />- /roomdesc <em>description</em>: set the room description on the room join page<br />- /rules <em>rules link</em>: set the room rules link seen when using /rules<br />- /roommod, /roomdriver <em>username</em>: appoint a room moderator/driver<br />- /roomdemod, /roomdedriver <em>username</em>: remove a room moderator/driver<br />- /modchat <em>[%/@/#]</em>: set modchat level<br />- /declare <em>message</em>: make a global declaration<br /></div>")).

Definition restarthelp_text : string :=
  "The server is restarting. Things to know:<br />- We wait a few minutes before restarting so people can finish up their battles<br />- The restart itself will take around 0.6 seconds<br />- Your ladder ranking and teams will not change<br />- We are restarting to update Pokémon Showdown to a newer version</div>".

(** [restarthelp], line 782. *)
Definition restarthelp (a : args) : prog :=
  if String.eqb (room_id (room a)) "lobby" then
    can "lockdown" (fun ok =>
      if negb ok then Return JsFalse
      else guarded (reply (sendReplyBox restarthelp_text)))
  else guarded (reply (sendReplyBox restarthelp_text)).

(** [room.rulesLink] is truthy. *)
Definition has_rules (r : Room) : bool :=
  match rulesLink r with Some l => nonempty l | None => false end.

Definition rules_text (S : services) (r : Room) : string :=
  "Please follow the rules:<br />"
  ++ (if has_rules r
      then "- <a href=" ++ dq
           ++ sanitize S (match rulesLink r with Some l => l | None => "" end)
           ++ dq ++ ">" ++ sanitize S (title r) ++ " room rules</a><br />"
      else "")
  ++ "- <a href=" ++ dq ++ "http://pokemonshowdown.com/rules" ++ dq ++ ">"
  ++ (if has_rules r then "Global rules" else "Rules") ++ "</a><br />"
  ++ "</div>".

(** [rules], line 794. *)
Definition rules (S : services) (a : args) : prog :=
  if negb (nonempty (target a)) then
    guarded (reply (sendReplyBox (rules_text S (room a))))
  else
    can "roommod" (fun ok =>
      if negb ok then Return Undefined
      else if (80 <? code_units (target a))%nat then
        reply (sendReply
                 "Error: Room rules link is too long (must be under 80 characters). You can use a URL shortener to shorten the link.")
      else
        Do (set_rulesLink (trim (target a)))
          (Do (sendReply ("(The room rules link is now: " ++ target a ++ ")"))
             (if chatRoomData (room a) then
                Do (set_chatRoomData_rulesLink (trim (target a)))
                  (Do writeChatRoomData (Return Undefined))
              else Return Undefined))).

(** [smogdex], line 905. *)
Definition smogdex (S : services) (a : args) : prog :=
  guarded (sends (smogdex_rest S (target a)) (Return Undefined)).

(** [birkal], line 1123. *)
Definition birkal (a : args) : prog :=
  reply (sendReply "It's not funny anymore.").

(** [potd], line 1132. *)
Definition potd (S : services) (a : args) : prog :=
  can "potd" (fun ok =>
    if negb ok then Return JsFalse
    else
      Do (set_potd (target a))
        (Do (simulator_eval ("config.potd = '" ++ toId S (target a) ++ "'"))
           (if nonempty (target a) then
              sends
                ((if has_lobby S
                  then [lobby_addRaw
                          ("<div class=" ++ dq ++ "broadcast-blue" ++ dq
                           ++ "><b>The Pokemon of the Day is now " ++ target a
                           ++ "!</b><br />This Pokemon will be guaranteed to show up in random battles.</div>")]
                  else [])
                 ++ [logModCommand
                       ("The Pokemon of the Day was changed to " ++ target a
                        ++ " by " ++ uname (user a) ++ ".")])%list
                (Return Undefined)
            else
              sends
                ((if has_lobby S
                  then [lobby_addRaw
                          ("<div class=" ++ dq ++ "broadcast-blue" ++ dq
                           ++ "><b>The Pokemon of the Day was removed!</b><br />No pokemon will be guaranteed in random battles.</div>")]
                  else [])
                 ++ [logModCommand
                       ("The Pokemon of the Day was removed by "
                        ++ uname (user a) ++ ".")])%list
                (Return Undefined)))).

(** [dice], line 1147. *)
Definition dice (S : services) (a : args) : prog :=
  guarded (sends (dice_rest S (target a)) (Return Undefined)).

(** [banredirect], line 1178. *)
Definition banredirect (a : args) : prog :=
  reply (sendReply "/banredirect - This command is obsolete and has been removed.").

(** [lobbychat], line 1182. *)
Definition lobbychat (S : services) (a : args) : prog :=
  if negb (has_lobby S) then reply (popupReply "This server doesn't have a lobby.")
  else if String.eqb (toId S (target a)) "off" then
    sends [leave_lobby; connection_send "|users|";
           sendReply "You are now blocking lobby chat."] (Return Undefined)
  else
    sends [join_lobby; sendReply "You are now receiving lobby chat."]
      (Return Undefined).

(** [a], line 1195. *)
Definition a (x : args) : prog :=
  can "battlemessage" (fun ok =>
    if negb ok then Return JsFalse
    else Do (room_add (target x)) (Return Undefined)).

(** [groups], line 626. *)
Definition groups (_ : args) : prog :=
  guarded (reply (sendReplyBox
    "+ <b>Voice</b> - They can use ! commands like !groups, and talk during moderated chat<br />% <b>Driver</b> - The above, and they can mute. Global % can also lock users and check for alts<br />@ <b>Moderator</b> - The above, and they can ban users<br />&amp; <b>Leader</b> - The above, and they can promote to moderator and force ties<br />~ <b>Administrator</b> - They can do anything, like change what this message says<br /># <b>Room Owner</b> - They are administrators of the room and can almost totally control it")).

(** [website], line 636. *)
Definition website (_ : args) : prog :=
  guarded (reply (sendReplyBox
    (" <b>Website League</b> - <a href=" ++ dq ++ "http://leaf-league.weebly.com/" ++ dq ++ ">Click Here</a><br />"))).

(** [forum], line 641. *)
Definition forum (_ : args) : prog :=
  guarded (reply (sendReplyBox
    (" <b>League Forum</b> - <a href=" ++ dq ++ "http://leaf-league.forumotion.com/" ++ dq ++ ">Click Here</a> Fourm<br />"))).

(** [opensource], line 648. *)
Definition opensource (_ : args) : prog :=
  guarded (reply (sendReplyBox
    ("Pokemon Showdown is open source:<br />- Language: JavaScript<br />- <a href=" ++ dq ++ "https://github.com/Zarel/Pokemon-Showdown/commits/master" ++ dq ++ ">What's new?</a><br />- <a href=" ++ dq ++ "https://github.com/Zarel/Pokemon-Showdown" ++ dq ++ ">Server source code</a><br />- <a href=" ++ dq ++ "https://github.com/Zarel/Pokemon-Showdown-Client" ++ dq ++ ">Client source code</a>"))).

(** [avatars], line 653. *)
Definition avatars (_ : args) : prog :=
  guarded (reply (sendReplyBox
    "Your avatar can be changed using the Options menu (it looks like a gear) in the upper right of Pokemon Showdown. Custom avatars are only obtainable by staff.")).

(** [intro], line 659. *)
Definition intro (_ : args) : prog :=
  guarded (reply (sendReplyBox
    ("New to competitive pokemon?<br />- <a href=" ++ dq ++ "http://www.smogon.com/forums/threads/3496279/" ++ dq ++ ">Beginner's Guide to Pokémon Showdown</a><br />- <a href=" ++ dq ++ "http://www.smogon.com/dp/articles/intro_comp_pokemon" ++ dq ++ ">An introduction to competitive Pokémon</a><br />- <a href=" ++ dq ++ "http://www.smogon.com/bw/articles/bw_tiers" ++ dq ++ ">What do " ++ dq ++ "OU" ++ dq ++ ", " ++ dq ++ "UU" ++ dq ++ ", etc mean?</a><br />- <a href=" ++ dq ++ "http://www.smogon.com/xyhub/tiers" ++ dq ++ ">What are the rules for each format? What is " ++ dq ++ "Sleep Clause" ++ dq ++ "?</a>"))).

(** [smogintro], line 670. *)
Definition smogintro (_ : args) : prog :=
  guarded (reply (sendReplyBox
    ("Welcome to Smogon's Official Pokémon Showdown server! The Mentoring room can be found <a href=" ++ dq ++ "http://play.pokemonshowdown.com/mentoring" ++ dq ++ ">here</a> or by using /join mentoring.<br /><br />Here are some useful links to Smogon's Mentorship Program to help you get integrated into the community:<br />- <a href=" ++ dq ++ "http://www.smogon.com/mentorship/primer" ++ dq ++ ">Smogon Primer: A brief introduction to Smogon's subcommunities</a><br />- <a href=" ++ dq ++ "http://www.smogon.com/mentorship/introductions" ++ dq ++ ">Introduce yourself to Smogon!</a><br />- <a href=" ++ dq ++ "http://www.smogon.com/mentorship/profiles" ++ dq ++ ">Profiles of current Smogon Mentors</a><br />- <a href=" ++ dq ++ "http://mibbit.com/#mentor@irc.synirc.net" ++ dq ++ ">#mentor: the Smogon Mentorship IRC channel</a><br />All of these links and more can be found at the <a href=" ++ dq ++ "http://www.smogon.com/mentorship/" ++ dq ++ ">Smogon Mentorship Program's hub</a>."))).

(** [calc], line 683. *)
Definition calc (_ : args) : prog :=
  guarded (reply (sendReplyBox
    ("Pokemon Showdown! damage calculator. (Courtesy of Honko)<br />- <a href=" ++ dq ++ "http://pokemonshowdown.com/damagecalc/" ++ dq ++ ">Damage Calculator</a>"))).

(** [cap], line 689. *)
Definition cap (_ : args) : prog :=
  guarded (reply (sendReplyBox
    ("An introduction to the Create-A-Pokemon project:<br />- <a href=" ++ dq ++ "http://www.smogon.com/cap/" ++ dq ++ ">CAP project website and description</a><br />- <a href=" ++ dq ++ "http://www.smogon.com/forums/showthread.php?t=48782" ++ dq ++ ">What Pokemon have been made?</a><br />- <a href=" ++ dq ++ "http://www.smogon.com/forums/showthread.php?t=3464513" ++ dq ++ ">Talk about the metagame here</a><br />- <a href=" ++ dq ++ "http://www.smogon.com/forums/showthread.php?t=3466826" ++ dq ++ ">Practice BW CAP teams</a>"))).

(** [gennext], line 698. *)
Definition gennext (_ : args) : prog :=
  guarded (reply (sendReplyBox
    ("NEXT (also called Gen-NEXT) is a mod that makes changes to the game:<br />- <a href=" ++ dq ++ "https://github.com/Zarel/Pokemon-Showdown/blob/master/mods/gennext/README.md" ++ dq ++ ">README: overview of NEXT</a><br />Example replays:<br />- <a href=" ++ dq ++ "http://pokemonshowdown.com/replay/gennextou-37815908" ++ dq ++ ">roseyraid vs Zarel</a><br />- <a href=" ++ dq ++ "http://pokemonshowdown.com/replay/gennextou-37900768" ++ dq ++ ">QwietQwilfish vs pickdenis</a>"))).

(** [othermetas], line 708. *)
Definition othermetas (S : services) (a : args) : prog :=
  guarded (
  let target := toId S (target a) in
  let '(matched, buffer) := (false, "") in
  let '(matched, buffer) :=
    if (target =? "") || (target =? "all")
    then (true, buffer ++ ("- <a href=" ++ dq ++ "http://www.smogon.com/forums/forums/206/" ++ dq ++ ">Information on the Other Metagames</a><br />"))
    else (matched, buffer) in
  let '(matched, buffer) :=
    if (target =? "all") || (target =? "hackmons")
    then (true, buffer ++ ("- <a href=" ++ dq ++ "http://www.smogon.com/forums/threads/3475624/" ++ dq ++ ">Hackmons</a><br />"))
    else (matched, buffer) in
  let '(matched, buffer) :=
    if (target =? "all") || (target =? "balancedhackmons") || (target =? "bh")
    then (true, buffer ++ ("- <a href=" ++ dq ++ "http://www.smogon.com/forums/threads/3463764/" ++ dq ++ ">Balanced Hackmons</a><br />"))
    else (matched, buffer) in
  let '(matched, buffer) :=
    if (target =? "all") || (target =? "glitchmons")
    then (true, buffer ++ ("- <a href=" ++ dq ++ "http://www.smogon.com/forums/threads/3467120/" ++ dq ++ ">Glitchmons</a><br />"))
    else (matched, buffer) in
  let '(matched, buffer) :=
    if (target =? "all") || (target =? "tiershift") || (target =? "ts")
    then (true, buffer ++ ("- <a href=" ++ dq ++ "http://www.smogon.com/forums/threads/3479358/" ++ dq ++ ">Tier Shift</a><br />"))
    else (matched, buffer) in
  let '(matched, buffer) :=
    if (target =? "all") || (target =? "seasonal")
    then (true, buffer ++ ("- <a href=" ++ dq ++ "http://www.smogon.com/sim/seasonal" ++ dq ++ ">Seasonal Ladder</a><br />"))
    else (matched, buffer) in
  let '(matched, buffer) :=
    if (target =? "all") || (target =? "stabmons")
    then (true, buffer ++ ("- <a href=" ++ dq ++ "http://www.smogon.com/forums/threads/3484106/" ++ dq ++ ">STABmons</a>"))
    else (matched, buffer) in
  let '(matched, buffer) :=
    if (target =? "all") || (target =? "omotm") || (target =? "omofthemonth") || (target =? "month")
    then (true, buffer ++ ("- <a href=" ++ dq ++ "http://www.smogon.com/forums/threads/3481155/" ++ dq ++ ">OM of the Month</a>"))
    else (matched, buffer) in
  let '(matched, buffer) :=
    if (target =? "all") || (target =? "index")
    then (true, buffer ++ ("- <a href=" ++ dq ++ "http://www.smogon.com/forums/threads/other-metagames-index.3472405/" ++ dq ++ ">OM Index</a><br />"))
    else (matched, buffer) in
  if negb matched
  then reply (sendReply (("The Other Metas entry " ++ dq) ++ target ++ (dq ++ " was not found. Try /othermetas or /om for general help.")))
  else reply (sendReplyBox buffer)).

(** [faq], line 817. *)
Definition faq (S : services) (a : args) : prog :=
  guarded (
  let target := toLowerCase (target a) in
  let '(matched, buffer) := (false, "") in
  let '(matched, buffer) :=
    if (target =? "") || (target =? "all")
    then (true, buffer ++ ("<a href=" ++ dq ++ "http://www.smogon.com/sim/faq" ++ dq ++ ">Frequently Asked Questions</a><br />"))
    else (matched, buffer) in
  let '(matched, buffer) :=
    if (target =? "all") || (target =? "deviation")
    then (true, buffer ++ ("<a href=" ++ dq ++ "http://www.smogon.com/sim/faq#deviation" ++ dq ++ ">Why did this user gain or lose so many points?</a><br />"))
    else (matched, buffer) in
  let '(matched, buffer) :=
    if (target =? "all") || (target =? "doubles") || (target =? "triples") || (target =? "rotation")
    then (true, buffer ++ ("<a href=" ++ dq ++ "http://www.smogon.com/sim/faq#doubles" ++ dq ++ ">Can I play doubles/triples/rotation battles here?</a><br />"))
    else (matched, buffer) in
  let '(matched, buffer) :=
    if (target =? "all") || (target =? "randomcap")
    then (true, buffer ++ ("<a href=" ++ dq ++ "http://www.smogon.com/sim/faq#randomcap" ++ dq ++ ">What is this fakemon and what is it doing in my random battle?</a><br />"))
    else (matched, buffer) in
  let '(matched, buffer) :=
    if (target =? "all") || (target =? "restarts")
    then (true, buffer ++ ("<a href=" ++ dq ++ "http://www.smogon.com/sim/faq#restarts" ++ dq ++ ">Why is the server restarting?</a><br />"))
    else (matched, buffer) in
  let '(matched, buffer) :=
    if (target =? "all") || (target =? "staff")
    then (true, buffer ++ ("<a href=" ++ dq ++ "http://www.smogon.com/sim/staff_faq" ++ dq ++ ">Staff FAQ</a><br />"))
    else (matched, buffer) in
  let '(matched, buffer) :=
    if (target =? "all") || (target =? "autoconfirmed") || (target =? "ac")
    then (true, buffer ++ "A user is autoconfirmed when they have won at least one rated battle and has been registered for a week or longer.<br />")
    else (matched, buffer) in
  if negb matched
  then reply (sendReply (("The FAQ entry " ++ dq) ++ target ++ (dq ++ " was not found. Try /faq for general help.")))
  else reply (sendReplyBox buffer)).

(** [tiers], line 858. *)
Definition tiers (S : services) (a : args) : prog :=
  guarded (
  let target := toId S (target a) in
  let '(matched, buffer) := (false, "") in
  let '(matched, buffer) :=
    if (target =? "") || (target =? "all")
    then (true, buffer ++ ("- <a href=" ++ dq ++ "http://www.smogon.com/tiers/" ++ dq ++ ">Smogon Tiers</a><br />") ++ ("- <a href=" ++ dq ++ "http://www.smogon.com/forums/threads/tiering-faq.3498332/" ++ dq ++ ">Tiering FAQ</a><br />") ++ ("- <a href=" ++ dq ++ "http://www.smogon.com/bw/banlist/" ++ dq ++ ">The banlists for each tier</a><br />"))
    else (matched, buffer) in
  let '(matched, buffer) :=
    if (target =? "all") || (target =? "ubers") || (target =? "uber")
    then (true, buffer ++ ("- <a href=" ++ dq ++ "http://www.smogon.com/bw/tiers/uber" ++ dq ++ ">Uber Pokemon</a><br />"))
    else (matched, buffer) in
  let '(matched, buffer) :=
    if (target =? "all") || (target =? "overused") || (target =? "ou")
    then (true, buffer ++ ("- <a href=" ++ dq ++ "http://www.smogon.com/bw/tiers/ou" ++ dq ++ ">Overused Pokemon</a><br />"))
    else (matched, buffer) in
  let '(matched, buffer) :=
    if (target =? "all") || (target =? "underused") || (target =? "uu")
    then (true, buffer ++ ("- <a href=" ++ dq ++ "http://www.smogon.com/bw/tiers/uu" ++ dq ++ ">Underused Pokemon</a><br />"))
    else (matched, buffer) in
  let '(matched, buffer) :=
    if (target =? "all") || (target =? "rarelyused") || (target =? "ru")
    then (true, buffer ++ ("- <a href=" ++ dq ++ "http://www.smogon.com/bw/tiers/ru" ++ dq ++ ">Rarelyused Pokemon</a><br />"))
    else (matched, buffer) in
  let '(matched, buffer) :=
    if (target =? "all") || (target =? "neverused") || (target =? "nu")
    then (true, buffer ++ ("- <a href=" ++ dq ++ "http://www.smogon.com/bw/tiers/nu" ++ dq ++ ">Neverused Pokemon</a><br />"))
    else (matched, buffer) in
  let '(matched, buffer) :=
    if (target =? "all") || (target =? "littlecup") || (target =? "lc")
    then (true, buffer ++ ("- <a href=" ++ dq ++ "http://www.smogon.com/bw/tiers/lc" ++ dq ++ ">Little Cup Pokemon</a><br />"))
    else (matched, buffer) in
  let '(matched, buffer) :=
    if (target =? "all") || (target =? "doubles")
    then (true, buffer ++ ("- <a href=" ++ dq ++ "http://www.smogon.com/bw/metagames/doubles" ++ dq ++ ">Doubles</a><br />"))
    else (matched, buffer) in
  if negb matched
  then reply (sendReply (("The Tiers entry " ++ dq) ++ target ++ (dq ++ " was not found. Try /tiers for general help.")))
  else reply (sendReplyBox buffer)).

(** [crymeariver], line 1007. *)
Definition crymeariver (_ : args) : prog :=
  guarded (reply (sendReply
    ("|raw|<center><img width=" ++ dq ++ "300" ++ dq ++ " height=" ++ dq ++ "169" ++ dq ++ " src=" ++ dq ++ "http://i.imgur.com/zb2j4qq.gif?1" ++ dq ++ "></center>"))).

(** [queenofthecastle], line 1012. *)
Definition queenofthecastle (_ : args) : prog :=
  guarded (reply (sendReply
    ("|raw|<center><img width=" ++ dq ++ "300" ++ dq ++ " height=" ++ dq ++ "169" ++ dq ++ " src=" ++ dq ++ "http://fc00.deviantart.net/fs70/f/2013/297/1/7/rwby_nora_valkyrie_gif_by_dustiniz117-d6rmph4.gif" ++ dq ++ "></center>"))).

(** [crushhiswang], line 1018. *)
Definition crushhiswang (_ : args) : prog :=
  guarded (reply (sendReply
    ("|raw|<center><img width=" ++ dq ++ "300" ++ dq ++ " height=" ++ dq ++ "169" ++ dq ++ " src=" ++ dq ++ "http://24.media.tumblr.com/67235f6be8c274a7ce05cb13e8c01c26/tumblr_mnr325ZLN41r0z4fuo2_500.gif" ++ dq ++ "></center>"))).

(** [firepunch], line 1023. *)
Definition firepunch (_ : args) : prog :=
  guarded (reply (sendReply
    ("|raw|<center><img width=" ++ dq ++ "300" ++ dq ++ " height=" ++ dq ++ "169" ++ dq ++ " src=" ++ dq ++ "http://31.media.tumblr.com/d216a9b45ac33766ac621dd36dce891f/tumblr_mnqp5nUxSj1rj8nzio1_400.gif" ++ dq ++ "></center>"))).

(** [lieren], line 1028. *)
Definition lieren (_ : args) : prog :=
  guarded (reply (sendReply
    ("|raw|<center><img width=" ++ dq ++ "300" ++ dq ++ " height=" ++ dq ++ "169" ++ dq ++ " src=" ++ dq ++ "http://24.media.tumblr.com/50061b7f7abd7013806e56090c4bb03e/tumblr_mryhff94TG1sbu5xto6_400.gif" ++ dq ++ "></center>"))).

(** [iceblast], line 1033. *)
Definition iceblast (_ : args) : prog :=
  guarded (reply (sendReply
    ("|raw|<center><img width=" ++ dq ++ "300" ++ dq ++ " height=" ++ dq ++ "169" ++ dq ++ " src=" ++ dq ++ "http://images1.wikia.nocookie.net/rwby/images/5/59/Tumblr_mik0scCZe41rktwn6o1_500.gif" ++ dq ++ "></center>"))).

(** [combatskirts], line 1038. *)
Definition combatskirts (_ : args) : prog :=
  guarded (reply (sendReply
    ("|raw|<center><img width=" ++ dq ++ "300" ++ dq ++ " height=" ++ dq ++ "169" ++ dq ++ " src=" ++ dq ++ "http://25.media.tumblr.com/b74eb164763dce0487564c3ce21b9318/tumblr_mvk84l1WWN1rq5fzso1_500.gif" ++ dq ++ "></center>"))).

(** [dexholders], line 1043. *)
Definition dexholders (_ : args) : prog :=
  guarded (reply (sendReply
    ("|raw|<center><img width=" ++ dq ++ "300" ++ dq ++ " height=" ++ dq ++ "169" ++ dq ++ " src=" ++ dq ++ "http://i.imgur.com/tR9r9.gif" ++ dq ++ "></center>"))).

(** [nora], line 1048. *)
Definition nora (_ : args) : prog :=
  guarded (reply (sendReply
    ("|raw|<center><img width=" ++ dq ++ "300" ++ dq ++ " height=" ++ dq ++ "169" ++ dq ++ " src=" ++ dq ++ "http://25.media.tumblr.com/92f2a57740bc0ad121e0cb87d9836b87/tumblr_msonfrBlq11sgww3vo1_500.gif" ++ dq ++ "></center>"))).

(** [rockshurt], line 1053. *)
Definition rockshurt (_ : args) : prog :=
  guarded (reply (sendReply
    ("|raw|<center><img width=" ++ dq ++ "300" ++ dq ++ " height=" ++ dq ++ "169" ++ dq ++ " src=" ++ dq ++ "http://31.media.tumblr.com/b86cf32cad9df3e1c31e67c678a443a5/tumblr_muli1oVcqm1qzkj9ko3_500.gif" ++ dq ++ "></center>"))).

(** [owch], line 1058. *)
Definition owch (_ : args) : prog :=
  guarded (reply (sendReply
    ("|raw|<center><img width=" ++ dq ++ "300" ++ dq ++ " height=" ++ dq ++ "169" ++ dq ++ " src=" ++ dq ++ "http://25.media.tumblr.com/c2a1162d3986dffa65e437641284edc6/tumblr_muli1oVcqm1qzkj9ko1_500.gif" ++ dq ++ "></center>"))).

(** [treessuck], line 1063. *)
Definition treessuck (_ : args) : prog :=
  guarded (reply (sendReply
    ("|raw|<center><img width=" ++ dq ++ "300" ++ dq ++ " height=" ++ dq ++ "169" ++ dq ++ " src=" ++ dq ++ "http://media.tumblr.com/32710e9bfca046da6e4514c6fcc82b23/tumblr_inline_ms1l71n1ii1qz4rgp.gif" ++ dq ++ "></center>"))).

(** [throw], line 1068. *)
Definition throw (_ : args) : prog :=
  guarded (reply (sendReply
    ("|raw|<center><img width=" ++ dq ++ "300" ++ dq ++ " height=" ++ dq ++ "169" ++ dq ++ " src=" ++ dq ++ "http://31.media.tumblr.com/0b63717080612b951cd76bb8fbe222f5/tumblr_muli1oVcqm1qzkj9ko4_500.gif" ++ dq ++ "></center>"))).

(** [spoilerwarning], line 1073. *)
Definition spoilerwarning (_ : args) : prog :=
  guarded (reply (sendReply
    ("|raw|<center><img width=" ++ dq ++ "300" ++ dq ++ " height=" ++ dq ++ "169" ++ dq ++ " src=" ++ dq ++ "http://static3.wikia.nocookie.net/__cb20131031233004/rwby/images/b/b0/The_Stray_00033.png" ++ dq ++ "></center>"))).

(** [iburn], line 1078. *)
Definition iburn (_ : args) : prog :=
  guarded (reply (sendReply
    ("|raw|<center><img width=" ++ dq ++ "300" ++ dq ++ " height=" ++ dq ++ "169" ++ dq ++ " src=" ++ dq ++ "http://i.minus.com/idK6YE40trRue.gif" ++ dq ++ "></center>"))).

(** [comeatme], line 1083. *)
Definition comeatme (_ : args) : prog :=
  guarded (reply (sendReply
    ("|raw|<center><img width=" ++ dq ++ "300" ++ dq ++ " height=" ++ dq ++ "169" ++ dq ++ " src=" ++ dq ++ "http://31.media.tumblr.com/tumblr_lrzvrmMDMl1r1l46do1_500.gif" ++ dq ++ "></center>"))).

(** [wukong], line 1088. *)
Definition wukong (_ : args) : prog :=
  guarded (reply (sendReply
    ("|raw|<center><img width=" ++ dq ++ "300" ++ dq ++ " height=" ++ dq ++ "169" ++ dq ++ " src=" ++ dq ++ "http://i145.photobucket.com/albums/r239/FM_Nocturna/bth_rwby-sun_zps1b425c62.gif" ++ dq ++ "></center>"))).

(** [adam], line 1093. *)
Definition adam (_ : args) : prog :=
  guarded (reply (sendReply
    ("|raw|<center><img width=" ++ dq ++ "300" ++ dq ++ " height=" ++ dq ++ "169" ++ dq ++ " src=" ++ dq ++ "http://i.minus.com/iUTbYOS2OZ56y.gif" ++ dq ++ "></center>"))).

(** [ama], line 1098. *)
Definition ama (_ : args) : prog :=
  guarded (reply (sendReply
    ("|raw|<center><img width=" ++ dq ++ "300" ++ dq ++ " height=" ++ dq ++ "169" ++ dq ++ " src=" ++ dq ++ "http://images4.fanpop.com/image/photos/16900000/Okami-Animated-Gif-s-okami-amaterasu-16966304-320-225.gif" ++ dq ++ "></center>"))).

(** [kissandmakeup], line 1103. *)
Definition kissandmakeup (_ : args) : prog :=
  guarded (reply (sendReply
    ("|raw|<center><img width=" ++ dq ++ "300" ++ dq ++ " height=" ++ dq ++ "169" ++ dq ++ " src=" ++ dq ++ "http://static.tumblr.com/163f6e361ace5ed3ab961a6700abbd15/auelhnj/nf4mrcg1x/tumblr_static_kiss.gif" ++ dq ++ "></center>"))).

(** [demon], line 1108. *)
Definition demon (_ : args) : prog :=
  guarded (reply (sendReply
    ("|raw|<center><img width=" ++ dq ++ "300" ++ dq ++ " height=" ++ dq ++ "169" ++ dq ++ " src=" ++ dq ++ "http://img837.imageshack.us/img837/3570/blaze.gif" ++ dq ++ "></center>"))).

(** [lyn], line 1113. *)
Definition lyn (_ : args) : prog :=
  guarded (reply (sendReply
    ("|raw|<center><img width=" ++ dq ++ "300" ++ dq ++ " height=" ++ dq ++ "169" ++ dq ++ " src=" ++ dq ++ "http://lparchive.org/Fire-Emblem-Blazing-Sword/Update%2041/72-solkatti.gif" ++ dq ++ "></center>"))).

(** [lucina], line 1118. *)
Definition lucina (_ : args) : prog :=
  guarded (reply (sendReply
    ("|raw|<center><img width=" ++ dq ++ "300" ++ dq ++ " height=" ++ dq ++ "169" ++ dq ++ " src=" ++ dq ++ "http://24.media.tumblr.com/e96224e07e1d1c28a9c6d2f1846e2153/tumblr_mqtaxjird31r1fq7do2_400.gif" ++ dq ++ "></center>"))).

(** [yay], line 1127. *)
Definition yay (_ : args) : prog :=
  guarded (reply (sendReply
    ("|raw|<center><img width=" ++ dq ++ "300" ++ dq ++ " height=" ++ dq ++ "169" ++ dq ++ " src=" ++ dq ++ "http://stream1.gifsoup.com/view8/4716472/pokespe-boys-o.gif" ++ dq ++ "></center>"))).

(** [register], line 1172. *)
Definition register (_ : args) : prog :=
  guarded (reply (sendReply
    "You must win a rated battle to register.")).

(** [help], line 1208. *)
Definition help (S : services) (a : args) : prog :=
  let target := toLowerCase (target a) in
  let '(matched, sent) := (false, @nil action) in
  let '(matched, sent) :=
    if (target =? "all") || (target =? "msg") || (target =? "pm") || (target =? "whisper") || (target =? "w")
    then (true, sent ++ [sendReply "/msg OR /whisper OR /w [username], [message] - Send a private message."])%list
    else (matched, sent) in
  let '(matched, sent) :=
    if (target =? "all") || (target =? "r") || (target =? "reply")
    then (true, sent ++ [sendReply "/reply OR /r [message] - Send a private message to the last person you received a message from, or sent a message to."])%list
    else (matched, sent) in
  let '(matched, sent) :=
    if (target =? "all") || (target =? "getip") || (target =? "ip")
    then (true, sent ++ [sendReply "/ip - Get your own IP address."; sendReply "/ip [username] - Get a user's IP address. Requires: @ & ~"])%list
    else (matched, sent) in
  let '(matched, sent) :=
    if (target =? "all") || (target =? "rating") || (target =? "ranking") || (target =? "rank") || (target =? "ladder")
    then (true, sent ++ [sendReply "/rating - Get your own rating."; sendReply "/rating [username] - Get user's rating."])%list
    else (matched, sent) in
  let '(matched, sent) :=
    if (target =? "all") || (target =? "nick")
    then (true, sent ++ [sendReply "/nick [new username] - Change your username."])%list
    else (matched, sent) in
  let '(matched, sent) :=
    if (target =? "all") || (target =? "avatar")
    then (true, sent ++ [sendReply "/avatar [new avatar number] - Change your trainer sprite."])%list
    else (matched, sent) in
  let '(matched, sent) :=
    if (target =? "all") || (target =? "rooms")
    then (true, sent ++ [sendReply "/rooms [username] - Show what rooms a user is in."])%list
    else (matched, sent) in
  let '(matched, sent) :=
    if (target =? "all") || (target =? "whois")
    then (true, sent ++ [sendReply "/whois [username] - Get details on a username: group, and rooms."])%list
    else (matched, sent) in
  let '(matched, sent) :=
    if (target =? "all") || (target =? "data")
    then (true, sent ++ [sendReply "/data [pokemon/item/move/ability] - Get details on this pokemon/item/move/ability."; sendReply "!data [pokemon/item/move/ability] - Show everyone these details. Requires: + % @ & ~"])%list
    else (matched, sent) in
  let '(matched, sent) :=
    if (target =? "all") || (target =? "analysis")
    then (true, sent ++ [sendReply "/analysis [pokemon], [generation] - Links to the Smogon University analysis for this Pokemon in the given generation."; sendReply "!analysis [pokemon], [generation] - Shows everyone this link. Requires: + % @ & ~"])%list
    else (matched, sent) in
  let '(matched, sent) :=
    if (target =? "all") || (target =? "groups")
    then (true, sent ++ [sendReply "/groups - Explains what the + % @ & next to people's names mean."; sendReply "!groups - Show everyone that information. Requires: + % @ & ~"])%list
    else (matched, sent) in
  let '(matched, sent) :=
    if (target =? "all") || (target =? "opensource")
    then (true, sent ++ [sendReply "/opensource - Links to PS's source code repository."; sendReply "!opensource - Show everyone that information. Requires: + % @ & ~"])%list
    else (matched, sent) in
  let '(matched, sent) :=
    if (target =? "all") || (target =? "avatars")
    then (true, sent ++ [sendReply "/avatars - Explains how to change avatars."; sendReply "!avatars - Show everyone that information. Requires: + % @ & ~"])%list
    else (matched, sent) in
  let '(matched, sent) :=
    if (target =? "all") || (target =? "intro")
    then (true, sent ++ [sendReply "/intro - Provides an introduction to competitive pokemon."; sendReply "!intro - Show everyone that information. Requires: + % @ & ~"])%list
    else (matched, sent) in
  let '(matched, sent) :=
    if (target =? "all") || (target =? "cap")
    then (true, sent ++ [sendReply "/cap - Provides an introduction to the Create-A-Pokemon project."; sendReply "!cap - Show everyone that information. Requires: + % @ & ~"])%list
    else (matched, sent) in
  let '(matched, sent) :=
    if (target =? "all") || (target =? "om")
    then (true, sent ++ [sendReply "/om - Provides links to information on the Other Metagames."; sendReply "!om - Show everyone that information. Requires: + % @ & ~"])%list
    else (matched, sent) in
  let '(matched, sent) :=
    if (target =? "all") || (target =? "learn") || (target =? "learnset") || (target =? "learnall")
    then (true, sent ++ [sendReply "/learn [pokemon], [move, move, ...] - Displays how a Pokemon can learn the given moves, if it can at all."; sendReply "!learn [pokemon], [move, move, ...] - Show everyone that information. Requires: + % @ & ~"])%list
    else (matched, sent) in
  let '(matched, sent) :=
    if (target =? "all") || (target =? "calc") || (target =? "caclulator")
    then (true, sent ++ [sendReply "/calc - Provides a link to a damage calculator"; sendReply "!calc - Shows everyone a link to a damage calculator. Requires: + % @ & ~"])%list
    else (matched, sent) in
  let '(matched, sent) :=
    if (target =? "all") || (target =? "blockchallenges") || (target =? "idle")
    then (true, sent ++ [sendReply "/blockchallenges - Blocks challenges so no one can challenge you. Deactivate it with /allowchallenges."])%list
    else (matched, sent) in
  let '(matched, sent) :=
    if (target =? "all") || (target =? "allowchallenges")
    then (true, sent ++ [sendReply "/allowchallenges - Unlocks challenges so you can be challenged again. Deactivate it with /blockchallenges."])%list
    else (matched, sent) in
  let '(matched, sent) :=
    if (target =? "all") || (target =? "away")
    then (true, sent ++ [sendReply "/away - Set yourself as away which will also change your name."])%list
    else (matched, sent) in
  let '(matched, sent) :=
    if (target =? "all") || (target =? "back")
    then (true, sent ++ [sendReply "/back - Marks yourself as back and reverts name back."])%list
    else (matched, sent) in
  let '(matched, sent) :=
    if (target =? "all") || (target =? "faq")
    then (true, sent ++ [sendReply "/faq [theme] - Provides a link to the FAQ. Add deviation, doubles, randomcap, restart, or staff for a link to these questions. Add all for all of them."; sendReply "!faq [theme] - Shows everyone a link to the FAQ. Add deviation, doubles, randomcap, restart, or staff for a link to these questions. Add all for all of them. Requires: + % @ & ~"])%list
    else (matched, sent) in
  let '(matched, sent) :=
    if (target =? "all") || (target =? "highlight")
    then (true, sent ++ [sendReply "Set up highlights:"; sendReply "/highlight add, word - add a new word to the highlight list."; sendReply "/highlight list - list all words that currently highlight you."; sendReply "/highlight delete, word - delete a word from the highlight list."; sendReply "/highlight delete - clear the highlight list"])%list
    else (matched, sent) in
  let '(matched, sent) :=
    if (target =? "all") || (target =? "timestamps")
    then (true, sent ++ [sendReply "Set your timestamps preference:"; sendReply "/timestamps [all|lobby|pms], [minutes|seconds|off]"; sendReply "all - change all timestamps preferences, lobby - change only lobby chat preferences, pms - change only PM preferences"; sendReply "off - set timestamps off, minutes - show timestamps of the form [hh:mm], seconds - show timestamps of the form [hh:mm:ss]"])%list
    else (matched, sent) in
  let '(matched, sent) :=
    if (target =? "all") || (target =? "effectiveness")
    then (true, sent ++ [sendReply "/effectiveness [type1], [type2] - Provides the effectiveness of a [type1] attack to a [type2] Pokémon."; sendReply "!effectiveness [type1], [type2] - Shows everyone the effectiveness of a [type1] attack to a [type2] Pokémon."])%list
    else (matched, sent) in
  let '(matched, sent) :=
    if (target =? "all") || (target =? "dexsearch")
    then (true, sent ++ [sendReply "/dexsearch [type], [move], [move], ... - Searches for Pokemon that fulfill the selected criteria."; sendReply "Search categories are: type, tier, color, moves, ability, gen."; sendReply "Valid colors are: green, red, blue, white, brown, yellow, purple, pink, gray and black."; sendReply "Valid tiers are: Uber/OU/BL/UU/BL2/RU/NU/NFE/LC/CAP."; sendReply ("Types must be followed by " ++ dq ++ " type" ++ dq ++ ", e.g., " ++ dq ++ "dragon type" ++ dq ++ "."); sendReply "The order of the parameters does not matter."])%list
    else (matched, sent) in
  let '(matched, sent) :=
    if (target =? "all") || (target =? "dice") || (target =? "roll")
    then (true, sent ++ [sendReply "/dice [optional max number] - Randomly picks a number between 1 and 6, or between 1 and the number you choose."; sendReply "/dice [number of dice]d[number of sides] - Simulates rolling a number of dice, e.g., /dice 2d4 simulates rolling two 4-sided dice."])%list
    else (matched, sent) in
  let '(matched, sent) :=
    if (target =? "all") || (target =? "join")
    then (true, sent ++ [sendReply "/join [roomname] - Attempts to join the room [roomname]."])%list
    else (matched, sent) in
  let '(matched, sent) :=
    if (target =? "all") || (target =? "ignore")
    then (true, sent ++ [sendReply "/ignore [user] - Ignores all messages from the user [user]."; sendReply "Note that staff messages cannot be ignored."])%list
    else (matched, sent) in
  let '(matched, sent) :=
    if (target =? "%") || (target =? "invite")
    then (true, sent ++ [sendReply "/invite [username], [roomname] - Invites the player [username] to join the room [roomname]."])%list
    else (matched, sent) in
  let '(matched, sent) :=
    if (target =? "%") || (target =? "roomban")
    then (true, sent ++ [sendReply "/roomban [username] - Bans the user from the room you are in. Requires: % @ & ~"])%list
    else (matched, sent) in
  let '(matched, sent) :=
    if (target =? "%") || (target =? "roomunban")
    then (true, sent ++ [sendReply "/roomunban [username] - Unbans the user from the room you are in. Requires: % @ & ~"])%list
    else (matched, sent) in
  let '(matched, sent) :=
    if (target =? "%") || (target =? "redirect") || (target =? "redir")
    then (true, sent ++ [sendReply "/redirect or /redir [username], [roomname] - Attempts to redirect the user [username] to the room [roomname]. Requires: % @ & ~"])%list
    else (matched, sent) in
  let '(matched, sent) :=
    if (target =? "%") || (target =? "modnote")
    then (true, sent ++ [sendReply "/modnote [note] - Adds a moderator note that can be read through modlog. Requires: % @ & ~"])%list
    else (matched, sent) in
  let '(matched, sent) :=
    if (target =? "%") || (target =? "altcheck") || (target =? "alt") || (target =? "alts") || (target =? "getalts")
    then (true, sent ++ [sendReply "/alts OR /altcheck OR /alt OR /getalts [username] - Get a user's alts. Requires: % @ & ~"])%list
    else (matched, sent) in
  let '(matched, sent) :=
    if (target =? "%") || (target =? "forcerename") || (target =? "fr")
    then (true, sent ++ [sendReply "/forcerename OR /fr [username], [reason] - Forcibly change a user's name and shows them the [reason]. Requires: % @ & ~"])%list
    else (matched, sent) in
  let '(matched, sent) :=
    if (target =? "@") || (target =? "ban") || (target =? "b")
    then (true, sent ++ [sendReply "/ban OR /b [username], [reason] - Kick user from all rooms and ban user's IP address with reason. Requires: @ & ~"])%list
    else (matched, sent) in
  let '(matched, sent) :=
    if (target =? "&") || (target =? "banip")
    then (true, sent ++ [sendReply "/banip [ip] - Kick users on this IP or IP range from all rooms and bans it. Accepts wildcards to ban ranges. Requires: & ~"])%list
    else (matched, sent) in
  let '(matched, sent) :=
    if (target =? "@") || (target =? "unban")
    then (true, sent ++ [sendReply "/unban [username] - Unban a user. Requires: @ & ~"])%list
    else (matched, sent) in
  let '(matched, sent) :=
    if (target =? "@") || (target =? "unbanall")
    then (true, sent ++ [sendReply "/unbanall - Unban all IP addresses. Requires: @ & ~"])%list
    else (matched, sent) in
  let '(matched, sent) :=
    if (target =? "%") || (target =? "modlog")
    then (true, sent ++ [sendReply ("/modlog [n] - If n is a number or omitted, display the last n lines of the moderator log. Defaults to 15. If n is not a number, search the moderator log for " ++ dq ++ "n" ++ dq ++ ". Requires: % @ & ~")])%list
    else (matched, sent) in
  let '(matched, sent) :=
    if (target =? "%") || (target =? "kickbattle ")
    then (true, sent ++ [sendReply "/kickbattle [username], [reason] - Kicks an user from a battle with reason. Requires: % @ & ~"])%list
    else (matched, sent) in
  let '(matched, sent) :=
    if (target =? "%") || (target =? "warn") || (target =? "k")
    then (true, sent ++ [sendReply "/warn OR /k [username], [reason] - Warns a user showing them the Pokemon Showdown Rules and [reason] in an overlay. Requires: % @ & ~"])%list
    else (matched, sent) in
  let '(matched, sent) :=
    if (target =? "%") || (target =? "mute") || (target =? "m")
    then (true, sent ++ [sendReply "/mute OR /m [username], [reason] - Mute user with reason for 7 minutes. Requires: % @ & ~"])%list
    else (matched, sent) in
  let '(matched, sent) :=
    if (target =? "%") || (target =? "hourmute") || (target =? "hm")
    then (true, sent ++ [sendReply "/hourmute OR /hm [username], [reason] - Mute user with reason for an hour. Requires: % @ & ~"])%list
    else (matched, sent) in
  let '(matched, sent) :=
    if (target =? "%") || (target =? "unmute")
    then (true, sent ++ [sendReply "/unmute [username] - Remove mute from user. Requires: % @ & ~"])%list
    else (matched, sent) in
  let '(matched, sent) :=
    if (target =? "&") || (target =? "promote")
    then (true, sent ++ [sendReply "/promote [username], [group] - Promotes the user to the specified group or next ranked group. Requires: & ~"])%list
    else (matched, sent) in
  let '(matched, sent) :=
    if (target =? "&") || (target =? "demote")
    then (true, sent ++ [sendReply "/demote [username], [group] - Demotes the user to the specified group or previous ranked group. Requires: & ~"])%list
    else (matched, sent) in
  let '(matched, sent) :=
    if (target =? "~") || (target =? "forcerenameto") || (target =? "frt")
    then (true, sent ++ [sendReply "/forcerenameto OR /frt [username] - Force a user to choose a new name. Requires: & ~"; sendReply "/forcerenameto OR /frt [username], [new name] - Forcibly change a user's name to [new name]. Requires: & ~"])%list
    else (matched, sent) in
  let '(matched, sent) :=
    if (target =? "&") || (target =? "forcetie")
    then (true, sent ++ [sendReply "/forcetie - Forces the current match to tie. Requires: & ~"])%list
    else (matched, sent) in
  let '(matched, sent) :=
    if (target =? "&") || (target =? "declare")
    then (true, sent ++ [sendReply "/declare [message] - Anonymously announces a message. Requires: & ~"])%list
    else (matched, sent) in
  let '(matched, sent) :=
    if (target =? "~") || (target =? "chatdeclare") || (target =? "cdeclare")
    then (true, sent ++ [sendReply "/cdeclare [message] - Anonymously announces a message to all chatrooms on the server. Requires: ~"])%list
    else (matched, sent) in
  let '(matched, sent) :=
    if (target =? "~") || (target =? "globaldeclare") || (target =? "gdeclare")
    then (true, sent ++ [sendReply "/globaldeclare [message] - Anonymously announces a message to every room on the server. Requires: ~"])%list
    else (matched, sent) in
  let '(matched, sent) :=
    if (target =? "%") || (target =? "announce") || (target =? "wall")
    then (true, sent ++ [sendReply "/announce OR /wall [message] - Makes an announcement. Requires: % @ & ~"])%list
    else (matched, sent) in
  let '(matched, sent) :=
    if (target =? "@") || (target =? "modchat")
    then (true, sent ++ [sendReply "/modchat [off/autoconfirmed/+/%/@/&/~] - Set the level of moderated chat. Requires: @ for off/autoconfirmed/+ options, & ~ for all the options"])%list
    else (matched, sent) in
  let '(matched, sent) :=
    if (target =? "~") || (target =? "hotpatch")
    then (true, sent ++ [sendReply "Hot-patching the game engine allows you to update parts of Showdown without interrupting currently-running battles. Requires: ~"; sendReply "Hot-patching has greater memory requirements than restarting."; sendReply "/hotpatch chat - reload chat-commands.js"; sendReply "/hotpatch battles - spawn new simulator processes"; sendReply "/hotpatch formats - reload the tools.js tree, rebuild and rebroad the formats list, and also spawn new simulator processes"])%list
    else (matched, sent) in
  let '(matched, sent) :=
    if (target =? "~") || (target =? "lockdown")
    then (true, sent ++ [sendReply "/lockdown - locks down the server, which prevents new battles from starting so that the server can eventually be restarted. Requires: ~"])%list
    else (matched, sent) in
  let '(matched, sent) :=
    if (target =? "~") || (target =? "kill")
    then (true, sent ++ [sendReply "/kill - kills the server. Can't be done unless the server is in lockdown state. Requires: ~"])%list
    else (matched, sent) in
  let '(matched, sent) :=
    if (target =? "~") || (target =? "loadbanlist")
    then (true, sent ++ [sendReply "/loadbanlist - Loads the bans located at ipbans.txt. The command is executed automatically at startup. Requires: ~"])%list
    else (matched, sent) in
  let '(matched, sent) :=
    if (target =? "~") || (target =? "makechatroom")
    then (true, sent ++ [sendReply "/makechatroom [roomname] - Creates a new room named [roomname]. Requires: ~"])%list
    else (matched, sent) in
  let '(matched, sent) :=
    if (target =? "~") || (target =? "deregisterchatroom")
    then (true, sent ++ [sendReply "/deregisterchatroom [roomname] - Deletes room [roomname] after the next server restart. Requires: ~"])%list
    else (matched, sent) in
  let '(matched, sent) :=
    if (target =? "~") || (target =? "roomowner")
    then (true, sent ++ [sendReply "/roomowner [username] - Appoints [username] as a room owner. Removes official status. Requires: ~"])%list
    else (matched, sent) in
  let '(matched, sent) :=
    if (target =? "~") || (target =? "roomdeowner")
    then (true, sent ++ [sendReply "/roomdeowner [username] - Removes [username]'s status as a room owner. Requires: ~"])%list
    else (matched, sent) in
  let '(matched, sent) :=
    if (target =? "~") || (target =? "privateroom")
    then (true, sent ++ [sendReply "/privateroom [on/off] - Makes or unmakes a room private. Requires: ~"])%list
    else (matched, sent) in
  let '(matched, sent) :=
    if (target =? "all") || (target =? "help") || (target =? "h") || (target =? "?") || (target =? "commands")
    then (true, sent ++ [sendReply "/help OR /h OR /? - Gives you help."])%list
    else (matched, sent) in
  sends sent
    (if negb (nonempty target) then
       sends
         ([sendReply "COMMANDS: /msg, /reply, /ignore, /ip, /rating, /nick, /avatar, /rooms, /whois, /help, /away, /back, /timestamps, /highlight";
           sendReply "INFORMATIONAL COMMANDS: /data, /dexsearch, /groups, /opensource, /avatars, /faq, /rules, /intro, /tiers, /othermetas, /learn, /analysis, /calc (replace / with ! to broadcast. (Requires: + % @ & ~))";
           sendReply "For details on all room commands, use /roomhelp";
           sendReply "For details on all commands, use /help all"]
          ++ (if negb (String.eqb (group (user a)) (groupsranking0 S))
              then [sendReply "DRIVER COMMANDS: /mute, /unmute, /announce, /modlog, /forcerename, /alts";
                    sendReply "MODERATOR COMMANDS: /ban, /unban, /unbanall, /ip, /redirect, /kick";
                    sendReply "LEADER COMMANDS: /promote, /demote, /forcewin, /forcetie, /declare";
                    sendReply "For details on all moderator commands, use /help @"]
              else [])
          ++ [sendReply "For details of a specific command, use something like: /help data"])%list
         (Return Undefined)
     else if negb matched then
       reply (sendReply (("The command " ++ dq ++ "/") ++ target ++ (dq ++ " was not found. Try /help for general help")))
     else Return Undefined).

(** [ruby], line 1526. *)
Definition ruby (_ : args) : prog :=
  guarded (reply (sendReplyBox
    ("Elite Four:<center><img src=" ++ dq ++ "http://i.imgur.com/b8BkoNg.jpg" ++ dq ++ "></center><br >Title:<center> The Gentle Blaze</center><br >Ace:<center> Charizard</center><br >Quote:<center> Now sit back and watch me burn!</center><br ><center><img src=" ++ dq ++ "http://fc07.deviantart.net/fs71/f/2013/277/a/b/mega_charizard_y_sprite_by_flamejow-d6m3y7l.png" ++ dq ++ "></center>"))).

(** [lily], line 1536. *)
Definition lily (_ : args) : prog :=
  guarded (reply (sendReplyBox
    ("Elite Four: Lily Rainbow<br >Ace: Nidoqueen<br >Quote: You better find a cure or I will take over! .<br ><img src=" ++ dq ++ "http://media.pldh.net/pokemon/gen5/blackwhite_animated_front/031.gif" ++ dq ++ ">"))).

(** [xathoz], line 1545. *)
Definition xathoz (_ : args) : prog :=
  guarded (reply (sendReplyBox
    ("Frontier: Xathoz<br >Ace: Gliscor<br >Quote: " ++ dq ++ "Pride is not the opposite of shame, but its source. The only antidote to shame is true humility." ++ dq ++ " -Iroh .<br ><img src=" ++ dq ++ "http://static2.wikia.nocookie.net/__cb20110817211941/pokemon/images/7/7f/Gliscor.gif" ++ dq ++ ">"))).

(** [red], line 1554. *)
Definition red (_ : args) : prog :=
  guarded (reply (sendReplyBox
    ("Palace Mavin: Red<br >Ace: Darmanitan and Duskinoir<br >Quote: Either I just rek you or we screw eachother passionatly and yaoi style .<br ><img src=" ++ dq ++ "http://img.pokemondb.net/sprites/black-white/anim/normal/darmanitan-standard-mode.gif" ++ dq ++ ">"))).

(** [blair], line 1563. *)
Definition blair (_ : args) : prog :=
  guarded (reply (sendReplyBox
    ("Gym Leader: Blair<br >Ace: Togekiss<br >Quote: Let me just Blair some music .<br ><img src=" ++ dq ++ "http://img.pokemondb.net/sprites/black-white/anim/normal/togekiss.gif" ++ dq ++ ">"))).

(** [atom], line 1572. *)
Definition atom (_ : args) : prog :=
  guarded (reply (sendReplyBox
    ("Elite Four: Atomsk<br >Ace: Greninja<br >Quote: Its no fun unless your fighting a losing battle .<br ><img src=" ++ dq ++ "http://img.pokemondb.net/sprites/x-y/pixel/greninja.png" ++ dq ++ ">"))).

(** [fluffy], line 1581. *)
Definition fluffy (_ : args) : prog :=
  guarded (reply (sendReplyBox
    ("Dome Ace: Fluffy<br >Ace: Aegislash<br >Quote: Learning comes from losing .<br ><img src=" ++ dq ++ "http://img.pokemondb.net/sprites/x-y/normal/aegislash-blade.png" ++ dq ++ ">"))).

(** [lynn], line 1591. *)
Definition lynn (_ : args) : prog :=
  guarded (reply (sendReplyBox
    ("Champion Lyn Keikai Hikaru<br >Title: The Eternally Cool yet Elegant<br >Ace: Gardevoir and Gallade<br >Quote: Mind, Skill, Tranquility .<br ><img src=" ++ dq ++ "http://img.pokemondb.net/sprites/black-white/anim/normal/gardevoir.gif" ++ dq ++ "><img src=" ++ dq ++ "http://img.pokemondb.net/sprites/black-white/anim/normal/gallade.gif" ++ dq ++ ">"))).

(** [cosy], line 1600. *)
Definition cosy (_ : args) : prog :=
  guarded (reply (sendReply
    ("|raw|<center><img src=" ++ dq ++ "http://i.imgur.com/yMNJ2xK.png" ++ dq ++ "></center>"))).

(** [missing1], line 1606. *)
Definition missing1 (_ : args) : prog :=
  guarded (reply (sendReplyBox
    ("Gym Leader: Missing1<br >Ace: Arcanine<br >Quote: None as of yet.<br ><img src=" ++ dq ++ "http://img.pokemondb.net/sprites/black-white/anim/normal/arcanine.gif" ++ dq ++ ">"))).

(** [aaron], line 1615. *)
Definition aaron (_ : args) : prog :=
  guarded (reply (sendReplyBox
    ("Gym Leader: Aaron<br >Ace: Mega Aggron<br >Quote: Rock Solid Through The Core.<br ><img src=" ++ dq ++ "http://i305.photobucket.com/albums/nn232/XandZero2/MEGAGGRON_zpsa46c3722.png" ++ dq ++ ">"))).

(** [raven], line 1624. *)
Definition raven (_ : args) : prog :=
  guarded (reply (sendReplyBox
    ("Gym Leader: Raven<br >Ace: Toxicroak <br >Quote: Its never truly over until one loses.<br ><img src=" ++ dq ++ "http://img.pokemondb.net/sprites/black-white/anim/normal/toxicroak.gif" ++ dq ++ ">"))).

(** [kolotos], line 1633. *)
Definition kolotos (_ : args) : prog :=
  guarded (reply (sendReplyBox
    ("Elite Four: Kolotos<br >Ace: Electivire<br >Quote: Feel the thunder! .<br ><img src=" ++ dq ++ "http://img.pokemondb.net/sprites/black-white/anim/normal/electivire.gif" ++ dq ++ ">"))).

(** *** The table

    The object literal [commands], entry by entry in source order: a
    string is an alias, a function is a handler.  A key written twice
    keeps the value written last. *)

Inductive entry : Type :=
| alias (command : string)
| func (h : handler).

Definition literal (S : services) : list (string * entry) :=
  [
    ("ip", alias "whois");
    ("getip", alias "whois");
    ("rooms", alias "whois");
    ("altcheck", alias "whois");
    ("alt", alias "whois");
    ("alts", alias "whois");
    ("getalts", alias "whois");
    ("whois", func (whois S));
    ("ipsearch", func (ipsearch S));
    ("invite", func (invite S));
    ("stats", alias "data");
    ("dex", alias "data");
    ("pokedex", alias "data");
    ("data", func (data S));
    ("dsearch", alias "dexsearch");
    ("dexsearch", func (dexsearch S));
    ("learnset", alias "learn");
    ("learnall", alias "learn");
    ("learn5", alias "learn");
    ("g6learn", alias "learn");
    ("learn", func (learn S));
    ("weak", alias "weakness");
    ("weakness", func (weakness S));
    ("eff", alias "effectiveness");
    ("type", alias "effectiveness");
    ("matchup", alias "effectiveness");
    ("effectiveness", func (effectiveness S));
    ("uptime", func (uptime S));
    ("groups", func groups);
    ("website", func website);
    ("forum", func forum);
    ("opensource", func opensource);
    ("avatars", func avatars);
    ("introduction", alias "intro");
    ("intro", func intro);
    ("mentoring", alias "smogintro");
    ("smogonintro", alias "smogintro");
    ("smogintro", func smogintro);
    ("calculator", alias "calc");
    ("calc", func calc);
    ("cap", func cap);
    ("gennext", func gennext);
    ("om", alias "othermetas");
    ("othermetas", func (othermetas S));
    ("roomhelp", func roomhelp);
    ("restarthelp", func restarthelp);
    ("rule", alias "rules");
    ("rules", func (rules S));
    ("faq", func (faq S));
    ("banlists", alias "tiers");
    ("tier", alias "tiers");
    ("tiers", func (tiers S));
    ("analysis", alias "smogdex");
    ("strategy", alias "smogdex");
    ("smogdex", func (smogdex S));
    ("crymeariver", func crymeariver);
    ("queenofthecastle", func queenofthecastle);
    ("crushhiswang", func crushhiswang);
    ("firepunch", func firepunch);
    ("lieren", func lieren);
    ("iceblast", func iceblast);
    ("combatskirts", func combatskirts);
    ("dexholders", func dexholders);
    ("nora", func nora);
    ("rockshurt", func rockshurt);
    ("owch", func owch);
    ("treessuck", func treessuck);
    ("throw", func throw);
    ("spoilerwarning", func spoilerwarning);
    ("iburn", func iburn);
    ("comeatme", func comeatme);
    ("wukong", func wukong);
    ("adam", func adam);
    ("ama", func ama);
    ("kissandmakeup", func kissandmakeup);
    ("demon", func demon);
    ("lyn", func lyn);
    ("lucina", func lucina);
    ("birkal", func birkal);
    ("yay", func yay);
    ("potd", func (potd S));
    ("roll", alias "dice");
    ("dice", func (dice S));
    ("register", func register);
    ("br", alias "banredirect");
    ("banredirect", func banredirect);
    ("lobbychat", func (lobbychat S));
    ("a", func a);
    ("commands", alias "help");
    ("h", alias "help");
    ("?", alias "help");
    ("help", func (help S));
    ("ruby", alias "Kari Ruby");
    ("ruby", func ruby);
    ("lily", alias "Lily");
    ("lily", func lily);
    ("xathoz", alias "xathoz");
    ("xathoz", func xathoz);
    ("red", alias "red");
    ("red", func red);
    ("blair", alias "Blair");
    ("blair", func blair);
    ("atom", alias "Atomsk");
    ("atom", func atom);
    ("fluffy", alias "Fluffy");
    ("fluffy", func fluffy);
    ("lynn", alias "Lynn");
    ("lyzz", alias "Lynn");
    ("lynn", func lynn);
    ("cosy", func cosy);
    ("missing1", alias "missing1");
    ("missing1", func missing1);
    ("aaron", alias "Aaron");
    ("aaron", func aaron);
    ("raven", alias "Raven");
    ("raven", func raven);
    ("kolotos", alias "kolotos");
    ("kolotos", func kolotos)
  ].

Definition commands (S : services) : jsobj entry :=
  fold_left (fun o kv => set (fst kv) (snd kv) o) (literal S) [].

(** An alias resolves when the table has a handler under the name it gives. *)
Definition resolves (S : services) (e : entry) : bool :=
  match e with
  | func _ => true
  | alias c => match get c (commands S) with Some (func _) => true | _ => false end
  end.

(** The aliases of the table that do not resolve. *)
Definition dangling (S : services) : list string :=
  keys (filter (fun kv => negb (resolves S (snd kv))) (commands S)).

(** The handlers of the table. *)
Definition handlers (S : services) : list (string * handler) :=
  flat_map (fun kv => match snd kv with
                      | func h => [(fst kv, h)]
                      | alias _ => []
                      end) (commands S).

End Commands.

(** ** A small catalogue

    A data provider with a handful of species, used to run the handlers
    on concrete queries. *)

Module Sample.

(** Lower case, letters and digits only. *)
Definition toId (s : string) : string :=
  let fix keep (s : string) : string :=
    match s with
    | EmptyString => EmptyString
    | String c s' =>
        let n := nat_of_ascii c in
        if (((97 <=? n) && (n <=? 122)) || ((48 <=? n) && (n <=? 57)))%nat
        then String c (keep s') else keep s'
    end in
  keep (toLowerCase s).

Definition mon (i sp tr : string) (ty : list string) (ab : list string)
    (co : string) (g : nat) (ev : list string) (pr : string)
    (ls : list string) : template :=
  {| speciesid := i; species := sp; baseSpecies := sp; tier := tr;
     types := ty; abilities := ab; color := co; gen := g; evos := ev;
     prevo := pr; isMega := false; learnset := Some ls |}.

Definition pokedex : list template :=
  [ mon "charmander" "Charmander" "LC" ["Fire"] ["Blaze"; "Solar Power"]
      "Red" 1 ["charmeleon"] "" ["ember"; "scratch"];
    mon "charmeleon" "Charmeleon" "NFE" ["Fire"] ["Blaze"; "Solar Power"]
      "Red" 1 ["charizard"] "charmander" ["ember"; "scratch"];
    mon "charizard" "Charizard" "OU" ["Fire"; "Flying"] ["Blaze"; "Solar Power"]
      "Red" 1 [] "charmeleon" ["ember"; "fly"];
    mon "pikachu" "Pikachu" "NFE" ["Electric"] ["Static"; "Lightning Rod"]
      "Yellow" 1 ["raichu"] "pichu" ["thunderbolt"; "surf"];
    mon "raichu" "Raichu" "NU" ["Electric"] ["Static"; "Lightning Rod"]
      "Yellow" 1 [] "pikachu" ["thunderbolt"];
    mon "koffing" "Koffing" "LC" ["Poison"] ["Levitate"]
      "Purple" 1 ["weezing"] "" ["smog"];
    mon "weezing" "Weezing" "NU" ["Poison"] ["Levitate"]
      "Purple" 1 [] "koffing" ["smog"];
    mon "pichu" "Pichu" "LC" ["Electric"] ["Static"; "Lightning Rod"]
      "Yellow" 2 ["pikachu"] "" ["thunderbolt"; "charm"];
    mon "murkrow" "Murkrow" "NU" ["Dark"; "Flying"] ["Insomnia"; "Super Luck"]
      "Black" 2 ["honchkrow"] "" ["fly"; "peck"];
    mon "smeargle" "Smeargle" "NU" ["Normal"] ["Own Tempo"; "Technician"]
      "White" 2 [] "" ["sketch"];
    mon "honchkrow" "Honchkrow" "UU" ["Dark"; "Flying"] ["Insomnia"; "Super Luck"]
      "Black" 4 [] "murkrow" ["fly"; "peck"];
    mon "volcanion" "Volcanion" "OU" ["Fire"; "Water"] ["Water Absorb"]
      "Brown" 6 [] "" ["ember"; "surf"];
    mon "syclant" "Syclant" "CAP" ["Ice"; "Bug"] ["Compound Eyes"]
      "Blue" 4 [] "" ["fly"] ].

(** The template of an id the Pokedex does not have. *)
Definition missing (i : string) : template :=
  {| speciesid := i; species := i; baseSpecies := i; tier := "";
     types := []; abilities := []; color := ""; gen := 0; evos := [];
     prevo := ""; isMega := false; learnset := None |}.

Definition sample_getTemplate (i : string) : template :=
  match find (fun t => String.eqb (speciesid t) (toId i)) pokedex with
  | Some t => t
  | None => missing (toId i)
  end.

Definition lookup (names : list string) (raw : string) : effect :=
  match find (fun n => String.eqb (toId n) (toId raw)) names with
  | Some n => {| exists_ := true; name := n; id_ := toId n; text := n |}
  | None => {| exists_ := false; name := trim raw; id_ := toId raw; text := trim raw |}
  end.

Definition abilityNames : list string :=
  ["Blaze"; "Static"; "Levitate"; "Insomnia"; "Water Absorb"].

Definition moveNames : list string :=
  ["Ember"; "Scratch"; "Fly"; "Thunderbolt"; "Surf"; "Smog"; "Charm"; "Peck";
   "Sketch"; "Chatter"].

Definition typeNames : list string :=
  ["Bug"; "Dark"; "Dragon"; "Electric"; "Fairy"; "Fighting"; "Fire"; "Flying";
   "Ghost"; "Grass"; "Ground"; "Ice"; "Normal"; "Poison"; "Psychic"; "Rock";
   "Steel"; "Water"].

Definition Tools : tools :=
  {| Pokedex := map speciesid pokedex;
     getTemplate := sample_getTemplate;
     getAbility := lookup abilityNames;
     getMove := lookup moveNames;
     TypeChart := typeNames;
     lc_banlist := ["Sneasel"; "Scyther"; "Gligar"] |}.

(** A provider whose move table answers to a nickname with a move whose
    own name it does not index. *)
Definition stale : tools :=
  {| Pokedex := Pokedex Tools;
     getTemplate := getTemplate Tools;
     getAbility := getAbility Tools;
     getMove := fun raw =>
       if String.eqb (toId raw) "vcreate"
       then {| exists_ := true; name := "V-create (event)"; id_ := "vcreate";
               text := "V-create (event)" |}
       else getMove Tools raw;
     TypeChart := TypeChart Tools;
     lc_banlist := lc_banlist Tools |}.

Definition nobody : Commands.User :=
  {| Commands.userid := "guest"; Commands.uname := "Guest"; Commands.group := " ";
     Commands.prevNames := []; Commands.named := true; Commands.connected := true;
     Commands.isSysop := false; Commands.authenticated := false;
     Commands.ips := ["10.0.0.7"]; Commands.latestIp := "10.0.0.7";
     Commands.roomCount := ["global"; "lobby"] |}.

Definition zarel : Commands.User :=
  {| Commands.userid := "zarel"; Commands.uname := "Zarel"; Commands.group := "~";
     Commands.prevNames := []; Commands.named := true; Commands.connected := true;
     Commands.isSysop := true; Commands.authenticated := true;
     Commands.ips := ["192.0.2.1"; "192.0.2.2"]; Commands.latestIp := "192.0.2.2";
     Commands.roomCount := ["global"; "lobby"; "staff"] |}.

Definition users : list Commands.User := [nobody; zarel].

Definition lobby : Commands.Room :=
  {| Commands.room_id := "lobby"; Commands.title := "Lobby";
     Commands.rulesLink := Some "http://pokemonshowdown.com/rules";
     Commands.chatRoomData := true |}.

Definition services : Commands.services :=
  {| Commands.Tools := Tools;
     Commands.toId := toId;
     Commands.sanitize := fun s => s;
     Commands.splitTarget := fun s =>
       let n := trim (nth 0 (split "," s) "") in
       (find (fun u => String.eqb (Commands.userid u) (toId n)) users, n,
        trim (String.concat "," (tl (split "," s))));
     Commands.user_can := fun u _ _ => String.eqb (Commands.group u) "~";
     Commands.getAlts := fun _ => [];
     Commands.group_name := fun g => if String.eqb g "~" then Some "Administrator" else None;
     Commands.groupsranking0 := " ";
     Commands.isPrivate := fun i => String.eqb i "staff";
     Commands.room_exists := fun i => String.eqb i "lobby" || String.eqb i "staff";
     Commands.has_lobby := true;
     Commands.Users_users := users;
     Commands.dataSearch := fun _ => [];
     Commands.data_alias := fun _ => false;
     Commands.found_exists := fun _ _ => false;
     Commands.learn_rest := fun _ _ => [];
     Commands.weakness_rest := fun _ => [];
     Commands.effectiveness_text := fun _ => "";
     Commands.uptimeText := "1 hour";
     Commands.smogdex_rest := fun _ => [];
     Commands.dice_rest := fun _ => [] |}.

Definition with_tools (T : tools) (S : Commands.services) : Commands.services :=
  {| Commands.Tools := T;
     Commands.toId := Commands.toId S;
     Commands.sanitize := Commands.sanitize S;
     Commands.splitTarget := Commands.splitTarget S;
     Commands.user_can := Commands.user_can S;
     Commands.getAlts := Commands.getAlts S;
     Commands.group_name := Commands.group_name S;
     Commands.groupsranking0 := Commands.groupsranking0 S;
     Commands.isPrivate := Commands.isPrivate S;
     Commands.room_exists := Commands.room_exists S;
     Commands.has_lobby := Commands.has_lobby S;
     Commands.Users_users := Commands.Users_users S;
     Commands.dataSearch := Commands.dataSearch S;
     Commands.data_alias := Commands.data_alias S;
     Commands.found_exists := Commands.found_exists S;
     Commands.learn_rest := Commands.learn_rest S;
     Commands.weakness_rest := Commands.weakness_rest S;
     Commands.effectiveness_text := Commands.effectiveness_text S;
     Commands.uptimeText := Commands.uptimeText S;
     Commands.smogdex_rest := Commands.smogdex_rest S;
     Commands.dice_rest := Commands.dice_rest S |}.

Definition query (u : Commands.User) (t : string) : Commands.args :=
  {| Commands.target := t; Commands.room := lobby; Commands.user := u;
     Commands.cmd := "" |}.

(** An invocation typed with the private sigil. *)
Definition private : invocation :=
  {| sigil := false; may_broadcast := false; grants := fun _ => false;
     nested := fun _ => Undefined; shuffled := fun l => rev l |}.

(** An invocation typed with the broadcast sigil by a user who may not
    broadcast. *)
Definition refused : invocation :=
  {| sigil := true; may_broadcast := false; grants := fun _ => false;
     nested := fun _ => Undefined; shuffled := fun l => rev l |}.

(** An invocation typed with the broadcast sigil by a user who may. *)
Definition announced : invocation :=
  {| sigil := true; may_broadcast := true; grants := fun _ => true;
     nested := fun _ => Undefined; shuffled := fun l => rev l |}.

End Sample.
(** ** Further notions used to state properties of the handlers *)

Module Recorded.
Import Parse.

(** Whether the text holds no upper-case ASCII letter. *)
Fixpoint no_upper (s : string) : bool :=
  match s with
  | EmptyString => true
  | String c s' =>
      negb ((65 <=? nat_of_ascii c) && (nat_of_ascii c <=? 90))%nat
      && no_upper s'
  end.

(** Whether the text, if any, begins with a character that is no
    lower-case ASCII letter and goes on without upper-case ASCII letters. *)
Definition capitalised (k : string) : bool :=
  match k with
  | EmptyString => true
  | String c r =>
      negb ((97 <=? nat_of_ascii c) && (nat_of_ascii c <=? 122))%nat
      && no_upper r
  end.

(** What the loop body of the parsing phase has found of a value it
    records under a category of [searches].  The tier and colour tests
    are [in] tests on an object literal, which the inherited name
    [constructor] passes as well as the keywords of the literal. *)
Definition recorded (T : tools) (cat k : string) : Prop :=
  (cat = "ability"
   /\ exists raw, exists_ (getAbility T raw) = true /\ name (getAbility T raw) = k)
  \/ (cat = "tier" /\ (In k allTiers \/ k = "constructor"))
  \/ (cat = "color" /\ (In k allColours \/ k = "constructor"))
  \/ (cat = "gen" /\ is_gen k = true)
  \/ (cat = "types" /\ In k (TypeChart T))
  \/ (cat = "moves"
      /\ exists raw, exists_ (getMove T raw) = true /\ name (getMove T raw) = k).

End Recorded.

Module Survival.

(** The test the pass of one category applies to the entry it visits;
    a category the spec does not have lets every entry through. *)
Definition test (T : tools) (st : Parse.state) (search : string) (t : template)
    : bool :=
  match get search (Parse.searches st) with
  | None => true
  | Some s =>
      if String.eqb search "types" then negb (Filter.types_deleted s t)
      else if String.eqb search "tier" then negb (Filter.tier_deleted T s t)
      else if String.eqb search "ability" then Filter.ability_kept s t
      else negb (Filter.field_deleted search s t)
  end.

(** The tests of the five categories whose pass only deletes. *)
Definition survives (T : tools) (st : Parse.state) (t : template) : bool :=
  forallb (fun search => test T st search t)
    ["types"; "ability"; "tier"; "gen"; "color"].

End Survival.

Module Frame.

(** An action that only sends text to the user or to the room. *)
Definition is_reply (a : action) : bool :=
  match a with
  | sendReply _ | sendReplyBox _ | popupReply _ => true
  | _ => false
  end.

(** A program whose every action is a reply. *)
Inductive replies_only : prog -> Prop :=
| ro_Return v : replies_only (Return v)
| ro_Do a k : is_reply a = true -> replies_only k -> replies_only (Do a k)
| ro_canBroadcast k : (forall b, replies_only (k b)) -> replies_only (canBroadcast k)
| ro_can permission k : (forall b, replies_only (k b)) -> replies_only (can permission k)
| ro_broadcasting k : (forall b, replies_only (k b)) -> replies_only (broadcasting k)
| ro_parse message k : (forall v, replies_only (k v)) -> replies_only (parse message k)
| ro_random_sort l k :
    (forall l', replies_only (k l')) -> replies_only (random_sort l k).

(** The replies of the handlers whose body is a collaborator of the
    table are replies. *)
Definition bodies_reply (S : Commands.services) : Prop :=
  (forall t c, Forall (fun a => is_reply a = true) (Commands.learn_rest S t c))
  /\ (forall t, Forall (fun a => is_reply a = true) (Commands.weakness_rest S t))
  /\ (forall t, Forall (fun a => is_reply a = true) (Commands.smogdex_rest S t))
  /\ (forall t, Forall (fun a => is_reply a = true) (Commands.dice_rest S t)).

(** The handlers that assign to shared objects, join or leave a room,
    write to the room, or hand a message to another command for delivery. *)
Definition acting : list string := ["rules"; "potd"; "lobbychat"; "a"; "invite"].

End Frame.

Module Lines.

(** A line sent with [this.sendReply]. *)
Definition is_line (a : action) : Prop := exists m, a = sendReply m.

(** What [help] keeps as it goes through its topics: the lines sent so
    far are lines, and there is one when a topic matched. *)
Definition kept (matched : bool) (sent : list action) : Prop :=
  Forall is_line sent /\ (matched = true -> sent <> []).

(** A program that sends a run of lines, at least one, and returns. *)
Definition answers (p : prog) : Prop :=
  exists L, p = sends L (Return Undefined) /\ L <> [] /\ Forall is_line L.

(** What the handlers that collect links keep: the buffer is not empty
    when an entry matched. *)
Definition filled (matched : bool) (buffer : string) : Prop :=
  matched = true -> buffer <> "".

(** A program that sends one reply and returns: the line [missing], or a
    box that is not empty. *)
Definition one_reply (missing : string) (p : prog) : Prop :=
  p = reply (sendReply missing)
  \/ exists buffer, buffer <> "" /\ p = reply (sendReplyBox buffer).

End Lines.

Module Store.

(** The room as a later invocation finds it: [rulesLink] is what the
    shared store holds. *)
Definition room_with (w : shared) (r : Commands.Room) : Commands.Room :=
  {| Commands.room_id := Commands.room_id r;
     Commands.title := Commands.title r;
     Commands.rulesLink := room_rulesLink w;
     Commands.chatRoomData := Commands.chatRoomData r |}.

(** The arguments of a later call, with no target, in that room. *)
Definition revisit (w : shared) (x : Commands.args) : Commands.args :=
  {| Commands.target := "";
     Commands.room := room_with w (Commands.room x);
     Commands.user := Commands.user x;
     Commands.cmd := Commands.cmd x |}.

End Store.

Module Separator.

(** Whether the character occurs in the string. *)
Fixpoint occurs (c : ascii) (s : string) : bool :=
  match s with
  | EmptyString => false
  | String c' s' => Ascii.eqb c' c || occurs c s'
  end.

End Separator.

Module Veteran.

(** An administrator who has changed names, and the services of a server
    on which an administrator sees alternate accounts. *)
Definition veteran : Commands.User :=
  {| Commands.userid := "zarel"; Commands.uname := "Zarel"; Commands.group := "~";
     Commands.prevNames := ["Zarel2"]; Commands.named := true;
     Commands.connected := true; Commands.isSysop := true;
     Commands.authenticated := true; Commands.ips := ["192.0.2.1"];
     Commands.latestIp := "192.0.2.1"; Commands.roomCount := ["global"; "lobby"] |}.

Definition sock : Commands.User :=
  {| Commands.userid := "zarelalt"; Commands.uname := "Zarel Alt";
     Commands.group := " "; Commands.prevNames := []; Commands.named := true;
     Commands.connected := false; Commands.isSysop := false;
     Commands.authenticated := false; Commands.ips := ["192.0.2.1"];
     Commands.latestIp := "192.0.2.1"; Commands.roomCount := [] |}.

Definition services : Commands.services :=
  {| Commands.Tools := Commands.Tools Sample.services;
     Commands.toId := Commands.toId Sample.services;
     Commands.sanitize := Commands.sanitize Sample.services;
     Commands.splitTarget := Commands.splitTarget Sample.services;
     Commands.user_can := Commands.user_can Sample.services;
     Commands.getAlts := fun _ => [sock];
     Commands.group_name := Commands.group_name Sample.services;
     Commands.groupsranking0 := Commands.groupsranking0 Sample.services;
     Commands.isPrivate := Commands.isPrivate Sample.services;
     Commands.room_exists := Commands.room_exists Sample.services;
     Commands.has_lobby := Commands.has_lobby Sample.services;
     Commands.Users_users := [veteran; sock];
     Commands.dataSearch := Commands.dataSearch Sample.services;
     Commands.data_alias := Commands.data_alias Sample.services;
     Commands.found_exists := Commands.found_exists Sample.services;
     Commands.learn_rest := Commands.learn_rest Sample.services;
     Commands.weakness_rest := Commands.weakness_rest Sample.services;
     Commands.effectiveness_text := Commands.effectiveness_text Sample.services;
     Commands.uptimeText := Commands.uptimeText Sample.services;
     Commands.smogdex_rest := Commands.smogdex_rest Sample.services;
     Commands.dice_rest := Commands.dice_rest Sample.services |}.

End Veteran.

(** ** [smogdex], line 905

    The handler past its broadcast check.  Descriptors are read through
    [exists], [name], [gen] and, for a species, [tier]; generations are
    numbers.  [in] is membership among the keys written in the object
    literal. *)

Module Smogdex.

(** What [smogdex] reads of a descriptor. *)
Record datum : Type := {
  exists_ : bool;
  name : string;
  gen : nat;
  tier : string
}.

(** The lookups of [Tools] that [smogdex] makes, and [toId]. *)
Record provider : Type := {
  toId : string -> string;
  getTemplate : string -> datum;
  getItem : string -> datum;
  getMove : string -> datum;
  getAbility : string -> datum
}.

(** [s.replace(' ', '_')]: the first space only. *)
Fixpoint replace_space (s : string) : string :=
  match s with
  | EmptyString => EmptyString
  | String c s' =>
      if Ascii.eqb c " " then String "_" s' else String c (replace_space s')
  end.

(** [a[i] || d]. *)
Definition element_or (d : string) (a : list string) (i : nat) : string :=
  match nth_error a i with
  | Some s => if String.eqb s "" then d else s
  | None => d
  end.

Definition doublesFormats : list string := ["vgc2012"; "vgc2013"; "doubles"].

(** The chain that maps what the user typed to [generation] and
    [genNumber]. *)
Definition normalise (generation : string) : string * nat :=
  if String.eqb generation "bw" || String.eqb generation "bw2"
     || String.eqb generation "5" || String.eqb generation "five"
  then ("bw", 5)
  else if String.eqb generation "dp" || String.eqb generation "dpp"
          || String.eqb generation "4" || String.eqb generation "four"
  then ("dp", 4)
  else if String.eqb generation "adv" || String.eqb generation "rse"
          || String.eqb generation "rs" || String.eqb generation "3"
          || String.eqb generation "three"
  then ("rs", 3)
  else if String.eqb generation "gsc" || String.eqb generation "gs"
          || String.eqb generation "2" || String.eqb generation "two"
  then ("gs", 2)
  else if String.eqb generation "rby" || String.eqb generation "rb"
          || String.eqb generation "1" || String.eqb generation "one"
  then ("rb", 1)
  else ("bw", 5).

(** The text an inherited property gives when it is concatenated to a
    string: the rendering of a built-in function by V8 ([constructor] is
    the function [Object]), and that of [Object.prototype] under
    [__proto__]. *)
Definition inherited_text (k : string) : string :=
  if String.eqb k "__proto__" then "[object Object]"
  else "function " ++ (if String.eqb k "constructor" then "Object" else k)
       ++ "() { [native code] }".

(** [{'vgc2012':'VGC 2012 ','vgc2013':'VGC 2013 ','doubles':'Doubles '}[f]],
    concatenated to a string: the value under an own key, the inherited
    property under an inherited name, [undefined] otherwise. *)
Definition doublesText_of (f : string) : string :=
  if String.eqb f "vgc2012" then "VGC 2012 "
  else if String.eqb f "vgc2013" then "VGC 2013 "
  else if String.eqb f "doubles" then "Doubles "
  else if mem f inherited then inherited_text f
  else "undefined".

(** [doublesFormat] and [doublesText] after the test on the generation;
    [typed] is what the user typed as the generation, [generation] what
    the chain has made of it, [third] is [targets[2] || '']. *)
Definition doubles (typed generation third : string) : string * string :=
  let doublesFormat :=
    if String.eqb third "" && js_in typed doublesFormats then typed
    else toLowerCase (trim third) in
  if String.eqb doublesFormat "" then ("", "")
  else if negb (js_in generation ["bw"; "xy"])
          || negb (js_in doublesFormat doublesFormats)
  then ("", "")
  else ("/" ++ doublesFormat, doublesText_of doublesFormat).

(** The name of a species as the site spells it in its addresses. *)
Definition site_name (pokemon_name : string) : string :=
  let poke := toLowerCase pokemon_name in
  let poke := if String.eqb poke "nidoranm" then "nidoran-m" else poke in
  let poke := if String.eqb poke "nidoranf" then "nidoran-f" else poke in
  let poke := if String.eqb poke "farfetch'd" then "farfetchd" else poke in
  let poke := if String.eqb poke "mr. mime" then "mr_mime" else poke in
  let poke := if String.eqb poke "mime jr." then "mime_jr" else poke in
  let poke :=
    if String.eqb poke "deoxys-attack" || String.eqb poke "deoxys-defense"
       || String.eqb poke "deoxys-speed" || String.eqb poke "kyurem-black"
       || String.eqb poke "kyurem-white"
    then substring 0 8 poke else poke in
  let poke := if String.eqb poke "wormadam-trash" then "wormadam-s" else poke in
  let poke := if String.eqb poke "wormadam-sandy" then "wormadam-g" else poke in
  let poke :=
    if String.eqb poke "rotom-wash" || String.eqb poke "rotom-frost"
       || String.eqb poke "rotom-heat"
    then substring 0 7 poke else poke in
  let poke := if String.eqb poke "rotom-mow" then "rotom-c" else poke in
  let poke := if String.eqb poke "rotom-fan" then "rotom-s" else poke in
  let poke :=
    if String.eqb poke "giratina-origin" || String.eqb poke "tornadus-therian"
       || String.eqb poke "landorus-therian"
    then substring 0 10 poke else poke in
  let poke := if String.eqb poke "shaymin-sky" then "shaymin-s" else poke in
  let poke := if String.eqb poke "arceus" then "arceus-normal" else poke in
  let poke := if String.eqb poke "thundurus-therian" then "thundurus-t" else poke in
  poke.

Definition smogon : string :=
  ", brought to you by <a href=" ++ dq ++ "http://www.smogon.com" ++ dq
  ++ ">Smogon University</a>".

Definition previews : string :=
  "<a href=" ++ dq
  ++ "http://www.smogon.com/forums/threads/sixth-generation-pokemon-analyses-index.3494918/"
  ++ dq ++ ">Generation 6 Analyses Index</a>" ++ smogon.

(** The box that links to the analysis of an item, an ability or a move. *)
Definition analysis (generation kind label : string) (d : datum) : action :=
  sendReplyBox
    ("<a href=" ++ dq ++ "http://www.smogon.com/" ++ generation ++ "/" ++ kind
     ++ "/" ++ replace_space (toLowerCase (name d)) ++ dq ++ ">"
     ++ toUpperCase generation ++ " " ++ name d ++ " " ++ label
     ++ " analysis</a>" ++ smogon).

Definition did_not_exist (pokemon : datum) (generation : string) : action :=
  sendReplyBox (name pokemon ++ " did not exist in " ++ toUpperCase generation ++ "!").

(** The replies of the handler, in order; every path returns [undefined]. *)
Definition replies (P : provider) (target : string) : list action :=
  let targets := split "," target in
  let first := nth 0 targets "" in
  if String.eqb (toId P first) "previews" then [sendReplyBox previews]
  else
    let pokemon := getTemplate P first in
    let item := getItem P first in
    let move := getMove P first in
    let ability := getAbility P first in
    let typed := toLowerCase (trim (element_or "bw" targets 1)) in
    let '(generation, genNumber) := normalise typed in
    let '(doublesFormat, doublesText) :=
      doubles typed generation (element_or "" targets 2) in
    if exists_ pokemon && (genNumber <? gen pokemon)%nat
    then [did_not_exist pokemon generation]
    else
      let generation :=
        if exists_ pokemon
           && (String.eqb (tier pokemon) "G4CAP" || String.eqb (tier pokemon) "G5CAP")
        then "cap" else generation in
      let shows_item := exists_ item && (1 <? genNumber)%nat
                        && (gen item <=? genNumber)%nat in
      let shows_ability := exists_ ability && (2 <? genNumber)%nat
                           && (gen ability <=? genNumber)%nat in
      let shows_move := exists_ move && (gen move <=? genNumber)%nat in
      ((if exists_ pokemon
        then [sendReplyBox
                ("<a href=" ++ dq ++ "http://www.smogon.com/" ++ generation
                 ++ "/pokemon/" ++ site_name (name pokemon) ++ doublesFormat ++ dq
                 ++ ">" ++ toUpperCase generation ++ " " ++ doublesText
                 ++ name pokemon ++ " analysis</a>" ++ smogon)]
        else [])
       ++ (if shows_item then [analysis generation "items" "item" item] else [])
       ++ (if shows_ability
           then [analysis generation "abilities" "ability" ability] else [])
       ++ (if shows_move then [analysis generation "moves" "move" move] else [])
       ++ (if negb (exists_ pokemon || shows_item || shows_ability || shows_move)
           then [sendReplyBox
                   ("Pokemon, item, move, or ability not found for generation "
                    ++ toUpperCase generation ++ ".")]
           else []))%list.

(** The handler. *)
Definition smogdex (P : provider) (a : Commands.args) : prog :=
  guarded (sends (replies P (Commands.target a)) (Return Undefined)).

(** A provider with a few entries. *)
Definition entry (table : list (string * datum)) (raw : string) : datum :=
  match get (Sample.toId raw) table with
  | Some d => d
  | None => {| exists_ := false; name := trim raw; gen := 0; tier := "" |}
  end.

Definition known (n : string) (g : nat) (t : string) : datum :=
  {| exists_ := true; name := n; gen := g; tier := t |}.

Definition sample : provider :=
  {| toId := Sample.toId;
     getTemplate := entry [("pikachu", known "Pikachu" 1 "NFE");
                           ("greninja", known "Greninja" 6 "OU")];
     getItem := entry [("leftovers", known "Leftovers" 2 "");
                       ("metronome", known "Metronome" 4 "")];
     getMove := entry [("surf", known "Surf" 1 "");
                       ("metronome", known "Metronome" 1 "")];
     getAbility := entry [("static", known "Static" 3 "")] |}.

End Smogdex.

(** ** [dice], line 1147

    The handler past its broadcast check.  [floor_random faces i] is
    [Math.floor(faces * Math.random())] at the call of [Math.random] number
    [i] of the run.  A target without the letter d is multiplied as a
    number: [not_a_number] is [isNaN(target)] and [max_roll target] the
    text of [Math.floor(target * Math.random()) + 1]. *)

Module Dice.

Record chance : Type := {
  floor_random : nat -> nat -> nat;
  not_a_number : string -> bool;
  max_roll : string -> string
}.

Definition sum (l : list nat) : nat := fold_left Nat.add l 0.

(** The dice of [for (var i=0; i < num; i++)]. *)
Definition rolls (R : chance) (num faces : nat) : list nat :=
  map (fun i => floor_random R faces i + 1) (seq 0 num).

(** The reply for a target that has the letter d at index [d]; the test
    [target.length > d] holds of every such index. *)
Definition thrown (R : chance) (target : string) (d : nat) : action :=
  let num := match parseInt (substring 0 d target) with
             | Some n => n
             | None => 1%Z
             end in
  match parseInt (slice_from (d + 1) target) with
  | None => sendReply "The number of faces must be a valid integer."
  | Some faces =>
      if ((faces <? 1) || (1000 <? faces))%Z
      then sendReply "The number of faces must be between 1 and 1000"
      else if ((num <? 1) || (20 <? num))%Z
      then sendReply "The number of dice must be between 1 and 20"
      else
        let rolled := rolls R (Z.to_nat num) (Z.to_nat faces) in
        sendReplyBox
          ("Random number " ++ string_of_nat (Z.to_nat num) ++ "x(1 - "
           ++ string_of_nat (Z.to_nat faces) ++ "): "
           ++ join ", " (map string_of_nat rolled)
           ++ "<br />Total: " ++ string_of_nat (sum rolled))
  end.

(** The reply of the handler. *)
Definition answer (R : chance) (target : string) : action :=
  match indexOf "d" target with
  | Some d => thrown R target d
  | None =>
      if (negb (String.eqb target "") && not_a_number R target)
         || (21 <? code_units target)%nat
      then sendReply "The max roll must be a number under 21 digits."
      else if String.eqb target ""
      then sendReplyBox
             ("Random number (1 - 6): " ++ string_of_nat (floor_random R 6 0 + 1))
      else sendReplyBox
             ("Random number (1 - " ++ target ++ "): " ++ max_roll R target)
  end.

Definition dice (R : chance) (a : Commands.args) : prog :=
  guarded (reply (answer R (Commands.target a))).

(** What [Math.random] guarantees: a number from 0 up to but not
    including 1, so the floor of its product with [faces] is below
    [faces]. *)
Definition fair (R : chance) : Prop :=
  forall faces i, 0 < faces -> floor_random R faces i < faces.

(** Dice that always show their highest face. *)
Definition loaded : chance :=
  {| floor_random := fun faces _ => faces - 1;
     not_a_number := fun _ => true;
     max_roll := fun _ => "" |}.

End Dice.

(** ** Handlers that never consult the broadcast check *)

Module Unchecked.

(** A program without [this.canBroadcast()]. *)
Inductive unchecked : prog -> Prop :=
| un_Return v : unchecked (Return v)
| un_Do a k : unchecked k -> unchecked (Do a k)
| un_can permission k : (forall b, unchecked (k b)) -> unchecked (can permission k)
| un_broadcasting k : (forall b, unchecked (k b)) -> unchecked (broadcasting k)
| un_parse message k : (forall v, unchecked (k v)) -> unchecked (parse message k)
| un_random_sort l k :
    (forall l', unchecked (k l')) -> unchecked (random_sort l k).

(** The handlers of the table in which [canBroadcast] does not occur. *)
Definition unbroadcast : list string :=
  ["whois"; "ipsearch"; "invite"; "weakness"; "birkal"; "potd"; "banredirect";
   "lobbychat"; "a"; "help"].

End Unchecked.

(** ** The topics of [help] *)

Module Topics.

(** The strings the tests of [help] compare the target with, in the
    order of their first occurrence. *)
Definition topics : list string :=
  ["all"; "msg"; "pm"; "whisper"; "w"; "r"; "reply"; "getip"; "ip"; "rating";
   "ranking"; "rank"; "ladder"; "nick"; "avatar"; "rooms"; "whois"; "data";
   "analysis"; "groups"; "opensource"; "avatars"; "intro"; "cap"; "om"; "learn";
   "learnset"; "learnall"; "calc"; "caclulator"; "blockchallenges"; "idle";
   "allowchallenges"; "away"; "back"; "faq"; "highlight"; "timestamps";
   "effectiveness"; "dexsearch"; "dice"; "roll"; "join"; "ignore"; "%"; "invite";
   "roomban"; "roomunban"; "redirect"; "redir"; "modnote"; "altcheck"; "alt";
   "alts"; "getalts"; "forcerename"; "fr"; "@"; "ban"; "b"; "&"; "banip";
   "unban"; "unbanall"; "modlog"; "kickbattle "; "warn"; "k"; "mute"; "m";
   "hourmute"; "hm"; "unmute"; "promote"; "demote"; "~"; "forcerenameto"; "frt";
   "forcetie"; "declare"; "chatdeclare"; "cdeclare"; "globaldeclare"; "gdeclare";
   "announce"; "wall"; "modchat"; "hotpatch"; "lockdown"; "kill"; "loadbanlist";
   "makechatroom"; "deregisterchatroom"; "roomowner"; "roomdeowner";
   "privateroom"; "help"; "h"; "?"; "commands"].

(** The line [help] sends when no topic matched. *)
Definition missing (target : string) : action :=
  sendReply ("The command " ++ dq ++ "/" ++ target ++ dq
             ++ " was not found. Try /help for general help").

(** Whether an event is that line, sent to the user alone. *)
Definition is_missing (target : string) (e : event) : bool :=
  match e with
  | Called false (sendReply m) =>
      String.eqb m ("The command " ++ dq ++ "/" ++ target ++ dq
                    ++ " was not found. Try /help for general help")
  | _ => false
  end.

End Topics.

(** * Properties *)

Unset Implicit Arguments.

(** ** Sanity checks of the string primitives *)

Example trim_ex : trim "  Fire Type " = "Fire Type".
Proof. reflexivity. Qed.

Example split_ex : split "," "fire type, water type" = ["fire type"; " water type"].
Proof. reflexivity. Qed.

Example parseInt_ex :
  parseInt "3abc" = Some 3%Z /\ parseInt "tapu" = None /\ parseInt " 0x5" = Some 5%Z.
Proof. repeat split. Qed.

Example string_of_nat_ex : string_of_nat 0 = "0" /\ string_of_nat 137 = "137".
Proof. split; reflexivity. Qed.

Example sort_ex : Output.sort ["Pidgey"; "Abra"; "Mew"] = ["Abra"; "Mew"; "Pidgey"].
Proof. reflexivity. Qed.

Example code_units_ex :
  code_units "Pokemon" = 7 /\ code_units "Pokémon" = 7
  /\ String.length "Pokémon" = 8.
Proof. repeat split. Qed.

Example js_in_ex :
  js_in "ou" Parse.allTiers = true /\ js_in "constructor" Parse.allTiers = true
  /\ js_in "__proto__" [] = true /\ js_in "tapu" Parse.allTiers = false.
Proof. repeat split. Qed.

Example assign_ex :
  Parse.assign "constructor" true [] = [("constructor", true)]
  /\ Parse.assign "__proto__" true [] = [].
Proof. split; reflexivity. Qed.

(** ** Dictionaries *)

Section ObjFacts.
Variable V : Type.
Implicit Types (o : jsobj V) (k : string) (v : V).

Lemma get_set_eq k v o : get k (set k v o) = Some v.
Proof.
  induction o as [|[k' v'] o IH]; simpl.
  - now rewrite String.eqb_refl.
  - destruct (String.eqb k k') eqn:E; simpl.
    + now rewrite String.eqb_refl.
    + now rewrite E.
Qed.

Lemma get_set_neq k k' v o : k <> k' -> get k' (set k v o) = get k' o.
Proof.
  intros Hne. induction o as [|[k0 v0] o IH]; simpl.
  - destruct (String.eqb k' k) eqn:E; [|reflexivity].
    apply String.eqb_eq in E. congruence.
  - destruct (String.eqb k k0) eqn:E; simpl.
    + apply String.eqb_eq in E. subst k0.
      destruct (String.eqb k' k) eqn:E'; [|reflexivity].
      apply String.eqb_eq in E'. congruence.
    + now rewrite IH.
Qed.

Lemma get_delete_neq k k' o : k <> k' -> get k' (delete k o) = get k' o.
Proof.
  intros Hne. induction o as [|[k0 v0] o IH]; simpl; [reflexivity|].
  destruct (String.eqb k k0) eqn:E; simpl.
  - apply String.eqb_eq in E. subst k0.
    destruct (String.eqb k' k) eqn:E'; [|exact IH].
    apply String.eqb_eq in E'. congruence.
  - now rewrite IH.
Qed.

Lemma get_delete_eq k o : get k (delete k o) = None.
Proof.
  induction o as [|[k0 v0] o IH]; simpl; [reflexivity|].
  destruct (String.eqb k k0) eqn:E; simpl; [exact IH|now rewrite E].
Qed.

Lemma get_In k v o : get k o = Some v -> In (k, v) o.
Proof.
  induction o as [|[k0 v0] o IH]; simpl; [discriminate|].
  destruct (String.eqb k k0) eqn:E.
  - apply String.eqb_eq in E. intros [= ->]. subst. now left.
  - intros H. right. now apply IH.
Qed.

Lemma In_keys_get k o : In k (keys o) -> exists v, get k o = Some v.
Proof.
  induction o as [|[k0 v0] o IH]; simpl; [tauto|].
  intros [->|H].
  - rewrite String.eqb_refl. eauto.
  - destruct (String.eqb k k0); eauto.
Qed.

Lemma keys_set_in k v o : In k (keys (set k v o)).
Proof.
  induction o as [|[k0 v0] o IH]; simpl; [now left|].
  destruct (String.eqb k k0) eqn:E; simpl; [now left|now right].
Qed.

Lemma keys_set_other k k' v o : In k' (keys (set k v o)) -> k' = k \/ In k' (keys o).
Proof.
  induction o as [|[k0 v0] o IH]; simpl.
  - intros [<-|[]]. now left.
  - destruct (String.eqb k k0) eqn:E; simpl.
    + intros [<-|H]; [now left|now right; right].
    + intros [<-|H]; [now right; left|].
      destruct (IH H) as [->|H']; [now left|now right; right].
Qed.

Lemma keys_delete k k' o : In k' (keys (delete k o)) -> In k' (keys o).
Proof.
  induction o as [|[k0 v0] o IH]; simpl; [tauto|].
  destruct (String.eqb k k0); simpl; intuition.
Qed.

Lemma NoDup_keys_set k v o : NoDup (keys o) -> NoDup (keys (set k v o)).
Proof.
  induction o as [|[k0 v0] o IH]; simpl; intros Hnd.
  - repeat constructor. intros [].
  - inversion Hnd as [|? ? Hnin Hnd']; subst.
    destruct (String.eqb k k0) eqn:E; simpl.
    + apply String.eqb_eq in E. subst k0. now constructor.
    + constructor; [|now apply IH].
      intros Hin. apply keys_set_other in Hin as [->|Hin]; [|contradiction].
      now rewrite String.eqb_refl in E.
Qed.

Lemma NoDup_keys_delete k o : NoDup (keys o) -> NoDup (keys (delete k o)).
Proof.
  induction o as [|[k0 v0] o IH]; simpl; intros Hnd; [constructor|].
  inversion Hnd as [|? ? Hnin Hnd']; subst.
  destruct (String.eqb k k0); simpl; [now apply IH|].
  constructor; [|now apply IH]. intros Hin. now apply keys_delete in Hin.
Qed.

Lemma In_get k v o : NoDup (keys o) -> In (k, v) o -> get k o = Some v.
Proof.
  induction o as [|[k0 v0] o IH]; simpl; intros Hnd; [tauto|].
  inversion Hnd as [|? ? Hnin Hnd']; subst.
  intros [[= -> ->]|Hin].
  - now rewrite String.eqb_refl.
  - destruct (String.eqb k k0) eqn:E; [|now apply IH].
    apply String.eqb_eq in E. subst k0. exfalso. apply Hnin.
    unfold keys. apply in_map_iff. now exists (k, v).
Qed.

End ObjFacts.

Lemma count_true_set_false k (o : jsobj bool) :
  count_true (set k false o) <= count_true o.
Proof.
  unfold count_true.
  induction o as [|[k' v'] o IH]; simpl; [lia|].
  destruct (String.eqb k k'); simpl; destruct v'; simpl; lia.
Qed.

Lemma count_true_set_true k (o : jsobj bool) :
  count_true (set k true o) <= S (count_true o).
Proof.
  unfold count_true.
  induction o as [|[k' v'] o IH]; simpl; [lia|].
  destruct (String.eqb k k'); simpl; destruct v'; simpl; lia.
Qed.

Lemma count_true_set k v (o : jsobj bool) :
  count_true (set k v o) <= S (count_true o).
Proof.
  destruct v; [apply count_true_set_true|].
  pose proof (count_true_set_false k o). lia.
Qed.

Lemma count_true_delete k (o : jsobj bool) :
  get k o = Some true -> S (count_true (delete k o)) <= count_true o.
Proof.
  unfold count_true.
  induction o as [|[k' v'] o IH]; simpl; [discriminate|].
  destruct (String.eqb k k') eqn:E.
  - intros [= ->]. simpl.
    assert (H : List.length (filter (fun kv => snd kv) (delete k o))
                <= List.length (filter (fun kv : string * bool => snd kv) o)).
    { clear. induction o as [|[k0 v0] o IH]; simpl; [lia|].
      destruct (String.eqb k k0); simpl; destruct v0; simpl; lia. }
    lia.
  - intros H. specialize (IH H). simpl. destruct v'; simpl; lia.
Qed.

(** Three distinct properties that are [true] make [Object.count] at
    least three. *)
Lemma count_true_three k1 k2 k3 (o : jsobj bool) :
  k1 <> k2 -> k1 <> k3 -> k2 <> k3 ->
  get k1 o = Some true -> get k2 o = Some true -> get k3 o = Some true ->
  3 <= count_true o.
Proof.
  intros H12 H13 H23 G1 G2 G3.
  pose proof (count_true_delete k1 o G1) as C1.
  assert (G2' : get k2 (delete k1 o) = Some true) by now rewrite get_delete_neq.
  assert (G3' : get k3 (delete k1 o) = Some true) by now rewrite get_delete_neq.
  pose proof (count_true_delete k2 _ G2') as C2.
  assert (G3'' : get k3 (delete k2 (delete k1 o)) = Some true)
    by now rewrite get_delete_neq.
  pose proof (count_true_delete k3 _ G3'') as C3.
  lia.
Qed.

Lemma truthy_get k (o : jsobj bool) : truthy k o = true <-> get k o = Some true.
Proof.
  unfold truthy. destruct (get k o) as [[|]|]; split; congruence.
Qed.

(** ** The parsing phase *)

Module ParseFacts.
Import Parse.

Lemma category_record_same cat k v st :
  category cat (searches (record cat k v st))
  = assign k v (category cat (searches st)).
Proof. unfold record, category at 1. simpl. now rewrite get_set_eq. Qed.

Lemma category_record_other cat cat' k v st :
  cat <> cat' ->
  category cat' (searches (record cat k v st)) = category cat' (searches st).
Proof.
  intros Hne. unfold record, category at 1. simpl.
  now rewrite get_set_neq.
Qed.

(** The first character of a type word is an upper-case conversion, so
    the word is never the name under which a missing array element is
    looked up. *)
Lemma upper_not_u c : upper c <> "u"%char.
Proof.
  destruct c as [[] [] [] [] [] [] [] []]; vm_compute; discriminate.
Qed.

Lemma type_word_defined target i : type_word target i <> "undefined".
Proof.
  unfold type_word, charAt0. destruct target as [|c s]; simpl.
  - destruct i; discriminate.
  - intros [= H _]. now apply upper_not_u in H.
Qed.

Lemma limit_not_reached n c neg :
  (n =? c)%nat && negb neg = false -> negb neg = true -> n <> c.
Proof.
  intros H Hn. rewrite Hn, andb_true_r in H. now apply Nat.eqb_neq.
Qed.

Lemma token_accepted T b st raw st' :
  token T b st raw = inr st' -> accepted st st'.
Proof.
  unfold token, move_branch.
  destruct (normalise raw) as [neg target].
  repeat match goal with
         | |- match ?x with _ => _ end = _ -> _ => destruct x eqn:?
         end;
    intros [= <-];
    try (constructor; intros; try discriminate;
         eauto using limit_not_reached, type_word_defined).
Qed.



Lemma accepted_types_named st st' :
  accepted st st' -> types_named st -> types_named st'.
Proof.
  unfold types_named.
  intros [cat k v _ _ _ Hk| |m] H; [|exact H..].
  destruct (string_dec cat "types") as [->|Hne].
  - rewrite category_record_same. unfold assign.
    destruct (String.eqb k "__proto__"); [exact H|].
    rewrite get_set_neq; auto.
  - now rewrite category_record_other.
Qed.

(** A property of the variables that every accepted token preserves
    holds of whatever the loop returns. *)
Lemma tokens_preserve (P : state -> Prop) T b :
  (forall st st', accepted st st' -> P st -> P st') ->
  forall targets st st',
    P st -> tokens T b st targets = inr st' -> P st'.
Proof.
  intros Hstep. induction targets as [|raw rest IH]; simpl; intros st st' HP.
  - now intros [= <-].
  - destruct (token T b st raw) as [m|st1] eqn:E; [discriminate|].
    apply IH. eauto using token_accepted.
Qed.

Lemma parse_tokens T b targets st :
  parse T b targets = inr st -> tokens T b initial targets = inr st.
Proof.
  unfold parse. destruct (tokens T b initial targets) as [m|st0]; [discriminate|].
  destruct (_ && _); [discriminate|]. now intros [= ->].
Qed.


Lemma parse_types_named T b targets st :
  parse T b targets = inr st -> types_named st.
Proof.
  intros H. apply parse_tokens in H.
  eapply (tokens_preserve types_named); eauto using accepted_types_named.
  reflexivity.
Qed.

Lemma tokens_app T b st pre post :
  tokens T b st (pre ++ post)%list
  = match tokens T b st pre with
    | inl m => inl m
    | inr st' => tokens T b st' post
    end.
Proof.
  revert st. induction pre as [|raw pre IH]; simpl; intros st; [reflexivity|].
  destruct (token T b st raw); [reflexivity|apply IH].
Qed.

End ParseFacts.

(** ** How the loop body classifies a token *)

Module Classify.
Import Parse.



Lemma token_move T b st raw :
  exists_ (getAbility T raw) = false ->
  keyword (snd (normalise raw)) = false ->
  as_type T (snd (normalise raw)) = None ->
  token T b st raw
  = move_branch T (fst (normalise raw)) (search_term (snd (normalise raw))) st.
Proof.
  intros Ha Hk Ht. unfold token, keyword, as_type, search_term in *.
  destruct (normalise raw) as [neg target]. cbn [fst snd] in *.
  rewrite Ha.
  apply orb_false_elim in Hk as [Hk Hmega].
  apply orb_false_elim in Hk as [Hk Hall].
  apply orb_false_elim in Hk as [Hk Hgen].
  apply orb_false_elim in Hk as [Htier Hcolour].
  rewrite Htier, Hcolour, Hgen, Hall, Hmega.
  destruct (indexOf " type" target) as [i|]; [|reflexivity].
  destruct (js_in (type_word target i) (TypeChart T)); [discriminate|reflexivity].
Qed.

(** A reply of the loop body is the reply of the parsing phase. *)
Lemma parse_refuses T b pre raw post st m :
  tokens T b initial pre = inr st ->
  token T b st raw = inl m ->
  parse T b (pre ++ raw :: post) = inl m.
Proof.
  intros Hpre Htok. unfold parse.
  rewrite ParseFacts.tokens_app, Hpre. simpl. now rewrite Htok.
Qed.

End Classify.

(** ** Runs of [dexsearch] *)

Module DexsearchRuns.
Import Commands.

Lemma run_guarded_pass c body :
  passes_broadcast c ->
  run c (guarded body)
  = (BroadcastChecked true :: fst (exec c (sigil c) body),
     snd (exec c (sigil c) body)).
Proof.
  unfold passes_broadcast, run, guarded. intros H. simpl.
  destruct (sigil c); [rewrite H by reflexivity|]; simpl;
    now destruct (exec c _ body).
Qed.

Lemma run_guarded_fail c body :
  sigil c = true -> may_broadcast c = false ->
  run c (guarded body) = ([BroadcastChecked false], Undefined).
Proof.
  unfold run, guarded. intros Hs Hm. simpl. now rewrite Hs, Hm.
Qed.

Lemma resultsStr_unshuffled showAll results l l' :
  (0 <? List.length results)%nat
  && negb (showAll || (List.length results <=? Output.output)%nat) = false ->
  Output.resultsStr showAll results l = Output.resultsStr showAll results l'.
Proof.
  unfold Output.resultsStr. intros H.
  destruct (0 <? List.length results)%nat; [|reflexivity].
  simpl in H. apply negb_false_iff in H. now rewrite H.
Qed.

Lemma run_dexsearch c S a :
  passes_broadcast c -> target a <> "" ->
  run c (dexsearch S a)
  = ([BroadcastChecked true; Called (sigil c) (answer c S (target a))], Undefined).
Proof.
  intros Hp Ht. unfold dexsearch. rewrite run_guarded_pass by assumption.
  unfold nonempty, answer.
  destruct (String.eqb (target a) "") eqn:E;
    [apply String.eqb_eq in E; contradiction|].
  simpl.
  destruct (Parse.parse _ _ _) as [m|st]; [reflexivity|].
  destruct (Filter.run _ st) as [r|d]; [reflexivity|].
  destruct (_ && _) eqn:C; simpl; [reflexivity|].
  now rewrite (resultsStr_unshuffled _ _ _ (shuffled c (Filter.results d)) C).
Qed.

End DexsearchRuns.

(** ** The type pass with two required types *)

Lemma two_required_both_present (s : jsobj bool) (t : template) :
  count_true s = 2 ->
  get "undefined" s = None ->
  NoDup (types t) ->
  Filter.types_deleted s t = false ->
  forall ty, get ty s = Some true -> In ty (types t).
Proof.
  intros Hc Hu Hnd Hkept ty Hty.
  unfold Filter.types_deleted in Hkept. rewrite Hc in Hkept. simpl in Hkept.
  apply orb_false_elim in Hkept as [H0 H1].
  apply negb_false_iff, truthy_get in H0.
  apply negb_false_iff, truthy_get in H1.
  unfold Filter.prop_name in *.
  destruct (types t) as [|x [|y rest]]; simpl in *; try congruence.
  destruct (string_dec ty x) as [->|Hx]; [now left|].
  destruct (string_dec ty y) as [->|Hy]; [now right; left|].
  assert (Hxy : x <> y).
  { inversion Hnd as [|? ? Hnin _]; subst. intros ->. apply Hnin. now left. }
  pose proof (count_true_three x y ty s Hxy (not_eq_sym Hx) (not_eq_sym Hy) H0 H1 Hty).
  lia.
Qed.

Example fire_and_water :
  keys (Filter.types_pass [("Fire", true); ("Water", true)]
          (Filter.initial_dex Sample.Tools Parse.initial))
  = ["volcanion"].
Proof. vm_compute. reflexivity. Qed.

(** C1: when the spec the parsing phase built requires exactly two types,
    every entry the type pass keeps has both of them among its types, and
    an entry that lacks one of them is deleted.  The entries are those of
    a catalogue in which no species lists a type twice. *)
Theorem two_required_types (T : tools) (b : bool) (targets : list string)
    (st : Parse.state) (s : jsobj bool) (d : Filter.dex) :
  Parse.parse T b targets = inr st ->
  get "types" (Parse.searches st) = Some s ->
  count_true s = 2 ->
  (forall mon t, In (mon, t) d -> NoDup (types t)) ->
  forall mon t,
    In (mon, t) d ->
    (In (mon, t) (Filter.types_pass s d) ->
     forall ty, get ty s = Some true -> In ty (types t))
    /\ ((exists ty, get ty s = Some true /\ ~ In ty (types t)) ->
        ~ In (mon, t) (Filter.types_pass s d)).
Proof.
  intros Hparse Hs Hc Hnd mon t Hin.
  assert (Hu : get "undefined" s = None).
  { pose proof (ParseFacts.parse_types_named _ _ _ _ Hparse) as H.
    unfold Parse.types_named, Parse.category in H. now rewrite Hs in H. }
  assert (Hkept : In (mon, t) (Filter.types_pass s d) ->
                  forall ty, get ty s = Some true -> In ty (types t)).
  { unfold Filter.types_pass. intros H ty Hty.
    apply filter_In in H as [_ H]. apply negb_true_iff in H. simpl in H.
    eapply two_required_both_present; eauto. }
  split; [exact Hkept|].
  intros (ty & Hty & Hnot) H. apply Hnot. eauto.
Qed.

Lemma two_required_types_witness :
  let d := Filter.initial_dex Sample.Tools Parse.initial in
  let s := [("Fire", true); ("Water", true)] in
  (In ("volcanion", Sample.sample_getTemplate "volcanion") (Filter.types_pass s d) ->
   forall ty, get ty s = Some true ->
              In ty (types (Sample.sample_getTemplate "volcanion")))
  /\ ((exists ty, get ty s = Some true
                  /\ ~ In ty (types (Sample.sample_getTemplate "charizard"))) ->
      ~ In ("charizard", Sample.sample_getTemplate "charizard")
          (Filter.types_pass s d)).
Proof.
  assert (Hnd : forall mon t,
             In (mon, t) (Filter.initial_dex Sample.Tools Parse.initial) ->
             NoDup (types t)).
  { intros mon t H. vm_compute in H.
    repeat (destruct H as [H|H];
            [injection H as <- <-; repeat constructor; simpl; intuition discriminate|]).
    destruct H. }
  split.
  - refine (proj1 (two_required_types Sample.Tools false
                     ["fire type"; "water type"] _ _ _ _ _ _ Hnd
                     "volcanion" (Sample.sample_getTemplate "volcanion") _));
      try (vm_compute; reflexivity).
    vm_compute. tauto.
  - refine (proj2 (two_required_types Sample.Tools false
                     ["fire type"; "water type"] _ _ _ _ _ _ Hnd
                     "charizard" (Sample.sample_getTemplate "charizard") _));
      try (vm_compute; reflexivity).
    vm_compute. tauto.
Defined.

(** ** The moves pass *)

Module MovesFacts.
Import Filter.

Lemma check_moves_unknown T s :
  (exists i w, In (i, w) s /\ exists_ (getMove T i) = false) ->
  exists i w,
    In (i, w) s /\ exists_ (getMove T i) = false
    /\ forall l mon d,
         check_moves T l mon s d = inl (unknown_move (getMove T i)).
Proof.
  induction s as [|[i0 w0] s IH]; intros (i & w & Hin & Hex).
  - destruct Hin.
  - destruct (exists_ (getMove T i0)) eqn:E0.
    + destruct Hin as [Heq|Hin].
      { injection Heq as -> ->. congruence. }
      destruct IH as (i' & w' & Hin' & Hex' & Hall); [eauto|].
      exists i', w'. repeat split; [now right|assumption|].
      intros l mon d. simpl. rewrite E0. simpl.
      destruct (negb (canLearn l (getMove T i0)) && w0); [apply Hall|].
      destruct (negb w0 && canLearn l (getMove T i0)); apply Hall.
    + exists i0, w0. repeat split; [now left|assumption|].
      intros l mon d. simpl. now rewrite E0.
Qed.

Lemma mark_unknown T s m todo :
  (forall l mon d, check_moves T l mon s d = inl m) ->
  (exists mon t, In (mon, t) todo /\ learnset_of T t <> None) ->
  forall d, mark T s todo d = inl m.
Proof.
  intros Hall. induction todo as [|[mon0 t0] todo IH]; intros (mon & t & Hin & Hl) d.
  - destruct Hin.
  - simpl. destruct (learnset_of T t0) as [l|] eqn:E.
    + now rewrite Hall.
    + apply IH. destruct Hin as [Heq|Hin]; [|eauto].
      injection Heq as -> ->. congruence.
Qed.

(** [pull] never writes the sentinel. *)
Lemma pull_sentinel T d evo k :
  get k (pull T d evo) = Some None -> get k d = Some None.
Proof.
  unfold pull.
  destruct (get evo d) as [[t|]|] eqn:E; try (intros H; exact H);
    (destruct (string_dec evo k) as [->|Hne];
     [rewrite get_set_eq; discriminate|now rewrite get_set_neq]).
Qed.

Lemma pulls_sentinel T es d k :
  get k (fold_left (pull T) es d) = Some None -> get k d = Some None.
Proof.
  revert d. induction es as [|e es IH]; simpl; intros d H; [exact H|].
  eapply pull_sentinel. apply IH. exact H.
Qed.

(** A sentinel that is in [dex] after a turn of the second loop was there
    before the turn, under another key than the one visited. *)
Lemma propagate_step_sentinel T d mon k :
  get k (propagate_step T d mon) = Some None ->
  get k d = Some None /\ k <> mon.
Proof.
  unfold propagate_step.
  destruct (get mon d) as [[t|]|] eqn:E.
  - destruct (get mon (fold_left (pull T) (evos t) d)) as [[t'|]|] eqn:E'; intros H.
    + split; [eapply pulls_sentinel; eassumption|]. intros ->. congruence.
    + destruct (string_dec mon k) as [->|Hne];
        [rewrite get_delete_eq in H; discriminate|].
      rewrite get_delete_neq in H by assumption.
      split; [eapply pulls_sentinel; eassumption|congruence].
    + destruct (string_dec mon k) as [->|Hne];
        [rewrite get_delete_eq in H; discriminate|].
      rewrite get_delete_neq in H by assumption.
      split; [eapply pulls_sentinel; eassumption|congruence].
  - intros H. destruct (string_dec mon k) as [->|Hne];
      [rewrite get_delete_eq in H; discriminate|].
    rewrite get_delete_neq in H by assumption. split; congruence.
  - intros H. split; [exact H|]. intros ->. congruence.
Qed.

(** The second loop leaves no sentinel behind: every sentinel is under a
    key the loop has still to visit. *)
Lemma propagate_invariant T todo d :
  (forall k, get k d = Some None -> In k todo) ->
  forall k, get k (fold_left (propagate_step T) todo d) <> Some None.
Proof.
  revert d. induction todo as [|mon todo IH]; simpl; intros d Hinv k.
  - intros H. exact (Hinv k H).
  - apply IH. intros k' H'.
    apply propagate_step_sentinel in H' as [H' Hne].
    destruct (Hinv k' H') as [->|Hin]; [contradiction|exact Hin].
Qed.

Lemma propagate_no_sentinel T d k : get k (propagate T d) <> Some None.
Proof.
  apply propagate_invariant. intros k' H.
  apply get_In in H. unfold keys. apply in_map_iff. now exists (k', None).
Qed.

Lemma propagate_step_NoDup T d mon :
  NoDup (keys d) -> NoDup (keys (propagate_step T d mon)).
Proof.
  intros Hnd. unfold propagate_step.
  assert (Hp : forall es d', NoDup (keys d') ->
                             NoDup (keys (fold_left (pull T) es d'))).
  { induction es as [|e es IH]; simpl; intros d' H; [exact H|].
    apply IH. unfold pull.
    destruct (get e d') as [[t|]|]; auto using NoDup_keys_set. }
  destruct (get mon d) as [[t|]|]; auto using NoDup_keys_delete.
  destruct (get mon _) as [[t'|]|]; auto using NoDup_keys_delete.
Qed.

Lemma propagate_NoDup T d : NoDup (keys d) -> NoDup (keys (propagate T d)).
Proof.
  unfold propagate. generalize (keys d) at 2. intros todo. revert d.
  induction todo as [|mon todo IH]; simpl; intros d H; [exact H|].
  apply IH. now apply propagate_step_NoDup.
Qed.

(** So [templates] drops nothing from what the second loop returns. *)
Lemma templates_keys T d :
  NoDup (keys d) -> keys (templates (propagate T d)) = keys (propagate T d).
Proof.
  intros Hnd.
  assert (H : forall o : marked,
             (forall k, ~ In (k, None) o) -> keys (templates o) = keys o).
  { induction o as [|[k [t|]] o IH]; intros Hno; simpl.
    - reflexivity.
    - f_equal. apply IH. intros k' Hin. apply (Hno k'). now right.
    - exfalso. apply (Hno k). now left. }
  apply H. intros k Hin.
  apply In_get in Hin; [|now apply propagate_NoDup].
  exact (propagate_no_sentinel T d k Hin).
Qed.

(** *** Relatives the second loop pulls in *)

Lemma pull_template T d e k : holds_template d k -> holds_template (pull T d e) k.
Proof.
  intros [t Ht]. unfold pull, holds_template.
  destruct (get e d) as [[t'|]|] eqn:E; eauto;
    (destruct (string_dec e k) as [->|Hne];
     [rewrite get_set_eq; eauto|rewrite get_set_neq by assumption; eauto]).
Qed.

Lemma pulls_template T es d k :
  holds_template d k -> holds_template (fold_left (pull T) es d) k.
Proof.
  revert d. induction es as [|e es IH]; simpl; intros d H; [exact H|].
  apply IH. now apply pull_template.
Qed.

Lemma pull_canonical T d e : canonical T d -> canonical T (pull T d e).
Proof.
  intros Hc k t. unfold pull.
  destruct (get e d) as [[t'|]|] eqn:E; try apply Hc;
    (destruct (string_dec e k) as [->|Hne];
     [rewrite get_set_eq; now intros [= <-]
     |rewrite get_set_neq by assumption; apply Hc]).
Qed.

Lemma pulls_canonical T es d :
  canonical T d -> canonical T (fold_left (pull T) es d).
Proof.
  revert d. induction es as [|e es IH]; simpl; intros d H; [exact H|].
  apply IH. now apply pull_canonical.
Qed.

Lemma delete_canonical T d mon : canonical T d -> canonical T (delete mon d).
Proof.
  intros Hc k t. destruct (string_dec mon k) as [->|Hne].
  - now rewrite get_delete_eq.
  - rewrite get_delete_neq by assumption. apply Hc.
Qed.

Lemma pulls_member T es d e :
  In e es -> get e d <> Some None ->
  holds_template (fold_left (pull T) es d) e.
Proof.
  revert d. induction es as [|e0 es IH]; simpl; intros d Hin Hns; [destruct Hin|].
  destruct (string_dec e0 e) as [->|Hne].
  - apply pulls_template. unfold pull, holds_template.
    destruct (get e d) as [[t|]|] eqn:E;
      [rewrite get_set_eq; eauto|congruence|rewrite get_set_eq; eauto].
  - destruct Hin as [Heq|Hin]; [contradiction|].
    apply IH; [exact Hin|]. intros H. apply Hns. eapply pull_sentinel. exact H.
Qed.

(** The turn of an entry that holds a template leaves the templates
    of [dex] in place. *)
Lemma propagate_step_template T d mon k :
  holds_template d k -> holds_template (propagate_step T d mon) k.
Proof.
  intros Hk. unfold propagate_step.
  destruct (get mon d) as [[t|]|] eqn:E; [| |exact Hk].
  - assert (Hmon : holds_template (fold_left (pull T) (evos t) d) mon)
      by (apply pulls_template; exists t; exact E).
    destruct Hmon as [t' Ht']. rewrite Ht'. now apply pulls_template.
  - destruct Hk as [t Ht]. exists t.
    rewrite get_delete_neq; [exact Ht|]. intros ->. congruence.
Qed.

Lemma propagate_step_canonical T d mon :
  canonical T d -> canonical T (propagate_step T d mon).
Proof.
  intros Hc. unfold propagate_step.
  destruct (get mon d) as [[t|]|] eqn:E.
  - destruct (get mon (fold_left (pull T) (evos t) d)) as [[t'|]|];
      try apply delete_canonical; now apply pulls_canonical.
  - now apply delete_canonical.
  - exact Hc.
Qed.

Lemma propagate_steps_template T todo d k :
  holds_template d k -> holds_template (fold_left (propagate_step T) todo d) k.
Proof.
  revert d. induction todo as [|m todo IH]; simpl; intros d H; [exact H|].
  apply IH. now apply propagate_step_template.
Qed.

(** The part of C2 the second loop achieves: an evolution of an entry
    that holds its template after the first loop, unless the first loop
    left the sentinel under the evolution, holds a template after the
    second loop, whatever its own learn-set. *)
Lemma relatives_pulled T d mon e :
  canonical T d ->
  holds_template d mon ->
  In e (evos (getTemplate T mon)) ->
  get e d <> Some None ->
  holds_template (propagate T d) e.
Proof.
  intros Hc Hmon He Hns. unfold propagate.
  assert (Hin : In mon (keys d)).
  { destruct Hmon as [t Ht]. apply get_In in Ht.
    unfold keys. apply in_map_iff. now exists (mon, Some t). }
  revert Hin. generalize (keys d). intros todo. revert d Hc Hmon Hns.
  induction todo as [|m todo IH]; simpl; intros d Hc Hmon Hns Hin; [destruct Hin|].
  destruct (string_dec m mon) as [->|Hne].
  - apply propagate_steps_template.
    destruct Hmon as [t Ht]. pose proof (Hc _ _ Ht) as ->.
    unfold propagate_step. rewrite Ht.
    assert (Hmon' : holds_template
                      (fold_left (pull T) (evos (getTemplate T mon)) d) mon)
      by (apply pulls_template; eexists; exact Ht).
    destruct Hmon' as [t' Ht']. rewrite Ht'.
    now apply pulls_member.
  - destruct Hin as [Heq|Hin]; [contradiction|].
    apply IH.
    + now apply propagate_step_canonical.
    + now apply propagate_step_template.
    + intros H. apply propagate_step_sentinel in H as [H _]. contradiction.
    + exact Hin.
Qed.

(** *** Where the sentinel does keep an excluded entry out *)

Lemma pull_other T d e k : e <> k -> get k (pull T d e) = get k d.
Proof.
  intros Hne. unfold pull.
  destruct (get e d) as [[t|]|]; try reflexivity; now rewrite get_set_neq.
Qed.

Lemma pulls_other T es d k :
  ~ In k es -> get k (fold_left (pull T) es d) = get k d.
Proof.
  revert d. induction es as [|e es IH]; simpl; intros d Hnin; [reflexivity|].
  rewrite IH by tauto. apply pull_other. tauto.
Qed.

Lemma pull_keeps_sentinel T d e k :
  get k d = Some None -> get k (pull T d e) = Some None.
Proof.
  intros H. destruct (string_dec e k) as [->|Hne].
  - unfold pull. now rewrite H.
  - now rewrite pull_other.
Qed.

Lemma pulls_keep_sentinel T es d k :
  get k d = Some None -> get k (fold_left (pull T) es d) = Some None.
Proof.
  revert d. induction es as [|e es IH]; simpl; intros d H; [exact H|].
  apply IH. now apply pull_keeps_sentinel.
Qed.

Lemma propagate_step_keeps_sentinel T d mon k :
  get k d = Some None -> k <> mon ->
  get k (propagate_step T d mon) = Some None.
Proof.
  intros H Hne. unfold propagate_step.
  destruct (get mon d) as [[t|]|] eqn:E; [| |exact H].
  - destruct (get mon (fold_left (pull T) (evos t) d)) as [[t'|]|];
      try rewrite get_delete_neq by congruence; now apply pulls_keep_sentinel.
  - now rewrite get_delete_neq by congruence.
Qed.

Lemma propagate_step_absent T d mon k :
  canonical T d -> get k d = None ->
  ~ In k (evos (getTemplate T mon)) ->
  get k (propagate_step T d mon) = None.
Proof.
  intros Hc H Hnin. unfold propagate_step.
  destruct (get mon d) as [[t|]|] eqn:E; [| |exact H].
  - pose proof (Hc _ _ E) as ->.
    assert (H' : get k (fold_left (pull T) (evos (getTemplate T mon)) d) = None)
      by now rewrite pulls_other.
    destruct (get mon (fold_left (pull T) (evos (getTemplate T mon)) d))
      as [[t'|]|]; try exact H';
      (destruct (string_dec mon k) as [->|Hne];
       [apply get_delete_eq|now rewrite get_delete_neq]).
  - destruct (string_dec mon k) as [->|Hne];
      [apply get_delete_eq|now rewrite get_delete_neq].
Qed.

(** An excluded entry stays out when no entry enumerated after it lists
    it as an evolution: the relatives that do list it have their turn
    while the sentinel is still in place. *)
Lemma excluded_stays_out T d before after e :
  canonical T d ->
  keys d = (before ++ e :: after)%list ->
  ~ In e before ->
  get e d = Some None ->
  (forall m, In m after -> ~ In e (evos (getTemplate T m))) ->
  get e (propagate T d) = None.
Proof.
  intros Hc Hkeys Hnin He Hafter. unfold propagate.
  rewrite Hkeys, fold_left_app. simpl.
  assert (H1 : canonical T (fold_left (propagate_step T) before d)
               /\ get e (fold_left (propagate_step T) before d) = Some None).
  { clear Hkeys. revert d Hc He.
    induction before as [|m before IH]; simpl; intros d Hc He; [now split|].
    apply IH;
      [intros H; apply Hnin; now right|now apply propagate_step_canonical|].
    apply propagate_step_keeps_sentinel; [exact He|]. intros ->. apply Hnin. now left. }
  destruct H1 as [Hc1 He1].
  set (d1 := fold_left (propagate_step T) before d) in *.
  assert (H2 : canonical T (propagate_step T d1 e)
               /\ get e (propagate_step T d1 e) = None).
  { split; [now apply propagate_step_canonical|].
    unfold propagate_step. rewrite He1. apply get_delete_eq. }
  destruct H2 as [Hc2 He2].
  set (d2 := propagate_step T d1 e) in *.
  clearbody d2. clear Hkeys. revert d2 Hc2 He2.
  induction after as [|m after IH]; simpl; intros d2 Hc2 He2; [exact He2|].
  apply IH.
  - intros m' Hm'. apply Hafter. now right.
  - now apply propagate_step_canonical.
  - apply propagate_step_absent; auto. apply Hafter. now left.
Qed.

(** The moves pass is the first pass: when [searches] has moves, what it
    returns with is what the evaluation phase returns with. *)
Lemma run_moves_abort T st s html :
  get "moves" (Parse.searches st) = Some s ->
  moves_pass T s (initial_dex T st) = inl html ->
  run T st = inl (sendReplyBox html).
Proof.
  intros Hs Hm. unfold run, order. simpl. unfold pass at 1.
  rewrite Hs. simpl. now rewrite Hm.
Qed.

End MovesFacts.

(** *** Excluded entries and evolutionary relatives *)

(** C2 at a failing query.  [!surf] excludes every entry that learns
    Surf.  Pikachu learns it, and the first loop replaces Pikachu by the
    sentinel.  The second loop visits Pikachu before Pichu, deletes the
    sentinel, and then, on Pichu's turn, finds no sentinel under Pikachu
    and puts Pikachu back: the reply lists Pikachu. *)
Theorem excluded_entry_reinstated :
  let T := Sample.Tools in
  let s := [("Surf", false)] in
  let d := Filter.initial_dex T Parse.initial in
  Parse.parse T false ["!surf"]
  = inr {| Parse.searches := [("moves", s)]; Parse.showAll := false;
           Parse.megaSearch := None |}
  /\ Filter.canLearn ["thunderbolt"; "surf"] (getMove T "Surf") = true
  /\ (exists marked,
         Filter.mark T s d (map (fun e => (fst e, Some (snd e))) d) = inr marked
         /\ get "pikachu" marked = Some None)
  /\ (exists d',
         Filter.moves_pass T s d = inr d'
         /\ get "pikachu" d' = Some (getTemplate T "pikachu"))
  /\ run Sample.private
       (Commands.dexsearch Sample.services (Sample.query Sample.nobody "!surf"))
     = ([BroadcastChecked true;
         Called false
           (sendReplyBox
              "Charizard, Charmander, Charmeleon, Honchkrow, Koffing, Murkrow, Pichu, Pikachu, Raichu, Weezing")],
        Undefined).
Proof.
  cbv zeta. split; [reflexivity|]. split; [reflexivity|].
  split; [eexists; split; vm_compute; reflexivity|].
  split; [eexists; split; vm_compute; reflexivity|].
  vm_compute. reflexivity.
Qed.

(** The same pass keeps an excluded entry out when the entry comes after
    the relative that evolves into it: [!fly] excludes Charizard, which
    follows Charmeleon, and Charizard stays out. *)
Lemma excluded_entry_after_its_relative :
  run Sample.private
    (Commands.dexsearch Sample.services (Sample.query Sample.nobody "!fly"))
  = ([BroadcastChecked true;
      Called false
        (sendReplyBox
           "Charmander, Charmeleon, Koffing, Pichu, Pikachu, Raichu, Volcanion, Weezing")],
     Undefined).
Proof. vm_compute. reflexivity. Qed.

(** ** The reply: order and cap *)

Module SortFacts.
Import Output.

Lemma insert_perm x l : Permutation (insert x l) (x :: l).
Proof.
  induction l as [|y l IH]; simpl; [reflexivity|].
  destruct (String.leb x y); [reflexivity|].
  rewrite IH. apply perm_swap.
Qed.

Lemma sort_perm l : Permutation (sort l) l.
Proof.
  induction l as [|x l IH]; simpl; [reflexivity|].
  rewrite insert_perm. now constructor.
Qed.

Lemma insert_hd x y l : le y x -> HdRel le y l -> HdRel le y (insert x l).
Proof.
  intros Hyx Hl. destruct l as [|z l]; simpl.
  - now constructor.
  - destruct (String.leb x z); constructor; [assumption|].
    now inversion Hl.
Qed.

Lemma insert_sorted x l : Sorted le l -> Sorted le (insert x l).
Proof.
  induction 1 as [|y l Hs IH Hhd]; simpl.
  - repeat constructor.
  - destruct (String.leb x y) eqn:E.
    + constructor; [now constructor|now constructor].
    + constructor; [assumption|].
      apply insert_hd; [|assumption].
      destruct (String.leb_total x y) as [H|H]; [congruence|exact H].
Qed.

Lemma sort_sorted l : Sorted le (sort l).
Proof.
  induction l as [|x l IH]; simpl; [constructor|now apply insert_sorted].
Qed.

End SortFacts.

(** The two forms of [resultsStr]. *)
Lemma resultsStr_cases (showAll : bool) (results shuffled : list string) :
  (showAll = true \/ List.length results <= 10 ->
   Output.resultsStr showAll results shuffled
   = match results with
     | [] => "No Pokémon found."
     | _ => join ", " (Output.sort results)
     end)
  /\ (showAll = false -> 10 < List.length results ->
      Output.resultsStr showAll results shuffled
      = join ", " (firstn 10 shuffled) ++ ", and "
        ++ string_of_nat (List.length results - 10)
        ++ " more. Redo the search with " ++ dq ++ "all" ++ dq
        ++ " as a search parameter to show all results.").
Proof.
  split.
  - intros Hcase. unfold Output.resultsStr, Output.output.
    destruct results as [|x l]; [reflexivity|].
    assert (H0 : (0 <? List.length (x :: l))%nat = true)
      by (apply Nat.ltb_lt; simpl; lia).
    assert (H1 : showAll || (List.length (x :: l) <=? 10)%nat = true).
    { destruct Hcase as [->|Hle]; [reflexivity|].
      apply Nat.leb_le in Hle. rewrite Hle. apply orb_true_r. }
    now rewrite H0, H1.
  - intros -> Hlen.
    unfold Output.resultsStr, Output.output, Output.redo, Output.string_.
    destruct (0 <? List.length results)%nat eqn:E0;
      [|apply Nat.ltb_ge in E0; lia].
    destruct (List.length results <=? 10)%nat eqn:E1;
      [apply Nat.leb_le in E1; lia|].
    reflexivity.
Qed.

(** C3: in a run of [dexsearch] that reaches the reply, with [all], or
    with at most ten results, the reply is the names in ascending order
    joined by commas and nothing else (for no result at all, the sentence
    that says so); without [all] and with more than ten results, the
    reply is the first ten names of the shuffled array, then the number
    of results beyond ten and the advice to search again with [all].  The
    shuffled array is a permutation of the results. *)
Theorem reply_is_sorted_or_capped (S : Commands.services) (c : invocation)
    (x : Commands.args) (st : Parse.state) (d : Filter.dex) :
  passes_broadcast c ->
  Commands.target x <> "" ->
  Parse.parse (Commands.Tools S) (sigil c) (split "," (Commands.target x))
  = inr st ->
  Filter.run (Commands.Tools S) st = inr d ->
  Permutation (Filter.results d) (shuffled c (Filter.results d)) ->
  let results := Filter.results d in
  let shown := firstn 10 (shuffled c results) in
  (Parse.showAll st = true \/ List.length results <= 10 ->
   run c (Commands.dexsearch S x)
   = ([BroadcastChecked true;
       Called (sigil c)
         (sendReplyBox
            match results with
            | [] => "No Pokémon found."
            | _ => join ", " (Output.sort results)
            end)],
      Undefined)
   /\ Sorted Output.le (Output.sort results)
   /\ Permutation (Output.sort results) results)
  /\ (Parse.showAll st = false -> 10 < List.length results ->
      List.length shown = 10
      /\ (forall n, In n shown -> In n results)
      /\ run c (Commands.dexsearch S x)
         = ([BroadcastChecked true;
             Called (sigil c)
               (sendReplyBox
                  (join ", " shown ++ ", and "
                   ++ string_of_nat (List.length results - 10)
                   ++ " more. Redo the search with " ++ dq ++ "all" ++ dq
                   ++ " as a search parameter to show all results."))],
            Undefined)).
Proof.
  intros Hp Ht Hparse Hrun Hperm results shown.
  assert (Hans : Commands.answer c S (Commands.target x)
                 = sendReplyBox
                     (Output.resultsStr (Parse.showAll st) results
                        (shuffled c results))).
  { unfold Commands.answer. now rewrite Hparse, Hrun. }
  rewrite DexsearchRuns.run_dexsearch by assumption. rewrite Hans.
  destruct (resultsStr_cases (Parse.showAll st) results (shuffled c results))
    as [Hsorted Hcapped].
  split.
  - intros Hcase. rewrite (Hsorted Hcase).
    split; [reflexivity|].
    split; [apply SortFacts.sort_sorted|apply SortFacts.sort_perm].
  - intros Hall Hlen. rewrite (Hcapped Hall Hlen).
    split; [|split; [|reflexivity]].
    + unfold shown. rewrite length_firstn.
      apply Permutation_length in Hperm. fold results in Hperm. lia.
    + intros n Hn.
      assert (Hn' : In n (shuffled c results)).
      { unfold shown in Hn. rewrite <- (firstn_skipn 10 (shuffled c results)).
        apply in_or_app. now left. }
      eapply Permutation_in; [symmetry; exact Hperm|exact Hn'].
Qed.

Lemma reply_is_sorted_or_capped_witness :
  run Sample.private
    (Commands.dexsearch Sample.services
       (Sample.query Sample.nobody "!water absorb, all"))
  = ([BroadcastChecked true;
      Called false
        (sendReplyBox
           "Charizard, Charmander, Charmeleon, Honchkrow, Koffing, Murkrow, Pichu, Pikachu, Raichu, Smeargle, Weezing")],
     Undefined)
  /\ run Sample.private
       (Commands.dexsearch Sample.services
          (Sample.query Sample.nobody "!water absorb"))
     = ([BroadcastChecked true;
         Called false
           (sendReplyBox
              ("Honchkrow, Smeargle, Murkrow, Pichu, Weezing, Koffing, Raichu, Pikachu, Charizard, Charmeleon, and 1 more. Redo the search with "
               ++ dq ++ "all" ++ dq
               ++ " as a search parameter to show all results."))],
        Undefined).
Proof.
  pose (s := [("ability", [("Water Absorb", false)])]).
  pose (d := Filter.ability_pass [("Water Absorb", false)]
               (Filter.initial_dex Sample.Tools Parse.initial)).
  split.
  - destruct (reply_is_sorted_or_capped Sample.services Sample.private
                (Sample.query Sample.nobody "!water absorb, all")
                {| Parse.searches := s; Parse.showAll := true;
                   Parse.megaSearch := None |} d) as [H _].
    + intros H; discriminate H.
    + intros H; discriminate H.
    + vm_compute; reflexivity.
    + vm_compute; reflexivity.
    + apply Permutation_rev.
    + destruct H as [H _]; [left; reflexivity|].
      vm_compute in H. vm_compute. exact H.
  - destruct (reply_is_sorted_or_capped Sample.services Sample.private
                (Sample.query Sample.nobody "!water absorb")
                {| Parse.searches := s; Parse.showAll := false;
                   Parse.megaSearch := None |} d) as [_ H].
    + intros H; discriminate H.
    + intros H; discriminate H.
    + vm_compute; reflexivity.
    + vm_compute; reflexivity.
    + apply Permutation_rev.
    + destruct H as (_ & _ & H); [reflexivity|vm_compute; lia|].
      vm_compute in H. vm_compute. exact H.
Defined.

(** ** The command table *)

Module TableFacts.
Import Commands.

(** The handlers of the table, by name. *)
Lemma handlers_listed (S : services) :
  handlers S
  = [
     ("whois", Commands.whois S); ("ipsearch", Commands.ipsearch S);
     ("invite", Commands.invite S); ("data", Commands.data S);
     ("dexsearch", Commands.dexsearch S); ("learn", Commands.learn S);
     ("weakness", Commands.weakness S);
     ("effectiveness", Commands.effectiveness S);
     ("uptime", Commands.uptime S); ("groups", Commands.groups);
     ("website", Commands.website); ("forum", Commands.forum);
     ("opensource", Commands.opensource); ("avatars", Commands.avatars);
     ("intro", Commands.intro); ("smogintro", Commands.smogintro);
     ("calc", Commands.calc); ("cap", Commands.cap);
     ("gennext", Commands.gennext); ("othermetas", Commands.othermetas S);
     ("roomhelp", Commands.roomhelp); ("restarthelp", Commands.restarthelp);
     ("rules", Commands.rules S); ("faq", Commands.faq S);
     ("tiers", Commands.tiers S); ("smogdex", Commands.smogdex S);
     ("crymeariver", Commands.crymeariver);
     ("queenofthecastle", Commands.queenofthecastle);
     ("crushhiswang", Commands.crushhiswang);
     ("firepunch", Commands.firepunch); ("lieren", Commands.lieren);
     ("iceblast", Commands.iceblast);
     ("combatskirts", Commands.combatskirts);
     ("dexholders", Commands.dexholders); ("nora", Commands.nora);
     ("rockshurt", Commands.rockshurt); ("owch", Commands.owch);
     ("treessuck", Commands.treessuck); ("throw", Commands.throw);
     ("spoilerwarning", Commands.spoilerwarning); ("iburn", Commands.iburn);
     ("comeatme", Commands.comeatme); ("wukong", Commands.wukong);
     ("adam", Commands.adam); ("ama", Commands.ama);
     ("kissandmakeup", Commands.kissandmakeup); ("demon", Commands.demon);
     ("lyn", Commands.lyn); ("lucina", Commands.lucina);
     ("birkal", Commands.birkal); ("yay", Commands.yay);
     ("potd", Commands.potd S); ("dice", Commands.dice S);
     ("register", Commands.register); ("banredirect", Commands.banredirect);
     ("lobbychat", Commands.lobbychat S); ("a", Commands.a);
     ("help", Commands.help S); ("ruby", Commands.ruby);
     ("lily", Commands.lily); ("xathoz", Commands.xathoz);
     ("red", Commands.red); ("blair", Commands.blair);
     ("atom", Commands.atom); ("fluffy", Commands.fluffy);
     ("lynn", Commands.lynn); ("cosy", Commands.cosy);
     ("missing1", Commands.missing1); ("aaron", Commands.aaron);
     ("raven", Commands.raven); ("kolotos", Commands.kolotos) ].
Proof. reflexivity. Qed.

Lemma dangling_listed (S : services) : dangling S = ["lyzz"].
Proof. reflexivity. Qed.

Lemma In_filter_keys (V : Type) (f : string * V -> bool) (o : jsobj V)
    (k : string) (v : V) :
  get k o = Some v -> f (k, v) = true -> In k (keys (filter f o)).
Proof.
  intros Hget Hf. unfold keys. apply in_map_iff. exists (k, v).
  split; [reflexivity|]. apply filter_In. split; [now apply get_In|exact Hf].
Qed.

End TableFacts.

(** C4 at a failing entry.  The alias [lyzz] gives the name [Lynn]; the
    table has the handler under [lynn] and nothing under [Lynn], so the
    redirect of [lyzz] leads nowhere.  It is the only alias of the table
    that does not resolve. *)
Theorem lyzz_alias_dangles (S : Commands.services) :
  get "lyzz" (Commands.commands S) = Some (Commands.alias "Lynn")
  /\ get "Lynn" (Commands.commands S) = None
  /\ get "lynn" (Commands.commands S) = Some (Commands.func Commands.lynn)
  /\ Commands.dangling S = ["lyzz"].
Proof. repeat split; reflexivity. Qed.

(** Every other alias names a handler of the table: its chain has length
    one. *)
Lemma aliases_resolve_but_lyzz (S : Commands.services) (k c : string) :
  get k (Commands.commands S) = Some (Commands.alias c) ->
  k <> "lyzz" ->
  exists h, get c (Commands.commands S) = Some (Commands.func h).
Proof.
  intros Hk Hne.
  destruct (Commands.resolves S (Commands.alias c)) eqn:E.
  - unfold Commands.resolves in E.
    destruct (get c (Commands.commands S)) as [[c'|h']|]; try discriminate.
    now exists h'.
  - exfalso. apply Hne.
    assert (Hin : In k (Commands.dangling S)).
    { apply (TableFacts.In_filter_keys _
               (fun kv => negb (Commands.resolves S (snd kv)))
               (Commands.commands S) k (Commands.alias c) Hk).
      cbn [snd]. now rewrite E. }
    rewrite (TableFacts.dangling_listed S) in Hin.
    destruct Hin as [<-|[]]. reflexivity.
Qed.

(** ** Unrecognised tokens and unknown moves *)

(** C5 does not hold of the handler: the token [constructor] is no
    ability, none of the tier and colour keywords, no generation, not
    [all] or [mega], no phrase [word type] and no move, and the command
    does not abort on it.  The tier test of the loop body,
    [target in allTiers], succeeds on every name an object inherits, so
    the token is recorded as a required tier; no species has that tier,
    and the command answers that no Pokémon was found instead of naming
    the token. *)
Theorem inherited_name_taken_for_tier :
  let raw := "constructor" in
  exists_ (getAbility Sample.Tools raw) = false
  /\ mem (snd (Parse.normalise raw)) Parse.allTiers = false
  /\ mem (snd (Parse.normalise raw)) Parse.allColours = false
  /\ Parse.is_gen (snd (Parse.normalise raw)) = false
  /\ snd (Parse.normalise raw) <> "all"
  /\ snd (Parse.normalise raw) <> "mega" /\ snd (Parse.normalise raw) <> "megas"
  /\ indexOf " type" (snd (Parse.normalise raw)) = None
  /\ exists_ (getMove Sample.Tools (snd (Parse.normalise raw))) = false
  /\ Parse.token Sample.Tools false Parse.initial raw
     = inr {| Parse.searches := [("tier", [("constructor", true)])];
              Parse.showAll := false; Parse.megaSearch := None |}
  /\ run Sample.private
       (Commands.dexsearch Sample.services (Sample.query Sample.nobody raw))
     = ([BroadcastChecked true;
         Called false (sendReplyBox "No Pokémon found.")],
        Undefined).
Proof.
  cbv zeta. repeat split; try (vm_compute; reflexivity);
    intros H; discriminate H.
Qed.

(** What does hold of C5.  For a target of ASCII characters, a token on
    which every test of the loop body fails (it names no ability, passes
    none of the tier, colour and generation tests, is not [all] or
    [mega], names no type of the chart and no move) ends the command:
    when the tokens before it were accepted, the run of the handler is
    the one reply that quotes the word the loop body looked up as a move,
    which is the token trimmed, in lower case and without its exclamation
    mark, and for a token of the form [word type] the capitalised word.
    Likewise a move of the spec that [Tools.getMove] does not know when
    the moves pass looks it up ends the command with the one reply that
    quotes the move; the pass looks moves up as soon as [dex] holds an
    entry with a learn-set. *)
Lemma unrecognised_token_aborts (S : Commands.services) (c : invocation)
    (a : Commands.args) :
  ascii_only (Commands.target a) = true ->
  passes_broadcast c ->
  Commands.target a <> "" ->
  (forall pre raw post st,
      split "," (Commands.target a) = (pre ++ raw :: post)%list ->
      Parse.tokens (Commands.Tools S) (sigil c) Parse.initial pre = inr st ->
      exists_ (getAbility (Commands.Tools S) raw) = false ->
      Parse.keyword (snd (Parse.normalise raw)) = false ->
      Parse.as_type (Commands.Tools S) (snd (Parse.normalise raw)) = None ->
      exists_ (getMove (Commands.Tools S)
                 (Parse.search_term (snd (Parse.normalise raw)))) = false ->
      run c (Commands.dexsearch S a)
      = ([BroadcastChecked true;
          Called (sigil c)
            (sendReply
               (dq ++ Parse.search_term (snd (Parse.normalise raw)) ++ dq
                ++ " could not be found in any of the search categories."))],
         Undefined)
      /\ (indexOf " type" (snd (Parse.normalise raw)) = None ->
          Parse.search_term (snd (Parse.normalise raw))
          = snd (Parse.normalise raw)))
  /\ (forall st s,
        Parse.parse (Commands.Tools S) (sigil c) (split "," (Commands.target a))
        = inr st ->
        get "moves" (Parse.searches st) = Some s ->
        (exists mon t,
            In (mon, t) (Filter.initial_dex (Commands.Tools S) st)
            /\ Filter.learnset_of (Commands.Tools S) t <> None) ->
        (exists i w,
            In (i, w) s /\ exists_ (getMove (Commands.Tools S) i) = false) ->
        exists i w,
          In (i, w) s /\ exists_ (getMove (Commands.Tools S) i) = false
          /\ run c (Commands.dexsearch S a)
             = ([BroadcastChecked true;
                 Called (sigil c)
                   (sendReplyBox
                      (dq ++ text (getMove (Commands.Tools S) i) ++ dq
                       ++ " is not a known move."))],
                Undefined)).
Proof.
  intros _ Hp Ht. split.
  - intros pre raw post st Hsplit Hpre Ha Hk Hty Hm. split.
    + rewrite DexsearchRuns.run_dexsearch by assumption.
      unfold Commands.answer. rewrite Hsplit.
      erewrite Classify.parse_refuses; [reflexivity|eassumption|].
      rewrite (Classify.token_move _ _ _ _ Ha Hk Hty).
      unfold Parse.move_branch. now rewrite Hm.
    + unfold Parse.search_term. now intros ->.
  - intros st s Hparse Hs Hdex Hunk.
    destruct (MovesFacts.check_moves_unknown _ _ Hunk) as (i & w & Hin & Hex & Hall).
    exists i, w. repeat split; try assumption.
    rewrite DexsearchRuns.run_dexsearch by assumption.
    unfold Commands.answer. rewrite Hparse.
    erewrite MovesFacts.run_moves_abort; [reflexivity|eassumption|].
    unfold Filter.moves_pass.
    now rewrite (MovesFacts.mark_unknown _ _ _ _ Hall Hdex).
Qed.

Lemma unrecognised_token_aborts_witness :
  run Sample.private
    (Commands.dexsearch Sample.services
       (Sample.query Sample.nobody "fire type, Tapu"))
  = ([BroadcastChecked true;
      Called false
        (sendReply
           (dq ++ "tapu" ++ dq
            ++ " could not be found in any of the search categories."))],
     Undefined)
  /\ exists i w,
       In (i, w) [("V-create (event)", true)]
       /\ exists_ (getMove Sample.stale i) = false
       /\ run Sample.private
            (Commands.dexsearch (Sample.with_tools Sample.stale Sample.services)
               (Sample.query Sample.nobody "v-create"))
          = ([BroadcastChecked true;
              Called false
                (sendReplyBox
                   (dq ++ text (getMove Sample.stale i) ++ dq
                    ++ " is not a known move."))],
             Undefined).
Proof.
  split.
  - refine (proj1 (proj1 (unrecognised_token_aborts Sample.services Sample.private
                            (Sample.query Sample.nobody "fire type, Tapu") _ _ _)
                     ["fire type"] " Tapu" [] _ _ _ _ _ _ _));
      try (vm_compute; reflexivity); intros H; discriminate H.
  - refine (proj2 (unrecognised_token_aborts
                     (Sample.with_tools Sample.stale Sample.services)
                     Sample.private (Sample.query Sample.nobody "v-create") _ _ _)
              _ [("V-create (event)", true)] _ _ _ _).
    + reflexivity.
    + intros H; discriminate H.
    + intros H; discriminate H.
    + vm_compute; reflexivity.
    + vm_compute; reflexivity.
    + exists "charmander", (Sample.sample_getTemplate "charmander").
      split; [vm_compute; left; reflexivity|vm_compute; discriminate].
    + exists "V-create (event)", true. split; [left; reflexivity|reflexivity].
Defined.

(** ** The tier pass and Little Cup *)

(** C6 at a failing query.  Murkrow has an evolution, no earlier
    evolution and is not on the banlist, so [isLC] holds of it; its stored
    tier is NU.  The query [lc] requires Little Cup, and the tier pass
    deletes Murkrow: the entry passes the [isLC] test and then fails the
    test on the stored tier that follows it. *)
Theorem derived_lc_entry_deleted :
  let T := Sample.Tools in
  let murkrow := getTemplate T "murkrow" in
  let s := [("lc", true)] in
  Filter.isLC T murkrow = true
  /\ tier murkrow = "NU"
  /\ In ("murkrow", murkrow) (Filter.initial_dex T Parse.initial)
  /\ Filter.tier_deleted T s murkrow = true
  /\ ~ In "murkrow" (keys (Filter.tier_pass T s (Filter.initial_dex T Parse.initial)))
  /\ run Sample.private
       (Commands.dexsearch Sample.services (Sample.query Sample.nobody "lc"))
     = ([BroadcastChecked true;
         Called false (sendReplyBox "Charmander, Koffing, Pichu")],
        Undefined).
Proof.
  cbv zeta.
  split; [vm_compute; reflexivity|].
  split; [vm_compute; reflexivity|].
  split; [vm_compute; tauto|].
  split; [vm_compute; reflexivity|].
  split; [vm_compute; intuition discriminate|].
  vm_compute; reflexivity.
Qed.

(** What the pass does keep when Little Cup is required: entries for
    which [isLC] holds and whose stored tier is itself required. *)
Lemma tier_pass_lc_required (T : tools) (s : jsobj bool) (d : Filter.dex)
    (mon : string) (t : template) :
  get "lc" s = Some true ->
  In (mon, t) (Filter.tier_pass T s d) ->
  Filter.isLC T t = true /\ truthy (toLowerCase (tier t)) s = true.
Proof.
  intros Hlc H. unfold Filter.tier_pass in H.
  apply filter_In in H as [_ H]. apply negb_true_iff in H. simpl in H.
  unfold Filter.tier_deleted, has, truthy in H. rewrite Hlc in H. simpl in H.
  destruct (Filter.isLC T t); simpl in H; [|discriminate].
  split; [reflexivity|].
  unfold Filter.field_deleted, Filter.field in H. simpl in H.
  destruct (is_false _ s); [discriminate|].
  assert (Hpos : (0 <? count_true s)%nat = true).
  { apply Nat.ltb_lt. pose proof (count_true_delete "lc" s Hlc). lia. }
  rewrite Hpos in H. simpl in H. now apply negb_false_iff in H.
Qed.

(** ** Arity limits of the parsing phase *)




(** ** Handlers and the broadcast check *)

Module Obedience.
Import Commands.

Lemma obedient_guarded body : obedient body -> obedient (guarded body).
Proof. intros H. now constructor. Qed.

Lemma obedient_sends l k : obedient k -> obedient (sends l k).
Proof. intros Hk. induction l as [|x l IH]; simpl; [exact Hk|now constructor]. Qed.

(** In the trace of an obedient program nothing follows a refused
    broadcast check, and the program then returns [undefined]. *)
Lemma obedient_trace p :
  obedient p ->
  forall c flag pre post,
    fst (exec c flag p) = (pre ++ BroadcastChecked false :: post)%list ->
    post = [] /\ snd (exec c flag p) = Undefined.
Proof.
  induction 1 as [v|x k Hk IH|k Hfalse Hk IH|permission k Hk IH|k Hk IH
                  |message k Hk IH|l k Hk IH];
    intros c flag pre post; simpl.
  - destruct pre; discriminate.
  - specialize (IH c flag). destruct (exec c flag k) as [t v]. simpl in *.
    destruct pre as [|e pre]; simpl; intros [= ? Ht]; subst. eauto.
  - destruct (sigil c); [destruct (may_broadcast c)|].
    + specialize (IH c true). destruct (exec c true (k true)) as [t v].
      simpl in *. destruct pre as [|e pre]; simpl; intros [= ? Ht]; subst. eauto.
    + rewrite Hfalse. simpl.
      destruct pre as [|e pre]; simpl; intros Heq.
      * injection Heq as <-. now split.
      * injection Heq as _ Heq. destruct pre; discriminate.
    + specialize (IH c flag). destruct (exec c flag (k true)) as [t v].
      simpl in *. destruct pre as [|e pre]; simpl; intros [= ? Ht]; subst. eauto.
  - specialize (IH (grants c permission) c flag).
    destruct (exec c flag (k (grants c permission))) as [t v]. simpl in *.
    destruct pre as [|e pre]; simpl; intros [= ? Ht]; subst. eauto.
  - apply IH.
  - specialize (IH (nested c message) c flag).
    destruct (exec c flag (k (nested c message))) as [t v]. simpl in *.
    destruct pre as [|e pre]; simpl; intros [= ? Ht]; subst. eauto.
  - apply IH.
Qed.

Ltac obedient_tac :=
  repeat first
    [ apply obedient_Return
    | apply obedient_guarded
    | apply obedient_sends
    | apply obedient_Do
    | apply obedient_can; intros ?
    | apply obedient_broadcasting; intros ?
    | apply obedient_parse; intros ?
    | apply obedient_random_sort; intros ?
    | match goal with
      | |- obedient (if ?b then _ else _) => destruct b
      | |- obedient (match ?x with _ => _ end) => destruct x
      end ].

Lemma handlers_obedient (S : services) (name : string) (h : handler) (x : args) :
  In (name, h) (handlers S) -> obedient (h x).
Proof.
  rewrite TableFacts.handlers_listed. intros H.
  repeat (destruct H as [H|H];
          [injection H as <- <-;
           match goal with
           | |- obedient (?f S x) => unfold f
           | |- obedient (?f x) => unfold f
           end;
           cbv beta zeta; unfold reply; obedient_tac|]).
  destruct H.
Qed.

End Obedience.

(** C8: for every handler of the table, in every run, nothing follows a
    broadcast check that was refused: the trace of the run ends with the
    refusal, so the handler has sent no reply and made no assignment
    after it, and it returns [undefined]. *)
Theorem refused_broadcast_ends_handler (S : Commands.services) (c : invocation)
    (name : string) (h : Commands.handler) (x : Commands.args)
    (pre post : list event) :
  In (name, h) (Commands.handlers S) ->
  trace c (h x) = (pre ++ BroadcastChecked false :: post)%list ->
  post = [] /\ snd (run c (h x)) = Undefined.
Proof.
  intros Hin Ht.
  exact (Obedience.obedient_trace _
           (Obedience.handlers_obedient S name h x Hin) c false pre post Ht).
Qed.

Lemma refused_broadcast_ends_handler_witness :
  trace Sample.refused
    (Commands.dexsearch Sample.services (Sample.query Sample.nobody "fire type"))
  = ([] ++ BroadcastChecked false :: [])%list
  /\ (@nil event = []
      /\ snd (run Sample.refused
                (Commands.dexsearch Sample.services
                   (Sample.query Sample.nobody "fire type")))
         = Undefined).
Proof.
  split; [vm_compute; reflexivity|].
  apply (refused_broadcast_ends_handler Sample.services Sample.refused
           "dexsearch" (Commands.dexsearch Sample.services)
           (Sample.query Sample.nobody "fire type") [] []).
  - rewrite TableFacts.handlers_listed. do 4 right. left. reflexivity.
  - vm_compute; reflexivity.
Defined.

(** ** Handlers behind the permission gate *)

(** C9: when the gate refuses [roommod], [rules] called with a target
    does nothing but consult the gate: it makes no assignment, so
    [room.rulesLink] is what it was, and sends nothing; the one refusal is
    the gate's.  The same holds of [potd] when the gate refuses [potd]:
    [config.potd] is what it was. *)
Theorem denied_permission_aborts (S : Commands.services) (c : invocation)
    (x : Commands.args) (w : shared) :
  (Commands.target x <> "" ->
   grants c "roommod" = false ->
   let t := trace c (Commands.rules S x) in
   room_rulesLink (after t w) = room_rulesLink w
   /\ after t w = w
   /\ actions t = []
   /\ denials t = ["roommod"]
   /\ snd (run c (Commands.rules S x)) = Undefined)
  /\ (grants c "potd" = false ->
      let t := trace c (Commands.potd S x) in
      config_potd (after t w) = config_potd w
      /\ after t w = w
      /\ actions t = []
      /\ denials t = ["potd"]
      /\ snd (run c (Commands.potd S x)) = JsFalse).
Proof.
  split.
  - intros Ht Hg.
    assert (E : run c (Commands.rules S x)
                = ([PermissionChecked "roommod" false], Undefined)).
    { unfold Commands.rules, Commands.nonempty, run.
      destruct (String.eqb (Commands.target x) "") eqn:E;
        [apply String.eqb_eq in E; contradiction|].
      simpl. now rewrite Hg. }
    unfold trace. rewrite E. now repeat split.
  - intros Hg.
    assert (E : run c (Commands.potd S x)
                = ([PermissionChecked "potd" false], JsFalse)).
    { unfold Commands.potd, run. simpl. now rewrite Hg. }
    unfold trace. rewrite E. now repeat split.
Qed.

Lemma denied_permission_aborts_witness :
  let w := {| room_rulesLink := Some "http://pokemonshowdown.com/rules";
              chatRoomData_rulesLink := None; config_potd := "pikachu" |} in
  after (trace Sample.private
           (Commands.rules Sample.services
              (Sample.query Sample.nobody "http://example.com/rules"))) w = w
  /\ after (trace Sample.private
              (Commands.potd Sample.services (Sample.query Sample.nobody "mew"))) w
     = w.
Proof.
  intros w.
  destruct (denied_permission_aborts Sample.services Sample.private
              (Sample.query Sample.nobody "http://example.com/rules") w)
    as [Hrules _].
  destruct (denied_permission_aborts Sample.services Sample.private
              (Sample.query Sample.nobody "mew") w) as [_ Hpotd].
  split.
  - apply Hrules; [intros H; discriminate H|reflexivity].
  - apply Hpotd. reflexivity.
Defined.

(** ** [whois] and IP addresses *)

Module WhoisFacts.
Import Commands.

Lemma exec_sends c flag l k :
  exec c flag (sends l k)
  = ((map (Called flag) l ++ fst (exec c flag k))%list, snd (exec c flag k)).
Proof.
  unfold sends. induction l as [|x l IH]; simpl.
  - now destruct (exec c flag k).
  - now rewrite IH.
Qed.

Lemma previous_other u : Forall other_line (previous u).
Proof.
  unfold previous. destruct (nonempty _); repeat constructor.
Qed.

Lemma alt_lines_other viewer u : Forall other_line (alt_lines viewer u).
Proof.
  unfold alt_lines.
  destruct (_ && _); [constructor|].
  destruct (_ && _); [constructor|].
  constructor; [reflexivity|apply previous_other].
Qed.

Lemma flat_map_other viewer l :
  Forall other_line (flat_map (alt_lines viewer) l).
Proof.
  induction l as [|u l IH]; simpl; [constructor|].
  apply Forall_app. split; [apply alt_lines_other|exact IH].
Qed.

Lemma heading_other S x targetUser : Forall other_line (heading S x targetUser).
Proof.
  unfold heading. repeat (apply Forall_app; split).
  - repeat constructor.
  - destruct (user_can _ _ _ _); [|constructor].
    apply Forall_app. split; [apply previous_other|apply flat_map_other].
  - destruct (group_name _ _); repeat constructor.
  - destruct (isSysop _); repeat constructor.
  - destruct (negb _); repeat constructor.
Qed.

(** The trace of [whois] when the user is found. *)
Lemma whois_trace S c flag x targetUser n :
  targetUserOrSelf S x = (Some targetUser, n) ->
  fst (exec c flag (whois S x))
  = (map (Called flag) (heading S x targetUser)
     ++ (if shows_ip S x flag targetUser
         then [Called flag (sendReply (ip_line targetUser))] else [])
     ++ [Called flag (sendReply ("|raw|" ++ rooms_line S targetUser))])%list.
Proof.
  intros Hfound. unfold whois. rewrite Hfound.
  fold (heading S x targetUser). rewrite exec_sends. simpl fst.
  f_equal. cbn [exec]. rewrite exec_sends. simpl fst.
  unfold shows_ip. destruct (negb flag && _); reflexivity.
Qed.

Lemma whois_trace_missing S c flag x n :
  targetUserOrSelf S x = (None, n) ->
  fst (exec c flag (whois S x))
  = [Called flag (sendReply ("User " ++ n ++ " not found."))].
Proof. intros Hmiss. unfold whois. now rewrite Hmiss. Qed.

Lemma ip_line_prefix u : prefix "IP" (ip_line u) = true.
Proof. unfold ip_line. destruct (1 <? _)%nat; reflexivity. Qed.

End WhoisFacts.

(** C10: [whois] sends a line of IP addresses exactly when the target is
    found, the invocation is not broadcasting, and the invoker either has
    the [ip] permission over the target or is the target; the line is the
    target's.  So when the invocation is broadcasting no reply of [whois]
    is a line of IP addresses, and a line of IP addresses is never sent to
    the room. *)
Theorem whois_ip_line (S : Commands.services) (c : invocation) (flag : bool)
    (x : Commands.args) :
  (forall room m,
      In (Called room (sendReply m)) (fst (exec c flag (Commands.whois S x))) ->
      prefix "IP" m = true ->
      flag = false /\ room = false
      /\ exists targetUser,
           fst (Commands.targetUserOrSelf S x) = Some targetUser
           /\ m = Commands.ip_line targetUser
           /\ (Commands.user_can S (Commands.user x) "ip" targetUser = true
               \/ Commands.same_user (Commands.user x) targetUser = true))
  /\ (forall targetUser,
        fst (Commands.targetUserOrSelf S x) = Some targetUser ->
        flag = false ->
        Commands.user_can S (Commands.user x) "ip" targetUser = true
        \/ Commands.same_user (Commands.user x) targetUser = true ->
        In (Called false (sendReply (Commands.ip_line targetUser)))
           (fst (exec c flag (Commands.whois S x)))).
Proof.
  destruct (Commands.targetUserOrSelf S x) as [[targetUser|] n] eqn:Hfound.
  - rewrite (WhoisFacts.whois_trace S c flag x targetUser n Hfound). split.
    + intros room m Hin Hip.
      apply in_app_or in Hin as [Hin|Hin].
      * exfalso. apply in_map_iff in Hin as (y & Hy & Hin).
        injection Hy as _ ->.
        pose proof (WhoisFacts.heading_other S x targetUser) as Hall.
        rewrite Forall_forall in Hall. specialize (Hall _ Hin).
        simpl in Hall. congruence.
      * apply in_app_or in Hin as [Hin|Hin].
        -- unfold Commands.shows_ip in Hin.
           destruct flag; simpl in Hin; [destruct Hin|].
           destruct (Commands.user_can S _ "ip" targetUser
                     || Commands.same_user _ targetUser) eqn:E;
             [|destruct Hin].
           destruct Hin as [Heq|[]]. injection Heq as <- <-.
           repeat split; try reflexivity.
           exists targetUser. repeat split. now apply orb_true_iff.
        -- exfalso. destruct Hin as [Heq|[]]. injection Heq as _ <-.
           discriminate Hip.
    + intros u [= <-] -> Hmay.
      apply in_or_app. right. apply in_or_app. left.
      unfold Commands.shows_ip. simpl.
      apply orb_true_iff in Hmay. rewrite Hmay. now left.
  - rewrite (WhoisFacts.whois_trace_missing S c flag x n Hfound). split.
    + intros room m [Heq|[]] Hip. injection Heq as _ <-. discriminate Hip.
    + intros u H. discriminate H.
Qed.

Lemma whois_ip_line_witness :
  In (Called false (sendReply "IPs: 192.0.2.1, 192.0.2.2"))
     (fst (exec Sample.private false
             (Commands.whois Sample.services (Sample.query Sample.zarel ""))))
  /\ (forall room m,
         In (Called room (sendReply m))
            (fst (exec Sample.announced true
                    (Commands.whois Sample.services
                       (Sample.query Sample.zarel "")))) ->
         prefix "IP" m = true -> False).
Proof.
  split.
  - apply (proj2 (whois_ip_line Sample.services Sample.private false
                    (Sample.query Sample.zarel "")) Sample.zarel).
    + reflexivity.
    + reflexivity.
    + left. reflexivity.
  - intros room m Hin Hip.
    destruct (proj1 (whois_ip_line Sample.services Sample.announced true
                       (Sample.query Sample.zarel "")) room m Hin Hip)
      as (Hflag & _).
    discriminate Hflag.
Defined.
(** * Further properties of the handlers *)

(** ** [dexsearch]: what the parsing phase hands to the filter *)

Module SpecFacts.
Import Parse.

(** A broadcast run accepts no token that sets [showAll]. *)
Lemma token_broadcast_showAll T st raw st' :
  token T true st raw = inr st' -> showAll st' = showAll st.
Proof.
  unfold token, move_branch.
  destruct (normalise raw) as [neg target].
  repeat match goal with
         | |- match ?x with _ => _ end = _ -> _ => destruct x eqn:?
         end;
    intros [= <-]; reflexivity.
Qed.

Lemma tokens_broadcast_showAll T targets st st' :
  tokens T true st targets = inr st' -> showAll st' = showAll st.
Proof.
  revert st. induction targets as [|raw rest IH]; simpl; intros st.
  - now intros [= <-].
  - destruct (token T true st raw) as [m|st1] eqn:E; [discriminate|].
    intros H. rewrite (IH _ H). eapply token_broadcast_showAll; eauto.
Qed.

End SpecFacts.

(** X1: a search that is broadcast never shows all results: whatever the
    tokens, the parsing phase leaves a spec it accepts while
    [this.broadcasting] is set with [showAll] unset. *)
Theorem broadcast_search_never_shows_all (T : tools) (targets : list string)
    (st : Parse.state) :
  Parse.parse T true targets = inr st -> Parse.showAll st = false.
Proof.
  intros H. apply ParseFacts.parse_tokens in H.
  now apply SpecFacts.tokens_broadcast_showAll in H.
Qed.

Lemma broadcast_search_never_shows_all_witness :
  Parse.showAll
    {| Parse.searches := [("types", [("Fire", true)])]; Parse.showAll := false;
       Parse.megaSearch := None |} = false.
Proof.
  apply (broadcast_search_never_shows_all Sample.Tools ["fire type"]).
  vm_compute. reflexivity.
Defined.

Module RecordedFacts.
Import Parse Recorded.

Lemma mem_In x l : mem x l = true -> In x l.
Proof.
  unfold mem. intros H. apply existsb_exists in H as (y & Hy & E).
  apply String.eqb_eq in E. now subst.
Qed.

Lemma In_mem x l : In x l -> mem x l = true.
Proof.
  unfold mem. intros H. apply existsb_exists. exists x. split; [exact H|].
  apply String.eqb_refl.
Qed.

(** What [toLowerCase] and the slices leave of upper-case letters. *)
Lemma lower_no_upper s : no_upper (toLowerCase s) = true.
Proof.
  unfold toLowerCase. induction s as [|c s IH]; [reflexivity|].
  cbn [map_chars no_upper]. rewrite IH, andb_true_r.
  destruct c as [[] [] [] [] [] [] [] []]; reflexivity.
Qed.

Lemma substring_no_upper s : forall n m,
  no_upper s = true -> no_upper (substring n m s) = true.
Proof.
  induction s as [|c s IH]; intros n m H.
  - now destruct n, m.
  - simpl in H. apply andb_true_iff in H as [Hc Hs].
    destruct n as [|n]; [destruct m as [|m]|]; simpl; auto.
    now rewrite Hc, IH.
Qed.

Lemma normalise_no_upper raw : no_upper (snd (normalise raw)) = true.
Proof.
  unfold normalise. destruct (String.eqb _ "!"); simpl.
  - apply substring_no_upper, lower_no_upper.
  - apply lower_no_upper.
Qed.

(** The inherited names a lower-case token can be. *)
Lemma inherited_no_upper k :
  In k inherited -> no_upper k = true -> k = "constructor" \/ k = "__proto__".
Proof.
  unfold inherited. simpl.
  intros H Hk; repeat (destruct H as [<-|H]); try discriminate Hk; tauto.
Qed.

Lemma js_in_lower k own :
  js_in k own = true -> no_upper k = true ->
  In k own \/ k = "constructor" \/ k = "__proto__".
Proof.
  unfold js_in. intros H Hk. apply orb_true_iff in H as [H|H].
  - left. now apply mem_In.
  - right. apply inherited_no_upper; [now apply mem_In|exact Hk].
Qed.

(** A type word begins with an upper-case conversion and goes on in lower
    case, so the one inherited name it can be is [__proto__]. *)
Lemma upper_not_lower c :
  negb ((97 <=? nat_of_ascii (upper c)) && (nat_of_ascii (upper c) <=? 122))%nat
  = true.
Proof. destruct c as [[] [] [] [] [] [] [] []]; reflexivity. Qed.

Lemma type_word_capitalised target i :
  no_upper target = true -> capitalised (type_word target i) = true.
Proof.
  intros H. unfold type_word, charAt0, slice.
  destruct target as [|c s].
  - now destruct i.
  - cbn [substring toUpperCase map_chars append].
    replace (substring 0 0 s) with EmptyString by now destruct s.
    cbn [toUpperCase map_chars append capitalised].
    rewrite upper_not_lower. cbn [no_upper] in H.
    apply andb_true_iff in H as [_ Hs]. now apply substring_no_upper.
Qed.

Lemma inherited_capitalised k :
  In k inherited -> capitalised k = true -> k = "__proto__".
Proof.
  unfold inherited. simpl.
  intros H Hk; repeat (destruct H as [<-|H]); try discriminate Hk; tauto.
Qed.

Lemma js_in_type_word target i own :
  js_in (type_word target i) own = true -> no_upper target = true ->
  In (type_word target i) own \/ type_word target i = "__proto__".
Proof.
  unfold js_in. intros H Hk. apply orb_true_iff in H as [H|H].
  - left. now apply mem_In.
  - right. apply inherited_capitalised; [now apply mem_In|].
    now apply type_word_capitalised.
Qed.

(** An accepted token leaves [searches] alone, or assigns under
    [__proto__], which writes nothing, or records one value that passed
    the test of its category. *)
Lemma token_recorded T b st raw st' :
  token T b st raw = inr st' ->
  searches st' = searches st
  \/ exists cat k v,
       st' = record cat k v st /\ (k = "__proto__" \/ recorded T cat k).
Proof.
  pose proof (normalise_no_upper raw) as Hlow.
  unfold token, move_branch.
  destruct (normalise raw) as [neg target]. cbn [snd] in Hlow.
  repeat match goal with
         | |- match ?x with _ => _ end = _ -> _ => destruct x eqn:?
         end;
    intros [= <-]; try (left; reflexivity);
    right; do 3 eexists; (split; [reflexivity|]); unfold recorded;
    repeat match goal with
           | H : js_in (type_word _ _) _ = true |- _ =>
               apply js_in_type_word in H; [destruct H as [H|H]|exact Hlow]
           | H : js_in _ _ = true |- _ =>
               apply js_in_lower in H; [destruct H as [H|[H|H]]|exact Hlow]
           end;
    eauto 12.
Qed.

Lemma get_category cat (s : jsobj (jsobj bool)) o :
  get cat s = Some o -> category cat s = o.
Proof. unfold category. now intros ->. Qed.

Lemma record_lookup cat k v st cat' o k' v' :
  get cat' (searches (record cat k v st)) = Some o ->
  get k' o = Some v' ->
  (cat' = cat /\ k' = k /\ k <> "__proto__")
  \/ exists o0, get cat' (searches st) = Some o0 /\ get k' o0 = Some v'.
Proof.
  unfold record, assign. simpl. intros Ho Hk.
  destruct (string_dec cat cat') as [<-|Hne].
  - rewrite get_set_eq in Ho. injection Ho as <-.
    assert (Hold : get k' (category cat (searches st)) = Some v' ->
                   exists o0, get cat (searches st) = Some o0
                              /\ get k' o0 = Some v').
    { unfold category. destruct (get cat (searches st)) as [o0|]; [eauto|].
      discriminate. }
    destruct (String.eqb k "__proto__") eqn:E; [right; auto|].
    destruct (string_dec k k') as [<-|Hk'].
    + left. repeat split. intros ->. discriminate E.
    + rewrite get_set_neq in Hk by assumption. right; auto.
  - rewrite get_set_neq in Ho by assumption. eauto.
Qed.

Lemma tokens_recorded T b targets :
  forall st st',
    (forall cat o k v, get cat (searches st) = Some o -> get k o = Some v ->
                       recorded T cat k) ->
    tokens T b st targets = inr st' ->
    forall cat o k v, get cat (searches st') = Some o -> get k o = Some v ->
                      recorded T cat k.
Proof.
  induction targets as [|raw rest IH]; simpl; intros st st' Hst.
  - now intros [= <-].
  - destruct (token T b st raw) as [m|st1] eqn:E; [discriminate|].
    apply IH. intros cat o k v Ho Hk.
    apply token_recorded in E as [E|(cat0 & k0 & v0 & -> & Hrec)].
    + rewrite E in Ho. eauto.
    + destruct (record_lookup _ _ _ _ _ _ _ _ Ho Hk)
        as [(-> & -> & Hne)|(o0 & Ho0 & Hk0)]; [|eauto].
      destruct Hrec as [->|Hrec]; [now destruct Hne|exact Hrec].
Qed.

End RecordedFacts.

(** X2: every value of a spec the parsing phase accepts passed the test of
    its category.  A generation is a token whose integer value is between
    1 and 6, a type is a key of the type chart, an ability or a move is
    the name of a descriptor that exists.  A tier is one of the five tier
    keywords and a colour one of the ten colour keywords, or either is
    the word [constructor]: the tests are [in] tests on object literals,
    which every inherited name passes, [constructor] is the one such name
    in lower case under which an assignment writes a property, and the
    capitalised word of the type test is none. *)
Theorem accepted_spec_values_are_known (T : tools) (b : bool)
    (targets : list string) (st : Parse.state) :
  Parse.parse T b targets = inr st ->
  forall cat o k v,
    get cat (Parse.searches st) = Some o -> get k o = Some v ->
    Recorded.recorded T cat k.
Proof.
  intros H. apply ParseFacts.parse_tokens in H.
  eapply RecordedFacts.tokens_recorded; [|exact H].
  intros cat o k v Ho. discriminate Ho.
Qed.

Lemma accepted_spec_values_are_known_witness :
  Recorded.recorded Sample.Tools "tier" "ou".
Proof.
  apply (accepted_spec_values_are_known Sample.Tools false ["!OU"; "fire type"]
           {| Parse.searches := [("tier", [("ou", false)]); ("types", [("Fire", true)])];
              Parse.showAll := false; Parse.megaSearch := None |}
           eq_refl "tier" [("ou", false)] "ou" false eq_refl eq_refl).
Defined.

(** ** [dexsearch]: the evaluation phase *)

Module DexFacts.
Import Filter.

Section Sets.
Variable V : Type.
Implicit Types (o : jsobj V) (k : string) (v : V).

Lemma get_app_some k v o o' : get k o = Some v -> get k (o ++ o')%list = Some v.
Proof.
  induction o as [|[k0 v0] o IH]; simpl; [discriminate|].
  destruct (String.eqb k k0); auto.
Qed.

Lemma filter_filter (f g : string * V -> bool) o :
  filter g (filter f o) = filter (fun e => f e && g e) o.
Proof.
  induction o as [|e o IH]; simpl; [reflexivity|].
  destruct (f e); simpl; [destruct (g e)|]; now rewrite ?IH.
Qed.

Lemma filter_ext_in_dex (f g : string * V -> bool) o :
  (forall e, In e o -> f e = g e) -> filter f o = filter g o.
Proof. apply filter_ext_in. Qed.

End Sets.

(** The loop that builds [dex]. *)
Lemma build_get T st l :
  forall d mon,
    get mon
      (fold_left (fun d pokemon =>
                    let t := getTemplate T pokemon in
                    if legal st t then set pokemon t d else d) l d)
    = if mem mon l && legal st (getTemplate T mon)
      then Some (getTemplate T mon) else get mon d.
Proof.
  induction l as [|p l IH]; intros d mon; simpl; [reflexivity|].
  rewrite IH. unfold mem. simpl.
  destruct (String.eqb mon p) eqn:E.
  - apply String.eqb_eq in E. subst p. simpl.
    destruct (legal st (getTemplate T mon)) eqn:L.
    + now rewrite andb_true_r, get_set_eq, Tauto.if_same.
    + now rewrite andb_false_r.
  - simpl. destruct (existsb (String.eqb mon) l && legal st (getTemplate T mon));
      [reflexivity|].
    destruct (legal st (getTemplate T p)); [|reflexivity].
    apply get_set_neq. intros ->. now rewrite String.eqb_refl in E.
Qed.

Lemma build_NoDup T st l :
  forall d, NoDup (keys d) ->
    NoDup (keys (fold_left (fun d pokemon =>
                    let t := getTemplate T pokemon in
                    if legal st t then set pokemon t d else d) l d)).
Proof.
  induction l as [|p l IH]; intros d H; simpl; [exact H|].
  apply IH. destruct (legal st (getTemplate T p)); auto using NoDup_keys_set.
Qed.

Lemma initial_dex_NoDup T st : NoDup (keys (initial_dex T st)).
Proof. apply build_NoDup. constructor. Qed.

Lemma initial_dex_get T st mon :
  get mon (initial_dex T st)
  = if mem mon (Pokedex T) && legal st (getTemplate T mon)
    then Some (getTemplate T mon) else None.
Proof. unfold initial_dex. now rewrite build_get. Qed.

End DexFacts.

(** X3: [dex], as the evaluation phase starts from it, holds exactly the
    species of the Pokedex whose template is legal for the spec (its tier
    is not Illegal, it is not a CAP unless the spec requires the tier cap,
    and it agrees with the mega modifier), each under its own id with the
    template the provider gives for that id. *)
Theorem initial_dex_is_the_legal_catalogue (T : tools) (st : Parse.state)
    (mon : string) (t : template) :
  In (mon, t) (Filter.initial_dex T st)
  <-> In mon (Pokedex T) /\ t = getTemplate T mon /\ Filter.legal st t = true.
Proof.
  split.
  - intros H. apply In_get in H; [|apply DexFacts.initial_dex_NoDup].
    rewrite DexFacts.initial_dex_get in H.
    destruct (mem mon (Pokedex T)) eqn:M; [|discriminate].
    destruct (Filter.legal st (getTemplate T mon)) eqn:L; [|discriminate].
    injection H as <-. auto using RecordedFacts.mem_In.
  - intros (Hin & -> & L). apply get_In.
    rewrite DexFacts.initial_dex_get, L.
    now rewrite (RecordedFacts.In_mem _ _ Hin).
Qed.

Module PassFacts.
Import Filter Survival.

(** The pass of a category other than moves filters [dex] by the test
    of the category. *)
Lemma pass_filters T st search d :
  In search ["types"; "ability"; "tier"; "gen"; "color"] ->
  pass T (Parse.searches st) search d
  = inr (filter (fun e => test T st search (snd e)) d).
Proof.
  intros Hin. unfold pass, test.
  destruct (get search (Parse.searches st)) as [s|].
  - simpl in Hin.
    repeat (destruct Hin as [<-|Hin]; [reflexivity|]). destruct Hin.
  - f_equal. symmetry. apply forallb_filter_id. now apply forallb_forall.
Qed.

End PassFacts.

(** X4: for a spec without moves the evaluation phase never aborts, and
    what it leaves in [dex] is what the initial [dex] holds of species that
    pass the test of every category the spec has, in the order of the
    Pokedex: the passes compose as the conjunction of their tests. *)
Theorem passes_compose_without_moves (T : tools) (st : Parse.state) :
  get "moves" (Parse.searches st) = None ->
  Filter.run T st
  = inr (filter (fun e => Survival.survives T st (snd e))
           (Filter.initial_dex T st)).
Proof.
  intros Hm. unfold Filter.run, Filter.order.
  cbn [Filter.passes]. unfold Filter.pass at 1. rewrite Hm.
  rewrite !PassFacts.pass_filters by (simpl; tauto).
  rewrite !DexFacts.filter_filter. f_equal.
  apply filter_ext. intros e. unfold Survival.survives. simpl.
  now rewrite andb_true_r, !andb_assoc.
Qed.

Lemma passes_compose_without_moves_witness :
  Filter.run Sample.Tools
    {| Parse.searches := [("types", [("Fire", true)]); ("gen", [("1", true)])];
       Parse.showAll := false; Parse.megaSearch := None |}
  = inr (filter (fun e => Survival.survives Sample.Tools
                            {| Parse.searches :=
                                 [("types", [("Fire", true)]); ("gen", [("1", true)])];
                               Parse.showAll := false; Parse.megaSearch := None |}
                            (snd e))
           (Filter.initial_dex Sample.Tools
              {| Parse.searches :=
                   [("types", [("Fire", true)]); ("gen", [("1", true)])];
                 Parse.showAll := false; Parse.megaSearch := None |})).
Proof.
  apply (passes_compose_without_moves Sample.Tools). reflexivity.
Defined.

Module TestFacts.
Import Filter.

Lemma is_false_get k (o : jsobj bool) : is_false k o = true <-> get k o = Some false.
Proof.
  unfold is_false. destruct (get k o) as [[]|]; split; congruence.
Qed.

Lemma truthy_false k (o : jsobj bool) : truthy k o = false <-> get k o <> Some true.
Proof.
  rewrite <- truthy_get. destruct (truthy k o); split; congruence.
Qed.

Lemma is_false_false k (o : jsobj bool) : is_false k o = false <-> get k o <> Some false.
Proof.
  rewrite <- is_false_get. destruct (is_false k o); split; congruence.
Qed.

(** The type test when the spec does not require exactly two types. *)
Lemma types_kept_iff (s : jsobj bool) (t : template) :
  count_true s <> 2 ->
  get "undefined" s = None ->
  types_deleted s t = false
  <-> (forall ty, In ty (firstn 2 (types t)) -> get ty s <> Some false)
      /\ (0 < count_true s ->
          exists ty, In ty (firstn 2 (types t)) /\ get ty s = Some true).
Proof.
  intros Hc Hu. unfold types_deleted.
  apply Nat.eqb_neq in Hc. rewrite Hc.
  assert (Uf : is_false "undefined" s = false) by (apply is_false_false; congruence).
  assert (Ut : truthy "undefined" s = false) by (apply truthy_false; congruence).
  rewrite !orb_false_iff, andb_false_iff, Nat.ltb_ge.
  unfold prop_name.
  destruct (types t) as [|x [|y rest]]; simpl firstn; simpl nth;
    rewrite ?Uf, ?Ut; simpl negb; rewrite ?andb_true_r.
  - split.
    + intros (_ & [H|H]); [|discriminate]. split; [intros ty []|].
      intros H0. lia.
    + intros (_ & H). repeat split.
      destruct (count_true s) as [|n]; [left; lia|].
      destruct (H ltac:(lia)) as (ty & [] & _).
  - rewrite negb_false_iff, is_false_false, truthy_get. split.
    + intros ((Hx & _) & H). split.
      * intros ty [<-|[]]. exact Hx.
      * intros H0. destruct H as [H|H]; [lia|]. exists x. split; [now left|exact H].
    + intros (Hx & H). repeat split; [apply Hx; now left|].
      destruct (count_true s) as [|n]; [left; lia|]. right.
      destruct (H ltac:(lia)) as (ty & [<-|[]] & Hty). exact Hty.
  - rewrite andb_false_iff, !negb_false_iff, !is_false_false, !truthy_get. split.
    + intros ((Hx & Hy) & H). split.
      * intros ty [<-|[<-|[]]]; assumption.
      * intros H0. destruct H as [H|[H|H]]; [lia| |].
        -- exists x. split; [now left|exact H].
        -- exists y. split; [right; now left|exact H].
    + intros (Hx & H). repeat split;
        [apply Hx; now left|apply Hx; right; now left|].
      destruct (count_true s) as [|n]; [left; lia|]. right.
      destruct (H ltac:(lia)) as (ty & [<-|[<-|[]]] & Hty); auto.
Qed.

End TestFacts.

(** X5: when the spec the parsing phase built does not require exactly
    two types, the type pass keeps an entry exactly when neither of its
    (up to two) types is excluded and, if the spec requires a type, one of
    its types is required. *)
Theorem type_pass_other_than_two (T : tools) (b : bool) (targets : list string)
    (st : Parse.state) (s : jsobj bool) (d : Filter.dex) :
  Parse.parse T b targets = inr st ->
  get "types" (Parse.searches st) = Some s ->
  count_true s <> 2 ->
  forall mon t,
    In (mon, t) (Filter.types_pass s d)
    <-> In (mon, t) d
        /\ (forall ty, In ty (firstn 2 (types t)) -> get ty s <> Some false)
        /\ (0 < count_true s ->
            exists ty, In ty (firstn 2 (types t)) /\ get ty s = Some true).
Proof.
  intros Hparse Hs Hc mon t.
  assert (Hu : get "undefined" s = None).
  { pose proof (ParseFacts.parse_types_named _ _ _ _ Hparse) as H.
    unfold Parse.types_named, Parse.category in H. now rewrite Hs in H. }
  unfold Filter.types_pass. rewrite filter_In. simpl.
  rewrite negb_true_iff, (TestFacts.types_kept_iff s t Hc Hu). tauto.
Qed.

Lemma type_pass_other_than_two_witness :
  In ("charizard", Sample.sample_getTemplate "charizard")
    (Filter.types_pass [("Fire", true); ("Flying", false)]
       (Filter.initial_dex Sample.Tools Parse.initial))
  <-> In ("charizard", Sample.sample_getTemplate "charizard")
        (Filter.initial_dex Sample.Tools Parse.initial)
      /\ (forall ty, In ty (firstn 2 (types (Sample.sample_getTemplate "charizard"))) ->
                     get ty [("Fire", true); ("Flying", false)] <> Some false)
      /\ (0 < count_true [("Fire", true); ("Flying", false)] ->
          exists ty, In ty (firstn 2 (types (Sample.sample_getTemplate "charizard")))
                     /\ get ty [("Fire", true); ("Flying", false)] = Some true).
Proof.
  apply (type_pass_other_than_two Sample.Tools false ["fire type"; "!flying type"]
           {| Parse.searches := [("types", [("Fire", true); ("Flying", false)])];
              Parse.showAll := false; Parse.megaSearch := None |}
           [("Fire", true); ("Flying", false)]).
  - vm_compute. reflexivity.
  - reflexivity.
  - vm_compute. discriminate.
Defined.


Module AbortFacts.
Import Filter.

Lemma check_moves_abort T l mon s :
  forall d m,
    check_moves T l mon s d = inl m ->
    exists i w, In (i, w) s /\ exists_ (getMove T i) = false
                /\ m = unknown_move (getMove T i).
Proof.
  induction s as [|[i w] s IH]; simpl; intros d m; [discriminate|].
  destruct (exists_ (getMove T i)) eqn:E; simpl.
  - intros H.
    assert (Hrest : exists d', check_moves T l mon s d' = inl m).
    { destruct (negb (canLearn l (getMove T i)) && w); [eauto|].
      destruct (negb w && canLearn l (getMove T i)); eauto. }
    destruct Hrest as [d' Hd'].
    destruct (IH _ _ Hd') as (i' & w' & Hin & Hex & Hm).
    exists i', w'. auto.
  - intros [= <-]. exists i, w. auto.
Qed.

Lemma mark_abort T s todo :
  forall d m,
    mark T s todo d = inl m ->
    exists i w, In (i, w) s /\ exists_ (getMove T i) = false
                /\ m = unknown_move (getMove T i).
Proof.
  induction todo as [|[mon t] todo IH]; simpl; intros d m; [discriminate|].
  destruct (learnset_of T t) as [l|]; [|apply IH].
  destruct (check_moves T l mon s d) as [m'|d'] eqn:E; [|apply IH].
  intros [= <-]. eapply check_moves_abort; eauto.
Qed.

(** The passes after the moves pass never abort. *)
Lemma later_passes T st d :
  exists d',
    passes T (Parse.searches st) ["types"; "ability"; "tier"; "gen"; "color"] d
    = inr d'.
Proof.
  cbn [passes]. rewrite !PassFacts.pass_filters by (simpl; tauto). eauto.
Qed.

End AbortFacts.

(** X7: the evaluation phase aborts in one way only.  When it returns
    with a reply instead of a result, the spec has a move whose name the
    provider no longer knows and the reply is the box that names it; the
    reply of the [default] case of the switch is never sent. *)
Theorem evaluation_aborts_only_on_unknown_move (T : tools) (st : Parse.state)
    (a : action) :
  Filter.run T st = inl a ->
  exists s i w,
    get "moves" (Parse.searches st) = Some s
    /\ In (i, w) s
    /\ exists_ (getMove T i) = false
    /\ a = sendReplyBox (Filter.unknown_move (getMove T i)).
Proof.
  unfold Filter.run, Filter.order. cbn [Filter.passes].
  unfold Filter.pass at 1.
  destruct (get "moves" (Parse.searches st)) as [s|] eqn:Hs.
  - simpl. unfold Filter.moves_pass.
    destruct (Filter.mark T s _ _) as [m|d'] eqn:E.
    + intros [= <-].
      destruct (AbortFacts.mark_abort _ _ _ _ _ E) as (i & w & Hin & Hex & ->).
      exists s, i, w. auto.
    + destruct (AbortFacts.later_passes T st
                  (Filter.templates (Filter.propagate T d'))) as [d2 H2].
      cbn [Filter.passes] in H2. rewrite H2. discriminate.
  - destruct (AbortFacts.later_passes T st (Filter.initial_dex T st)) as [d2 H2].
    cbn [Filter.passes] in H2. rewrite H2. discriminate.
Qed.

Lemma evaluation_aborts_only_on_unknown_move_witness :
  exists s i w,
    get "moves" [("moves", [("V-create (event)", true)])] = Some s
    /\ In (i, w) s
    /\ exists_ (getMove Sample.stale i) = false
    /\ sendReplyBox (dq ++ "V-create (event)" ++ dq ++ " is not a known move.")
       = sendReplyBox (Filter.unknown_move (getMove Sample.stale i)).
Proof.
  apply (evaluation_aborts_only_on_unknown_move Sample.stale
           {| Parse.searches := [("moves", [("V-create (event)", true)])];
              Parse.showAll := false; Parse.megaSearch := None |}).
  vm_compute. reflexivity.
Defined.

(** ** Decimal numerals *)

Module Numerals.

Lemma digits_S f n acc :
  digits (S f) n acc
  = if (n <? 10)%nat then String (ascii_of_nat (48 + n mod 10)) acc
    else digits f (n / 10) (String (ascii_of_nat (48 + n mod 10)) acc).
Proof. reflexivity. Qed.

Lemma digit_char k :
  k < 10 -> digit_value 10 (ascii_of_nat (48 + k)) = Some k.
Proof.
  intros H. do 10 (destruct k as [|k]; [reflexivity|]). lia.
Qed.

Lemma lower_digit k : k < 10 -> lower (ascii_of_nat (48 + k)) = ascii_of_nat (48 + k).
Proof.
  intros H. do 10 (destruct k as [|k]; [reflexivity|]). lia.
Qed.

Lemma read_digits_digits f :
  forall n acc,
    n < f -> read_digits 10 (digits f n acc) None = read_digits 10 acc (Some n).
Proof.
  induction f as [|f IH]; intros n acc Hn; [lia|].
  rewrite digits_S.
  pose proof (Nat.mod_upper_bound n 10 ltac:(lia)) as Hm.
  destruct (Nat.ltb_spec n 10) as [Hlt|Hge].
  - cbn [read_digits]. rewrite (digit_char _ Hm).
    now rewrite Nat.mod_small by assumption.
  - rewrite IH.
    + cbn [read_digits]. rewrite (digit_char _ Hm).
      do 2 f_equal. rewrite (Nat.div_mod_eq n 10) at 3. lia.
    + pose proof (Nat.div_lt n 10 ltac:(lia) ltac:(lia)). lia.
Qed.

(** A decimal numeral starts with a digit, which is not zero unless the
    numeral is that of zero. *)
Lemma digits_head f :
  forall n acc,
    n < f ->
    exists k rest,
      digits f n acc = String (ascii_of_nat (48 + k)) rest
      /\ k < 10 /\ (k = 0 -> n = 0 /\ rest = acc).
Proof.
  induction f as [|f IH]; intros n acc Hn; [lia|].
  rewrite digits_S.
  pose proof (Nat.mod_upper_bound n 10 ltac:(lia)) as Hm.
  destruct (Nat.ltb_spec n 10) as [Hlt|Hge].
  - exists (n mod 10), acc. split; [reflexivity|]. split; [assumption|].
    rewrite Nat.mod_small by assumption. auto.
  - assert (Hq : n / 10 < f)
      by (pose proof (Nat.div_lt n 10 ltac:(lia) ltac:(lia)); lia).
    destruct (IH (n / 10) (String (ascii_of_nat (48 + n mod 10)) acc) Hq)
      as (k & rest & E & Hk & H0).
    exists k, rest. split; [exact E|]. split; [exact Hk|].
    intros ->. destruct (H0 eq_refl) as [Hz _].
    assert (n < 10) by (rewrite (Nat.div_mod_eq n 10); lia). lia.
Qed.

Lemma parseInt_numeral n : parseInt (string_of_nat n) = Some (Z.of_nat n).
Proof.
  unfold string_of_nat.
  pose proof (read_digits_digits (S n) n "" ltac:(lia)) as R.
  destruct (digits_head (S n) n "" ltac:(lia)) as (k & rest & E & Hk & H0).
  assert (P : parseInt (digits (S n) n "")
              = match read_digits 10 (digits (S n) n "") None with
                | Some m => Some (Z.of_nat m)
                | None => None
                end).
  { rewrite E. clear E R.
    destruct k as [|k]; [destruct (H0 eq_refl) as [_ ->]; reflexivity|]. clear H0.
    do 9 (destruct k as [|k]; [reflexivity|]). lia. }
  rewrite P, R. reflexivity.
Qed.

Lemma lower_numeral n : toLowerCase (string_of_nat n) = string_of_nat n.
Proof.
  unfold string_of_nat.
  assert (H : forall f m acc,
             toLowerCase acc = acc -> toLowerCase (digits f m acc) = digits f m acc).
  { induction f as [|f IH]; intros m acc Hacc; [exact Hacc|].
    rewrite digits_S.
    pose proof (Nat.mod_upper_bound m 10 ltac:(lia)) as Hm.
    assert (Hd : toLowerCase (String (ascii_of_nat (48 + m mod 10)) acc)
                 = String (ascii_of_nat (48 + m mod 10)) acc).
    { unfold toLowerCase in *. cbn [map_chars]. now rewrite lower_digit, Hacc. }
    destruct (m <? 10)%nat; [exact Hd|]. now apply IH. }
  now apply H.
Qed.

End Numerals.

(** X8: a token is taken for a generation when the integer it starts
    with is between 1 and 6, and it is recorded as it was typed; the
    generation pass compares it with the decimal numeral of the species'
    generation.  So a generation token other than the six digits, such as
    [3rd] or [05], matches no species: required, it empties [dex]; excluded,
    it removes nothing. *)
Theorem generation_token_must_be_a_digit (k : string) (d : Filter.dex) :
  Parse.is_gen k = true ->
  ~ In k ["1"; "2"; "3"; "4"; "5"; "6"] ->
  Filter.field_pass "gen" [(k, true)] d = []
  /\ Filter.field_pass "gen" [(k, false)] d = d.
Proof.
  intros Hg Hk.
  assert (Hne : forall t, String.eqb (Filter.field "gen" t) k = false).
  { intros t. apply String.eqb_neq. intros E. apply Hk.
    unfold Filter.field in E. simpl in E. rewrite Numerals.lower_numeral in E.
    subst k. unfold Parse.is_gen in Hg. rewrite Numerals.parseInt_numeral in Hg.
    apply andb_true_iff in Hg as [H1 H2].
    apply Z.ltb_lt in H1, H2.
    assert (Hn : 0 < gen t < 7) by lia. clear H1 H2.
    destruct (gen t) as [|n]; [lia|].
    do 6 (destruct n as [|n]; [simpl; tauto|]). lia. }
  assert (Hreq : forall t, Filter.field_deleted "gen" [(k, true)] t = true).
  { intros t. unfold Filter.field_deleted, is_false, truthy. simpl.
    now rewrite Hne. }
  assert (Hexc : forall t, Filter.field_deleted "gen" [(k, false)] t = false).
  { intros t. unfold Filter.field_deleted, is_false, truthy. simpl.
    now rewrite Hne. }
  unfold Filter.field_pass. split.
  - induction d as [|e d IH]; simpl; [reflexivity|]. now rewrite Hreq.
  - apply forallb_filter_id, forallb_forall. intros e _. now rewrite Hexc.
Qed.

Lemma generation_token_must_be_a_digit_witness :
  Filter.field_pass "gen" [("3rd", true)]
    (Filter.initial_dex Sample.Tools Parse.initial) = []
  /\ Filter.field_pass "gen" [("3rd", false)]
       (Filter.initial_dex Sample.Tools Parse.initial)
     = Filter.initial_dex Sample.Tools Parse.initial.
Proof.
  apply (generation_token_must_be_a_digit "3rd").
  - reflexivity.
  - simpl. intuition discriminate.
Defined.

(** ** [dexsearch]: the moves pass as a whole *)

Module MovesPass.
Import Filter.

Lemma get_wrap (d : dex) k :
  get k (map (fun e => (fst e, Some (snd e))) d)
  = match get k d with Some t => Some (Some t) | None => None end.
Proof.
  induction d as [|[k0 t0] d IH]; simpl; [reflexivity|].
  destruct (String.eqb k k0); [reflexivity|exact IH].
Qed.

Lemma set_sentinel_canonical T (d : marked) mon :
  canonical T d -> canonical T (set mon None d).
Proof.
  intros Hc k t. destruct (string_dec mon k) as [->|Hne].
  - rewrite get_set_eq. discriminate.
  - rewrite get_set_neq by assumption. apply Hc.
Qed.

Lemma check_moves_canonical T l mon s :
  forall d d', canonical T d -> check_moves T l mon s d = inr d' -> canonical T d'.
Proof.
  induction s as [|[i w] s IH]; simpl; intros d d' Hc.
  - now intros [= <-].
  - destruct (negb (exists_ (getMove T i))); [discriminate|].
    destruct (negb (canLearn l (getMove T i)) && w);
      [apply IH; now apply MovesFacts.delete_canonical|].
    destruct (negb w && canLearn l (getMove T i));
      [apply IH; now apply set_sentinel_canonical|now apply IH].
Qed.

Lemma mark_canonical T s todo :
  forall d d', canonical T d -> mark T s todo d = inr d' -> canonical T d'.
Proof.
  induction todo as [|[mon t] todo IH]; simpl; intros d d' Hc.
  - now intros [= <-].
  - destruct (learnset_of T t) as [l|]; [|now apply IH].
    destruct (check_moves T l mon s d) as [m|d1] eqn:E; [discriminate|].
    apply IH. eapply check_moves_canonical; eauto.
Qed.

(** The first loop starts from the templates of the provider. *)
Lemma initial_canonical T st :
  canonical T (map (fun e => (fst e, Some (snd e))) (initial_dex T st)).
Proof.
  intros k t. rewrite get_wrap, DexFacts.initial_dex_get.
  destruct (_ && _); [|discriminate]. now intros [= <-].
Qed.

Lemma get_templates (o : marked) k t :
  get k o = Some (Some t) -> get k (templates o) = Some t.
Proof.
  induction o as [|[k0 [t0|]] o IH]; simpl; [discriminate| |].
  - destruct (String.eqb k k0); [now intros [= <-]|exact IH].
  - destruct (String.eqb k k0); [discriminate|exact IH].
Qed.

Lemma templates_In (o : marked) k t :
  In (k, t) (templates o) -> In (k, Some t) o.
Proof.
  induction o as [|[k0 [t0|]] o IH]; simpl; [tauto| |].
  - intros [[= <- <-]|H]; auto.
  - auto.
Qed.

Lemma get_templates_none (o : marked) k :
  get k o = None -> get k (templates o) = None.
Proof.
  intros H. destruct (get k (templates o)) as [t|] eqn:E; [|reflexivity].
  apply get_In, templates_In in E.
  assert (Hk : In k (keys o)).
  { unfold keys. apply in_map_iff. now exists (k, Some t). }
  apply In_keys_get in Hk as [v Hv]. congruence.
Qed.

End MovesPass.

(** X9: what the second loop of the moves pass adds.  When an entry holds
    its template after the first loop, each of its evolutions that the
    first loop did not mark as excluded is in the result of the pass with
    the template of the provider, whatever the evolution can learn and
    whether or not it was in [dex] before the pass. *)
Theorem moves_pass_pulls_evolutions (T : tools) (st : Parse.state)
    (s : jsobj bool) (m : Filter.marked) (mon e : string) :
  Filter.mark T s (Filter.initial_dex T st)
    (map (fun x => (fst x, Some (snd x))) (Filter.initial_dex T st)) = inr m ->
  Filter.holds_template m mon ->
  In e (evos (getTemplate T mon)) ->
  get e m <> Some None ->
  exists d',
    Filter.moves_pass T s (Filter.initial_dex T st) = inr d'
    /\ get e d' = Some (getTemplate T e).
Proof.
  intros Hm Hmon He Hns. unfold Filter.moves_pass. rewrite Hm.
  eexists. split; [reflexivity|].
  assert (Hc : Filter.canonical T m)
    by (eapply MovesPass.mark_canonical; eauto using MovesPass.initial_canonical).
  destruct (MovesFacts.relatives_pulled T m mon e Hc Hmon He Hns) as [t Ht].
  assert (Hc' : Filter.canonical T (Filter.propagate T m)).
  { unfold Filter.propagate. generalize (keys m). intros todo.
    clear Hm Hmon Hns Ht. revert m Hc.
    induction todo as [|k todo IH]; simpl; intros m Hc; [exact Hc|].
    apply IH. now apply MovesFacts.propagate_step_canonical. }
  rewrite (MovesPass.get_templates _ _ _ Ht). f_equal. now apply Hc'.
Qed.

Lemma moves_pass_pulls_evolutions_witness :
  exists d',
    Filter.moves_pass Sample.Tools [("Fly", true)]
      (Filter.initial_dex Sample.Tools Parse.initial) = inr d'
    /\ get "honchkrow" d' = Some (getTemplate Sample.Tools "honchkrow").
Proof.
  refine (moves_pass_pulls_evolutions Sample.Tools Parse.initial [("Fly", true)]
            _ "murkrow" "honchkrow" _ _ _ _).
  - vm_compute. reflexivity.
  - eexists. vm_compute. reflexivity.
  - vm_compute. auto.
  - vm_compute. discriminate.
Defined.

(** X10: where the sentinel of the first loop holds.  An entry the first
    loop marked as excluded is absent from the result of the moves pass
    when no entry enumerated after it has it as an evolution. *)
Theorem excluded_entry_stays_out_when_last (T : tools) (st : Parse.state)
    (s : jsobj bool) (m : Filter.marked) (before after : list string)
    (e : string) :
  Filter.mark T s (Filter.initial_dex T st)
    (map (fun x => (fst x, Some (snd x))) (Filter.initial_dex T st)) = inr m ->
  keys m = (before ++ e :: after)%list ->
  ~ In e before ->
  get e m = Some None ->
  (forall k, In k after -> ~ In e (evos (getTemplate T k))) ->
  exists d',
    Filter.moves_pass T s (Filter.initial_dex T st) = inr d'
    /\ get e d' = None.
Proof.
  intros Hm Hk Hb He Ha. unfold Filter.moves_pass. rewrite Hm.
  eexists. split; [reflexivity|].
  apply MovesPass.get_templates_none.
  eapply MovesFacts.excluded_stays_out; eauto.
  eapply MovesPass.mark_canonical; eauto using MovesPass.initial_canonical.
Qed.

Lemma excluded_entry_stays_out_when_last_witness :
  exists d',
    Filter.moves_pass Sample.Tools [("Fly", false)]
      (Filter.initial_dex Sample.Tools Parse.initial) = inr d'
    /\ get "charizard" d' = None.
Proof.
  refine (excluded_entry_stays_out_when_last Sample.Tools Parse.initial
            [("Fly", false)] _ ["charmander"; "charmeleon"]
            ["pikachu"; "raichu"; "koffing"; "weezing"; "pichu"; "murkrow";
             "smeargle"; "honchkrow"; "volcanion"] "charizard" _ _ _ _ _).
  - vm_compute. reflexivity.
  - vm_compute. reflexivity.
  - simpl. intuition discriminate.
  - vm_compute. reflexivity.
  - intros k Hk. simpl in Hk.
    repeat (destruct Hk as [<-|Hk]; [vm_compute; intuition discriminate|]).
    destruct Hk.
Defined.

(** ** [dexsearch]: what the second loop of the moves pass may add *)

Module PullFacts.
Import Filter MovesFacts.

Lemma check_moves_NoDup T l mon s :
  forall d d', NoDup (keys d) -> check_moves T l mon s d = inr d' -> NoDup (keys d').
Proof.
  induction s as [|[i w] s IH]; simpl; intros d d' Hd.
  - now intros [= <-].
  - destruct (negb (exists_ (getMove T i))); [discriminate|].
    destruct (negb (canLearn l (getMove T i)) && w);
      [apply IH; now apply NoDup_keys_delete|].
    destruct (negb w && canLearn l (getMove T i));
      [apply IH; now apply NoDup_keys_set|now apply IH].
Qed.

Lemma mark_NoDup T s todo :
  forall d d', NoDup (keys d) -> mark T s todo d = inr d' -> NoDup (keys d').
Proof.
  induction todo as [|[mon t] todo IH]; simpl; intros d d' Hd.
  - now intros [= <-].
  - destruct (learnset_of T t) as [l|]; [|now apply IH].
    destruct (check_moves T l mon s d) as [m|d1] eqn:E; [discriminate|].
    apply IH. eapply check_moves_NoDup; eauto.
Qed.

Lemma wrap_keys (d : dex) :
  keys (map (fun e => (fst e, Some (snd e))) d) = keys d.
Proof. unfold keys. rewrite map_map. reflexivity. Qed.

(** A template that is in [dex] after the pulls of a turn was there
    before them or is that of one of the evolutions pulled. *)
Lemma pulls_origin T es :
  forall d k,
    holds_template (fold_left (pull T) es d) k -> holds_template d k \/ In k es.
Proof.
  induction es as [|e es IH]; simpl; intros d k H; [now left|].
  destruct (IH _ _ H) as [H'|H']; [|right; now right].
  destruct (string_dec e k) as [->|Hne]; [right; now left|].
  left. destruct H' as [t Ht]. exists t. now rewrite pull_other in Ht.
Qed.

Lemma delete_origin (d : marked) mon k :
  holds_template (delete mon d) k -> holds_template d k.
Proof.
  intros [t Ht]. exists t. destruct (string_dec mon k) as [->|Hne].
  - rewrite get_delete_eq in Ht. discriminate.
  - now rewrite get_delete_neq in Ht.
Qed.

Section Loop.
Variable T : tools.
Variable m : marked.

(** Why an entry may hold a template after the second loop. *)
Let reason (k : string) : Prop :=
  holds_template m k
  \/ exists mon, holds_template m mon /\ In k (evos (getTemplate T mon)).

Lemma propagate_sound todo :
  forall d,
    NoDup todo ->
    (forall k, In k todo -> In k (keys m)) ->
    (forall k, holds_template d k -> reason k) ->
    (forall k, In k todo -> get k m = Some None -> get k d = Some None) ->
    canonical T d ->
    forall k, holds_template (fold_left (propagate_step T) todo d) k -> reason k.
Proof.
  induction todo as [|mon todo IH]; simpl; intros d Hnd Hkeys Ha Hb Hc;
    [exact Ha|].
  inversion Hnd as [|? ? Hnin Hnd']; subst.
  apply IH; auto.
  - intros k Hk. unfold propagate_step in Hk.
    destruct (get mon d) as [[t|]|] eqn:E.
    + pose proof (Hc _ _ E) as ->.
      assert (Hk' : holds_template
                      (fold_left (pull T) (evos (getTemplate T mon)) d) k).
      { destruct (get mon (fold_left (pull T) (evos (getTemplate T mon)) d))
          as [[t'|]|]; eauto using delete_origin. }
      apply pulls_origin in Hk' as [Hk'|Hk']; [now apply Ha|].
      right. exists mon. split; [|exact Hk'].
      destruct (In_keys_get _ mon m (Hkeys mon (or_introl eq_refl))) as [[t'|] Hv].
      * now exists t'.
      * pose proof (Hb mon (or_introl eq_refl) Hv). congruence.
    + apply Ha. eapply delete_origin. exact Hk.
    + now apply Ha.
  - intros k Hk Hs. apply propagate_step_keeps_sentinel.
    + apply Hb; [now right|exact Hs].
    + intros ->. contradiction.
  - now apply MovesFacts.propagate_step_canonical.
Qed.

End Loop.

End PullFacts.

(** X11: the moves pass adds nothing but direct evolutions.  An entry of
    the result of the pass held its template when the first loop ended, or
    is an evolution of an entry that did; the evolutions of an entry that
    the second loop itself brought in are not brought in on its account. *)
Theorem moves_pass_adds_only_evolutions (T : tools) (st : Parse.state)
    (s : jsobj bool) (m : Filter.marked) (d' : Filter.dex) (e : string)
    (t : template) :
  Filter.mark T s (Filter.initial_dex T st)
    (map (fun x => (fst x, Some (snd x))) (Filter.initial_dex T st)) = inr m ->
  Filter.moves_pass T s (Filter.initial_dex T st) = inr d' ->
  In (e, t) d' ->
  Filter.holds_template m e
  \/ exists mon,
       Filter.holds_template m mon /\ In e (evos (getTemplate T mon)).
Proof.
  intros Hm Hp Hin. unfold Filter.moves_pass in Hp. rewrite Hm in Hp.
  injection Hp as <-.
  assert (Hnd : NoDup (keys m)).
  { eapply PullFacts.mark_NoDup; [|exact Hm].
    rewrite PullFacts.wrap_keys. apply DexFacts.initial_dex_NoDup. }
  assert (Hc : Filter.canonical T m)
    by (eapply MovesPass.mark_canonical; eauto using MovesPass.initial_canonical).
  apply MovesPass.templates_In in Hin.
  apply In_get in Hin; [|now apply MovesFacts.propagate_NoDup].
  apply (PullFacts.propagate_sound T m (keys m) m); auto.
  now exists t.
Qed.

Lemma moves_pass_adds_only_evolutions_witness :
  Filter.holds_template
    (map (fun x => (fst x, Some (snd x)))
       (filter (fun x => mem (fst x) ["pikachu"; "smeargle"; "volcanion"])
          (Filter.initial_dex Sample.Tools Parse.initial)))
    "raichu"
  \/ exists mon,
       Filter.holds_template
         (map (fun x => (fst x, Some (snd x)))
            (filter (fun x => mem (fst x) ["pikachu"; "smeargle"; "volcanion"])
               (Filter.initial_dex Sample.Tools Parse.initial)))
         mon
       /\ In "raichu" (evos (getTemplate Sample.Tools mon)).
Proof.
  refine (moves_pass_adds_only_evolutions Sample.Tools Parse.initial
            [("Surf", true)] _ _ "raichu" (getTemplate Sample.Tools "raichu")
            _ _ _).
  - vm_compute. reflexivity.
  - vm_compute. reflexivity.
  - vm_compute. tauto.
Defined.

(** ** The command table: redirects *)

(** X12: no alias of the table names another alias: a redirect is never
    followed by a second one, so resolving a command name cannot loop. *)
Theorem no_alias_names_an_alias (S : Commands.services) (k c c' : string) :
  get k (Commands.commands S) = Some (Commands.alias c) ->
  get c (Commands.commands S) <> Some (Commands.alias c').
Proof.
  intros Hk Hc.
  destruct (string_dec k "lyzz") as [->|Hne].
  - assert (E : get "lyzz" (Commands.commands S) = Some (Commands.alias "Lynn"))
      by reflexivity.
    assert (E' : get "Lynn" (Commands.commands S) = None) by reflexivity.
    congruence.
  - destruct (aliases_resolve_but_lyzz S k c Hk Hne) as [h Hh]. congruence.
Qed.

Lemma no_alias_names_an_alias_witness :
  get "ip" (Commands.commands Sample.services) = Some (Commands.alias "whois")
  /\ get "whois" (Commands.commands Sample.services) <> Some (Commands.alias "ip").
Proof.
  split; [reflexivity|].
  apply (no_alias_names_an_alias Sample.services "ip" "whois" "ip").
  reflexivity.
Defined.

(** ** [help] *)

Module HelpFacts.
Import Commands Lines.

Lemma sends_app l l' k : sends (l ++ l')%list k = sends l (sends l' k).
Proof. unfold sends. apply fold_right_app. Qed.

Lemma kept_step (c matched : bool) sent l :
  kept matched sent -> l <> [] -> Forall is_line l ->
  kept (fst (if c then (true, (sent ++ l)%list) else (matched, sent)))
       (snd (if c then (true, (sent ++ l)%list) else (matched, sent))).
Proof.
  intros [Hs Hm] Hl Hf. destruct c; simpl; [|now split].
  split; [apply Forall_app; now split|].
  intros _ E. apply app_eq_nil in E as [_ E]. contradiction.
Qed.

Lemma answers_finish matched sent (empty : bool) general missing :
  kept matched sent -> general <> [] -> Forall is_line general ->
  answers
    (sends sent
       (if empty then sends general (Return Undefined)
        else if negb matched then reply (sendReply missing)
        else Return Undefined)).
Proof.
  intros [Hs Hm] Hg Hf. destruct empty.
  - exists (sent ++ general)%list. rewrite sends_app. repeat split.
    + intros E. apply app_eq_nil in E as [_ E]. contradiction.
    + apply Forall_app. now split.
  - destruct matched; simpl.
    + exists sent. repeat split; auto.
    + exists (sent ++ [sendReply missing])%list. rewrite sends_app. repeat split.
      * intros E. apply app_eq_nil in E as [_ E]. discriminate.
      * apply Forall_app. split; [exact Hs|]. repeat constructor. now eexists.
Qed.

Ltac lines :=
  repeat first [ apply Forall_nil
               | apply Forall_cons; [eexists; reflexivity|]
               | apply Forall_app; split
               | match goal with
                 | |- Forall _ (if ?b then _ else _) => destruct b
                 end ].

Ltac topic :=
  lazymatch goal with
  | H : kept ?m ?s |- answers (match ?E with _ => _ end) =>
      let Hp := fresh "Hp" in
      assert (Hp : kept (fst E) (snd E))
        by (apply kept_step; [exact H|discriminate|lines]);
      destruct E as [? ?]; cbn [fst snd] in Hp; clear H
  end.

Lemma help_answers S x : answers (help S x).
Proof.
  unfold help. cbv zeta.
  assert (H0 : kept false []) by (split; [constructor|discriminate]).
  cbv beta iota.
  repeat topic.
  apply answers_finish; auto; [discriminate|lines].
Qed.

End HelpFacts.

(** X13: [help] always answers, and only the user who asked: whatever the
    topic, the user and the sigil, a run of [help] consists of lines sent
    with [sendReply] while the invocation is private, at least one of them,
    with no broadcast check and no permission check, and returns
    [undefined]. *)
Theorem help_always_answers_in_private (S : Commands.services) (c : invocation)
    (x : Commands.args) :
  exists L,
    L <> [] /\ Forall Lines.is_line L
    /\ run c (Commands.help S x) = (map (Called false) L, Undefined).
Proof.
  destruct (HelpFacts.help_answers S x) as (L & E & Hne & Hl).
  exists L. repeat split; [exact Hne|exact Hl|].
  unfold run. rewrite E, WhoisFacts.exec_sends. simpl. now rewrite app_nil_r.
Qed.

(** ** The handlers that collect links: [othermetas], [faq], [tiers] *)

Module LinkFacts.
Import Commands Lines.

Lemma append_filled (a b : string) : b <> "" -> a ++ b <> "".
Proof.
  intros Hb E. destruct a; simpl in E; [contradiction|discriminate].
Qed.

Lemma filled_step (c matched : bool) buffer l :
  filled matched buffer -> l <> "" ->
  filled (fst (if c then (true, buffer ++ l) else (matched, buffer)))
         (snd (if c then (true, buffer ++ l) else (matched, buffer))).
Proof.
  intros H Hl. destruct c; simpl; [|exact H].
  intros _. now apply append_filled.
Qed.

Lemma one_reply_finish matched buffer missing :
  filled matched buffer ->
  one_reply missing
    (if negb matched then reply (sendReply missing)
     else reply (sendReplyBox buffer)).
Proof.
  intros H. destruct matched; simpl; [right|now left].
  exists buffer. split; [now apply H|reflexivity].
Qed.

Ltac entry :=
  lazymatch goal with
  | H : filled ?m ?s |- one_reply _ (match ?E with _ => _ end) =>
      let Hp := fresh "Hp" in
      assert (Hp : filled (fst E) (snd E))
        by (apply filled_step; [exact H|discriminate]);
      destruct E as [? ?]; cbn [fst snd] in Hp; clear H
  end.

Lemma othermetas_one S x :
  exists body,
    othermetas S x = guarded body
    /\ one_reply
         ("The Other Metas entry " ++ dq ++ toId S (target x) ++ dq
          ++ " was not found. Try /othermetas or /om for general help.")
         body.
Proof.
  unfold othermetas. cbv zeta. eexists. split; [reflexivity|].
  assert (H0 : filled false "") by discriminate.
  cbv beta iota. repeat entry. now apply one_reply_finish.
Qed.

Lemma faq_one S x :
  exists body,
    faq S x = guarded body
    /\ one_reply
         ("The FAQ entry " ++ dq ++ toLowerCase (target x) ++ dq
          ++ " was not found. Try /faq for general help.")
         body.
Proof.
  unfold faq. cbv zeta. eexists. split; [reflexivity|].
  assert (H0 : filled false "") by discriminate.
  cbv beta iota. repeat entry. now apply one_reply_finish.
Qed.

Lemma tiers_one S x :
  exists body,
    tiers S x = guarded body
    /\ one_reply
         ("The Tiers entry " ++ dq ++ toId S (target x) ++ dq
          ++ " was not found. Try /tiers for general help.")
         body.
Proof.
  unfold tiers. cbv zeta. eexists. split; [reflexivity|].
  assert (H0 : filled false "") by discriminate.
  cbv beta iota. repeat entry. now apply one_reply_finish.
Qed.

Lemma run_one c missing body :
  passes_broadcast c ->
  one_reply missing body ->
  exists a,
    run c (guarded body) = ([BroadcastChecked true; Called (sigil c) a], Undefined)
    /\ (a = sendReply missing
        \/ exists buffer, buffer <> "" /\ a = sendReplyBox buffer).
Proof.
  intros Hp [->|(buffer & Hb & ->)];
    rewrite DexsearchRuns.run_guarded_pass by assumption;
    (eexists; split; [reflexivity|]); eauto.
Qed.

End LinkFacts.

(** X14: when the broadcast check passes, [othermetas], [faq] and
    [tiers] each send exactly one reply and return [undefined]: the line
    that says the entry was not found and quotes it (the id of the target
    for [othermetas] and [tiers], the target in lower case for [faq]), or
    a box of links that is not empty.  For [faq], whose line quotes the
    text of the user in lower case, the target is ASCII text. *)
Theorem link_handlers_send_one_reply (S : Commands.services) (c : invocation)
    (x : Commands.args) :
  passes_broadcast c ->
  (exists a,
      run c (Commands.othermetas S x)
      = ([BroadcastChecked true; Called (sigil c) a], Undefined)
      /\ (a = sendReply
               ("The Other Metas entry " ++ dq ++ Commands.toId S (Commands.target x)
                ++ dq ++ " was not found. Try /othermetas or /om for general help.")
          \/ exists buffer, buffer <> "" /\ a = sendReplyBox buffer))
  /\ (ascii_only (Commands.target x) = true ->
      exists a,
         run c (Commands.faq S x)
         = ([BroadcastChecked true; Called (sigil c) a], Undefined)
         /\ (a = sendReply
                  ("The FAQ entry " ++ dq ++ toLowerCase (Commands.target x)
                   ++ dq ++ " was not found. Try /faq for general help.")
             \/ exists buffer, buffer <> "" /\ a = sendReplyBox buffer))
  /\ (exists a,
         run c (Commands.tiers S x)
         = ([BroadcastChecked true; Called (sigil c) a], Undefined)
         /\ (a = sendReply
                  ("The Tiers entry " ++ dq ++ Commands.toId S (Commands.target x)
                   ++ dq ++ " was not found. Try /tiers for general help.")
             \/ exists buffer, buffer <> "" /\ a = sendReplyBox buffer)).
Proof.
  intros Hp.
  destruct (LinkFacts.othermetas_one S x) as (b1 & -> & H1).
  destruct (LinkFacts.faq_one S x) as (b2 & -> & H2).
  destruct (LinkFacts.tiers_one S x) as (b3 & -> & H3).
  repeat split; try intros _; eapply LinkFacts.run_one; eauto.
Qed.

Lemma link_handlers_send_one_reply_witness :
  (exists a,
      run Sample.private
        (Commands.othermetas Sample.services (Sample.query Sample.nobody "Pokebank"))
      = ([BroadcastChecked true; Called (sigil Sample.private) a], Undefined)
      /\ (a = sendReply
               ("The Other Metas entry " ++ dq
                ++ Commands.toId Sample.services
                     (Commands.target (Sample.query Sample.nobody "Pokebank"))
                ++ dq ++ " was not found. Try /othermetas or /om for general help.")
          \/ exists buffer, buffer <> "" /\ a = sendReplyBox buffer))
  /\ (exists a,
         run Sample.private
           (Commands.faq Sample.services (Sample.query Sample.nobody "Pokebank"))
         = ([BroadcastChecked true; Called (sigil Sample.private) a], Undefined)
         /\ (a = sendReply
                  ("The FAQ entry " ++ dq ++ "pokebank" ++ dq
                   ++ " was not found. Try /faq for general help.")
             \/ exists buffer, buffer <> "" /\ a = sendReplyBox buffer)).
Proof.
  assert (Hp : passes_broadcast Sample.private) by (intros H; discriminate H).
  destruct (link_handlers_send_one_reply Sample.services Sample.private
              (Sample.query Sample.nobody "Pokebank") Hp) as (Ho & Hf & _).
  split; [exact Ho|exact (Hf eq_refl)].
Defined.


(** ** Handlers that only reply *)

Module FrameFacts.
Import Commands Frame.

Lemma replies_sends l k :
  Forall (fun a => is_reply a = true) l -> replies_only k ->
  replies_only (sends l k).
Proof.
  intros Hl Hk. induction Hl as [|a l Ha Hl IH]; simpl; [exact Hk|].
  now constructor.
Qed.

Lemma replies_guarded body : replies_only body -> replies_only (guarded body).
Proof. intros H. constructor. intros []; simpl; [exact H|constructor]. Qed.

Lemma replies_actions p :
  replies_only p ->
  forall c flag,
    Forall (fun a => is_reply a = true) (actions (fst (exec c flag p))).
Proof.
  induction 1 as [v|a k Ha Hk IH|k Hk IH|permission k Hk IH|k Hk IH
                  |message k Hk IH|l k Hk IH];
    intros c flag; simpl.
  - constructor.
  - specialize (IH c flag). destruct (exec c flag k) as [t v]. simpl in *.
    now constructor.
  - destruct (sigil c); [destruct (may_broadcast c)|].
    + specialize (IH true c true). destruct (exec c true (k true)); exact IH.
    + specialize (IH false c flag). destruct (exec c flag (k false)); exact IH.
    + specialize (IH true c flag). destruct (exec c flag (k true)); exact IH.
  - specialize (IH (grants c permission) c flag).
    destruct (exec c flag (k (grants c permission))); exact IH.
  - apply IH.
  - specialize (IH (nested c message) c flag).
    destruct (exec c flag (k (nested c message))); exact IH.
  - apply IH.
Qed.

(** Replies leave the shared objects as they are. *)
Lemma replies_after t :
  forall w, Forall (fun a => is_reply a = true) (actions t) -> after t w = w.
Proof.
  unfold after, actions.
  induction t as [|e t IH]; simpl; intros w H; [reflexivity|].
  apply Forall_app in H as [He Ht].
  destruct e as [g|p g|room a|m]; simpl; auto.
  inversion He as [|? ? Ha _]; subst.
  destruct a; try discriminate; simpl; auto.
Qed.

(** What the evaluation phase of [dexsearch] returns with is a reply. *)
Lemma passes_reply T s cats :
  forall d a, Filter.passes T s cats d = inl a -> is_reply a = true.
Proof.
  induction cats as [|search cats IH]; simpl; intros d a; [discriminate|].
  destruct (Filter.pass T s search d) as [a'|d'] eqn:E; [|apply IH].
  intros [= <-]. unfold Filter.pass in E.
  repeat match type of E with
         | match ?x with _ => _ end = _ => destruct x
         | (if ?b then _ else _) = _ => destruct b
         end; try discriminate; injection E as <-; reflexivity.
Qed.

Lemma dexsearch_replies S x : replies_only (dexsearch S x).
Proof.
  unfold dexsearch. apply replies_guarded.
  destruct (negb _); [constructor; intros; constructor|].
  constructor. intros b.
  destruct (Parse.parse _ _ _) as [m|st]; [repeat constructor|].
  destruct (Filter.run (Tools S) st) as [r|d] eqn:E.
  - constructor; [|constructor]. eapply passes_reply. exact E.
  - destruct (_ && _); repeat constructor.
Qed.

Lemma lines_reply L :
  Forall Lines.is_line L -> Forall (fun a => is_reply a = true) L.
Proof.
  intros H. eapply Forall_impl; [|exact H]. intros a [m ->]. reflexivity.
Qed.

Lemma help_replies S x : replies_only (help S x).
Proof.
  destruct (HelpFacts.help_answers S x) as (L & -> & _ & HL).
  apply replies_sends; [now apply lines_reply|constructor].
Qed.

Lemma one_reply_replies missing body :
  Lines.one_reply missing body -> replies_only (guarded body).
Proof.
  intros [->|(b & _ & ->)]; apply replies_guarded; repeat constructor.
Qed.

Lemma othermetas_replies S x : replies_only (othermetas S x).
Proof.
  destruct (LinkFacts.othermetas_one S x) as (b & -> & H).
  eapply one_reply_replies; eauto.
Qed.

Lemma faq_replies S x : replies_only (faq S x).
Proof.
  destruct (LinkFacts.faq_one S x) as (b & -> & H).
  eapply one_reply_replies; eauto.
Qed.

Lemma tiers_replies S x : replies_only (tiers S x).
Proof.
  destruct (LinkFacts.tiers_one S x) as (b & -> & H).
  eapply one_reply_replies; eauto.
Qed.

Lemma previous_replies u : Forall (fun a => is_reply a = true) (previous u).
Proof. unfold previous. destruct (nonempty _); repeat constructor. Qed.

Lemma heading_replies S x u : Forall (fun a => is_reply a = true) (heading S x u).
Proof.
  unfold heading. repeat (apply Forall_app; split).
  - repeat constructor.
  - destruct (user_can _ _ _ _); [|constructor].
    apply Forall_app. split; [apply previous_replies|].
    apply Forall_flat_map. apply Forall_forall. intros alt _.
    unfold alt_lines. destruct (_ && _); [constructor|].
    destruct (_ && _); [constructor|].
    constructor; [reflexivity|apply previous_replies].
  - destruct (group_name _ _); repeat constructor.
  - destruct (isSysop _); repeat constructor.
  - destruct (negb _); repeat constructor.
Qed.

Lemma whois_replies S x : replies_only (whois S x).
Proof.
  unfold whois. destruct (targetUserOrSelf S x) as [[u|] n].
  - apply replies_sends; [apply heading_replies|].
    constructor. intros b. apply replies_sends; [|repeat constructor].
    destruct (shows_ip _ _ _ _); repeat constructor.
  - repeat constructor.
Qed.

Lemma ipsearch_replies S x : replies_only (ipsearch S x).
Proof.
  unfold ipsearch. constructor. intros []; cbn [negb]; [|constructor].
  apply replies_sends; [|constructor].
  apply Forall_app. split; [repeat constructor|]. apply Forall_app. split.
  - apply Forall_map, Forall_forall. intros u _. reflexivity.
  - destruct (filter _ _); repeat constructor.
Qed.

Ltac replies_tac :=
  repeat first
    [ apply ro_Return
    | apply replies_guarded
    | apply ro_Do; [reflexivity|]
    | apply ro_can; intros ?
    | apply ro_broadcasting; intros ?
    | apply ro_parse; intros ?
    | apply ro_random_sort; intros ?
    | match goal with
      | |- replies_only (if ?b then _ else _) => destruct b
      | |- replies_only (match ?x with _ => _ end) => destruct x
      end ].

Lemma handlers_reply (S : services) (name : string) (h : handler) (x : args) :
  bodies_reply S ->
  In (name, h) (handlers S) ->
  ~ In name acting ->
  replies_only (h x).
Proof.
  intros (Hl & Hw & Hs & Hd). rewrite TableFacts.handlers_listed. intros H Hn.
  repeat (destruct H as [H|H];
          [injection H as <- <-;
           first
             [ solve [ apply whois_replies | apply ipsearch_replies
                     | apply dexsearch_replies | apply help_replies
                     | apply othermetas_replies | apply faq_replies
                     | apply tiers_replies ]
             | solve [ exfalso; apply Hn; unfold acting; simpl; tauto ]
             | solve [ match goal with
                       | |- replies_only (?f S x) => unfold f
                       | |- replies_only (?f x) => unfold f
                       end;
                       cbv beta zeta; unfold reply;
                       repeat first [ apply replies_sends; [solve [auto]|]
                                    | progress replies_tac ] ] ]|]).
  destruct H.
Qed.

End FrameFacts.

(** X15: the informational handlers only reply.  For every handler of
    the table other than [rules], [potd], [lobbychat], [a] and [invite],
    every action of every run is a reply ([sendReply], [sendReplyBox] or
    [popupReply]), so the run leaves [room.rulesLink], the stored room data
    and [config.potd] as they were.  The bodies of [learn], [weakness],
    [smogdex] and [dice], which the table takes from its collaborators, are
    assumed to list replies. *)
Theorem informational_handlers_only_reply (S : Commands.services)
    (c : invocation) (name : string) (h : Commands.handler)
    (x : Commands.args) (w : shared) :
  Frame.bodies_reply S ->
  In (name, h) (Commands.handlers S) ->
  ~ In name Frame.acting ->
  Forall (fun a => Frame.is_reply a = true) (actions (trace c (h x)))
  /\ after (trace c (h x)) w = w.
Proof.
  intros Hb Hin Hn.
  pose proof (FrameFacts.replies_actions _
                (FrameFacts.handlers_reply S name h x Hb Hin Hn) c false) as H.
  split; [exact H|]. now apply FrameFacts.replies_after.
Qed.

Lemma informational_handlers_only_reply_witness :
  after (trace Sample.announced
           (Commands.dexsearch Sample.services
              (Sample.query Sample.nobody "fire type")))
    {| room_rulesLink := None; chatRoomData_rulesLink := None;
       config_potd := "mew" |}
  = {| room_rulesLink := None; chatRoomData_rulesLink := None;
       config_potd := "mew" |}.
Proof.
  apply (informational_handlers_only_reply Sample.services Sample.announced
           "dexsearch" (Commands.dexsearch Sample.services)
           (Sample.query Sample.nobody "fire type")).
  - repeat split; intros; constructor.
  - rewrite TableFacts.handlers_listed. do 4 right. left. reflexivity.
  - unfold Frame.acting. simpl. intuition discriminate.
Defined.

(** ** [whois]: alternate accounts *)

(** X16: [whois] shows alternate accounts only to those who may see
    them.  A line that begins with [Alt: ] or with [Previous names: ] is
    sent only when the target exists and the invoker holds [alts] over the
    target. *)
Theorem whois_alts_need_permission (S : Commands.services) (c : invocation)
    (flag : bool) (x : Commands.args) (room : bool) (m : string) :
  In (Called room (sendReply m)) (fst (exec c flag (Commands.whois S x))) ->
  prefix "Alt: " m = true \/ prefix "Previous names: " m = true ->
  exists targetUser n,
    Commands.targetUserOrSelf S x = (Some targetUser, n)
    /\ Commands.user_can S (Commands.user x) "alts" targetUser = true.
Proof.
  intros Hin Hp.
  destruct (Commands.targetUserOrSelf S x) as [[u|] n] eqn:E.
  - exists u, n. split; [reflexivity|].
    rewrite (WhoisFacts.whois_trace S c flag x u n E) in Hin.
    destruct (Commands.user_can S (Commands.user x) "alts" u) eqn:Hc;
      [reflexivity|exfalso].
    apply in_app_or in Hin as [Hin|Hin].
    + unfold Commands.heading in Hin. rewrite Hc in Hin.
      apply in_map_iff in Hin as (a & Ha & Hin). simpl in Hin.
      destruct Hin as [<-|Hin];
        [injection Ha as _ <-; destruct Hp as [Hp|Hp]; discriminate Hp|].
      apply in_app_or in Hin as [Hin|Hin].
      { destruct (Commands.group_name S (Commands.group u)); [|destruct Hin].
        destruct Hin as [<-|[]]. injection Ha as _ <-.
        destruct Hp as [Hp|Hp]; discriminate Hp. }
      apply in_app_or in Hin as [Hin|Hin].
      { destruct (Commands.isSysop u); [|destruct Hin].
        destruct Hin as [<-|[]]. injection Ha as _ <-.
        destruct Hp as [Hp|Hp]; discriminate Hp. }
      destruct (negb (Commands.authenticated u)); [|destruct Hin].
      destruct Hin as [<-|[]]. injection Ha as _ <-.
      destruct Hp as [Hp|Hp]; discriminate Hp.
    + apply in_app_or in Hin as [Hin|Hin].
      * destruct (Commands.shows_ip S x flag u); [|destruct Hin].
        destruct Hin as [Hin|[]]. injection Hin as _ <-.
        unfold Commands.ip_line in Hp.
        destruct Hp as [Hp|Hp]; discriminate Hp.
      * destruct Hin as [Hin|[]]. injection Hin as _ <-.
        destruct Hp as [Hp|Hp]; discriminate Hp.
  - rewrite (WhoisFacts.whois_trace_missing S c flag x n E) in Hin.
    destruct Hin as [Hin|[]]. injection Hin as _ <-.
    destruct Hp as [Hp|Hp]; discriminate Hp.
Qed.

Lemma whois_alts_need_permission_witness :
  exists targetUser n,
    Commands.targetUserOrSelf Veteran.services (Sample.query Veteran.veteran "")
    = (Some targetUser, n)
    /\ Commands.user_can Veteran.services
         (Commands.user (Sample.query Veteran.veteran "")) "alts" targetUser
       = true.
Proof.
  apply (whois_alts_need_permission Veteran.services Sample.private false
           (Sample.query Veteran.veteran "") false "Previous names: Zarel2").
  - vm_compute. tauto.
  - right. reflexivity.
Defined.

(** X17: the alternate accounts [whois] names.  A line that begins with
    [Alt: ] names an alternate account of the target that is named or
    connected, and names an administrator only when the invoker is an
    administrator. *)
Theorem whois_names_visible_alts (S : Commands.services) (c : invocation)
    (flag : bool) (x : Commands.args) (room : bool) (m : string) :
  In (Called room (sendReply m)) (fst (exec c flag (Commands.whois S x))) ->
  prefix "Alt: " m = true ->
  exists targetUser n alt,
    Commands.targetUserOrSelf S x = (Some targetUser, n)
    /\ In alt (Commands.getAlts S targetUser)
    /\ m = "Alt: " ++ Commands.uname alt
    /\ (Commands.named alt = true \/ Commands.connected alt = true)
    /\ (Commands.group alt = "~" -> Commands.group (Commands.user x) = "~").
Proof.
  intros Hin Hp.
  destruct (Commands.targetUserOrSelf S x) as [[u|] n] eqn:E.
  - exists u, n.
    rewrite (WhoisFacts.whois_trace S c flag x u n E) in Hin.
    apply in_app_or in Hin as [Hin|Hin].
    + unfold Commands.heading in Hin.
      apply in_map_iff in Hin as (a & Ha & Hin). simpl in Hin.
      destruct Hin as [<-|Hin]; [injection Ha as _ <-; discriminate Hp|].
      apply in_app_or in Hin as [Hin|Hin].
      { destruct (Commands.user_can S (Commands.user x) "alts" u); [|destruct Hin].
        apply in_app_or in Hin as [Hin|Hin].
        - unfold Commands.previous in Hin.
          destruct (Commands.nonempty _); [|destruct Hin].
          destruct Hin as [<-|[]]. injection Ha as _ <-. discriminate Hp.
        - apply in_flat_map in Hin as (alt & Halt & Hin). exists alt.
          unfold Commands.alt_lines in Hin.
          destruct (negb (Commands.named alt) && negb (Commands.connected alt))
            eqn:Hv; [destruct Hin|].
          destruct (String.eqb (Commands.group alt) "~"
                    && negb (String.eqb (Commands.group (Commands.user x)) "~"))
            eqn:Hg; [destruct Hin|].
          destruct Hin as [<-|Hin].
          + injection Ha as _ <-. repeat split; [exact Halt| |].
            * apply andb_false_iff in Hv as [Hv|Hv];
                apply negb_false_iff in Hv; auto.
            * intros Hgr. apply andb_false_iff in Hg as [Hg|Hg].
              -- apply String.eqb_neq in Hg. contradiction.
              -- apply negb_false_iff in Hg. now apply String.eqb_eq.
          + unfold Commands.previous in Hin.
            destruct (Commands.nonempty _); [|destruct Hin].
            destruct Hin as [<-|[]]. injection Ha as _ <-. discriminate Hp. }
      apply in_app_or in Hin as [Hin|Hin].
      { destruct (Commands.group_name S (Commands.group u)); [|destruct Hin].
        destruct Hin as [<-|[]]. injection Ha as _ <-. discriminate Hp. }
      apply in_app_or in Hin as [Hin|Hin].
      { destruct (Commands.isSysop u); [|destruct Hin].
        destruct Hin as [<-|[]]. injection Ha as _ <-. discriminate Hp. }
      destruct (negb (Commands.authenticated u)); [|destruct Hin].
      destruct Hin as [<-|[]]. injection Ha as _ <-. discriminate Hp.
    + apply in_app_or in Hin as [Hin|Hin].
      * destruct (Commands.shows_ip S x flag u); [|destruct Hin].
        destruct Hin as [Hin|[]]. injection Hin as _ <-.
        unfold Commands.ip_line in Hp. discriminate Hp.
      * destruct Hin as [Hin|[]]. injection Hin as _ <-. discriminate Hp.
  - rewrite (WhoisFacts.whois_trace_missing S c flag x n E) in Hin.
    destruct Hin as [Hin|[]]. injection Hin as _ <-. discriminate Hp.
Qed.

Lemma whois_names_visible_alts_witness :
  exists targetUser n alt,
    Commands.targetUserOrSelf Veteran.services (Sample.query Veteran.veteran "")
    = (Some targetUser, n)
    /\ In alt (Commands.getAlts Veteran.services targetUser)
    /\ "Alt: Zarel Alt" = "Alt: " ++ Commands.uname alt
    /\ (Commands.named alt = true \/ Commands.connected alt = true)
    /\ (Commands.group alt = "~"
        -> Commands.group (Commands.user (Sample.query Veteran.veteran "")) = "~").
Proof.
  apply (whois_names_visible_alts Veteran.services Sample.private false
           (Sample.query Veteran.veteran "") false "Alt: Zarel Alt").
  - vm_compute. tauto.
  - reflexivity.
Defined.

(** ** [rules]: the stored link *)

Module TrimFacts.

(** On ASCII text the code units are the bytes. *)
Lemma code_units_ascii s : ascii_only s = true -> code_units s = String.length s.
Proof.
  induction s as [|c s IH]; [reflexivity|].
  cbn [ascii_only code_units String.length]. intros H.
  apply andb_true_iff in H as [Hc Hs]. rewrite (IH Hs).
  apply Nat.ltb_lt in Hc.
  destruct (Nat.leb_spec 128 (nat_of_ascii c)); [lia|].
  destruct (Nat.leb_spec 240 (nat_of_ascii c)); [lia|reflexivity].
Qed.

Lemma trim_left_units s : code_units (trim_left s) <= code_units s.
Proof.
  induction s as [|c s IH]; [reflexivity|].
  cbn [trim_left]. destruct (is_space c); [|lia].
  cbn [code_units]. lia.
Qed.

Lemma trim_right_units s : code_units (trim_right s) <= code_units s.
Proof.
  induction s as [|c s IH]; [reflexivity|].
  cbn [trim_right]. destruct (trim_right s) as [|c' r].
  - destruct (is_space c); cbn [code_units] in *; lia.
  - cbn [code_units] in *. lia.
Qed.

Lemma trim_units s : code_units (trim s) <= code_units s.
Proof.
  unfold trim. pose proof (trim_right_units (trim_left s)).
  pose proof (trim_left_units s). lia.
Qed.

End TrimFacts.

(** X18: what [rules] may leave in the store.  Whatever the permission
    and the sigil, a run of [rules] with a target of ASCII characters
    either leaves the shared objects as they are, or was granted
    [roommod] and leaves in [room.rulesLink] the target without its
    surrounding white space, a link of at most 80 characters; it then
    copies that same link to the stored room data when the room has such
    data, and touches nothing else. *)
Theorem rules_stores_a_short_trimmed_link (S : Commands.services)
    (c : invocation) (x : Commands.args) (w : shared) :
  ascii_only (Commands.target x) = true ->
  let w' := after (trace c (Commands.rules S x)) w in
  w' = w
  \/ (grants c "roommod" = true
      /\ room_rulesLink w' = Some (trim (Commands.target x))
      /\ code_units (trim (Commands.target x)) <= 80
      /\ chatRoomData_rulesLink w'
         = (if Commands.chatRoomData (Commands.room x)
            then Some (trim (Commands.target x))
            else chatRoomData_rulesLink w)
      /\ config_potd w' = config_potd w).
Proof.
  intros _.
  unfold trace, run, Commands.rules.
  destruct (negb (Commands.nonempty (Commands.target x))).
  - left. unfold guarded, reply. simpl.
    destruct (sigil c); [destruct (may_broadcast c)|]; reflexivity.
  - cbn [exec]. destruct (grants c "roommod") eqn:Hg; cbn [negb].
    + destruct (Nat.ltb_spec 80 (code_units (Commands.target x))) as [Hl|Hl].
      * left. reflexivity.
      * right. split; [reflexivity|].
        pose proof (TrimFacts.trim_units (Commands.target x)).
        destruct (Commands.chatRoomData (Commands.room x)); simpl;
          repeat split; lia.
    + left. reflexivity.
Qed.

Lemma rules_stores_a_short_trimmed_link_witness :
  let x := Sample.query Sample.zarel " http://example.com/r " in
  let w := {| room_rulesLink := None; chatRoomData_rulesLink := None;
              config_potd := "" |} in
  let w' := after (trace Sample.announced (Commands.rules Sample.services x)) w in
  ascii_only (Commands.target x) = true
  /\ room_rulesLink w' = Some "http://example.com/r"
  /\ (w' = w
      \/ (grants Sample.announced "roommod" = true
          /\ room_rulesLink w' = Some (trim (Commands.target x))
          /\ code_units (trim (Commands.target x)) <= 80
          /\ chatRoomData_rulesLink w'
             = (if Commands.chatRoomData (Commands.room x)
                then Some (trim (Commands.target x))
                else chatRoomData_rulesLink w)
          /\ config_potd w' = config_potd w)).
Proof.
  split; [reflexivity|]. split; [reflexivity|].
  apply (rules_stores_a_short_trimmed_link Sample.services Sample.announced
           (Sample.query Sample.zarel " http://example.com/r ")).
  reflexivity.
Defined.

(** X19: a link set with [rules] is the link [rules] shows.  After a run
    of [rules] with a target of at most 80 ASCII characters that was
    granted [roommod], a call of [rules] without a target in the same
    room, with the broadcast check passing, sends one box: it links to
    the target without its surrounding white space, sanitised, as the
    room rules, and to the global rules; when the target was white space
    only it links to the global rules alone. *)
Theorem rules_set_then_show (S : Commands.services) (c c' : invocation)
    (x : Commands.args) (w : shared) :
  ascii_only (Commands.target x) = true ->
  Commands.target x <> "" ->
  grants c "roommod" = true ->
  code_units (Commands.target x) <= 80 ->
  passes_broadcast c' ->
  let w' := after (trace c (Commands.rules S x)) w in
  let link := trim (Commands.target x) in
  run c' (Commands.rules S (Store.revisit w' x))
  = ([BroadcastChecked true;
      Called (sigil c')
        (sendReplyBox
           ("Please follow the rules:<br />"
            ++ (if Commands.nonempty link
                then "- <a href=" ++ dq ++ Commands.sanitize S link ++ dq ++ ">"
                     ++ Commands.sanitize S (Commands.title (Commands.room x))
                     ++ " room rules</a><br />"
                else "")
            ++ "- <a href=" ++ dq ++ "http://pokemonshowdown.com/rules" ++ dq ++ ">"
            ++ (if Commands.nonempty link then "Global rules" else "Rules")
            ++ "</a><br />" ++ "</div>"))],
     Undefined).
Proof.
  intros _ Ht Hg Hl Hp w' link.
  assert (Hw : room_rulesLink w' = Some link).
  { subst w'. unfold trace, run, Commands.rules, Commands.nonempty.
    destruct (String.eqb (Commands.target x) "") eqn:E;
      [apply String.eqb_eq in E; contradiction|].
    cbn [negb exec]. rewrite Hg. cbn [negb].
    destruct (Nat.ltb_spec 80 (code_units (Commands.target x))) as [H|H];
      [lia|].
    destruct (Commands.chatRoomData (Commands.room x)); reflexivity. }
  unfold Commands.rules at 1. cbn [Store.revisit Commands.target].
  cbn [Commands.nonempty String.eqb negb].
  rewrite DexsearchRuns.run_guarded_pass by assumption.
  unfold Commands.rules_text, Commands.has_rules, Store.revisit, Store.room_with.
  cbn [Commands.room Commands.rulesLink Commands.title].
  rewrite Hw. reflexivity.
Qed.

Lemma rules_set_then_show_witness :
  run Sample.private
    (Commands.rules Sample.services
       (Store.revisit
          (after (trace Sample.announced
                    (Commands.rules Sample.services
                       (Sample.query Sample.zarel " http://example.com/r ")))
             {| room_rulesLink := None; chatRoomData_rulesLink := None;
                config_potd := "" |})
          (Sample.query Sample.zarel " http://example.com/r ")))
  = ([BroadcastChecked true;
      Called false
        (sendReplyBox
           ("Please follow the rules:<br />- <a href=" ++ dq
            ++ "http://example.com/r" ++ dq
            ++ ">Lobby room rules</a><br />- <a href=" ++ dq
            ++ "http://pokemonshowdown.com/rules" ++ dq
            ++ ">Global rules</a><br /></div>"))],
     Undefined).
Proof.
  apply (rules_set_then_show Sample.services Sample.announced Sample.private
           (Sample.query Sample.zarel " http://example.com/r ")
           {| room_rulesLink := None; chatRoomData_rulesLink := None;
              config_potd := "" |}).
  - reflexivity.
  - intros H. discriminate H.
  - reflexivity.
  - vm_compute. lia.
  - intros H. discriminate H.
Defined.

(** ** [effectiveness]: the two names *)

Module SplitFacts.
Import Separator.

Lemma split_nonempty seps s : split_any seps s <> [].
Proof.
  destruct s as [|c s]; simpl; [discriminate|].
  destruct (existsb (Ascii.eqb c) seps); [discriminate|].
  destruct (split_any seps s); discriminate.
Qed.

Lemma split_unseparated s :
  occurs "," s = false -> occurs "/" s = false ->
  split_any [","; "/"]%char s = [s].
Proof.
  induction s as [|c s IH]; simpl; [reflexivity|].
  intros H1 H2. apply orb_false_iff in H1 as [H1 H1'], H2 as [H2 H2'].
  rewrite H1, H2. simpl. now rewrite IH.
Qed.

Lemma split_separated s :
  occurs "," s = true \/ occurs "/" s = true ->
  2 <= List.length (split_any [","; "/"]%char s).
Proof.
  induction s as [|c s IH]; simpl; [intros [H|H]; discriminate|].
  intros H.
  destruct (Ascii.eqb c ",") eqn:E1; simpl.
  - pose proof (split_nonempty [","; "/"]%char s).
    destruct (split_any _ s); [contradiction|simpl; lia].
  - destruct (Ascii.eqb c "/") eqn:E2; simpl.
    + pose proof (split_nonempty [","; "/"]%char s).
      destruct (split_any _ s); [contradiction|simpl; lia].
    + assert (H' : occurs "," s = true \/ occurs "/" s = true)
        by (destruct H as [H|H]; simpl in H; auto).
      specialize (IH H'). destruct (split_any _ s); simpl in *; lia.
Qed.

End SplitFacts.

(** X20: [effectiveness] wants two names.  When the target has neither a
    comma nor a slash the handler replies, to the user alone and without
    consulting the broadcast check, that attacker and defender must be
    separated; when the target has one, the handler sends no line with
    [sendReply] at all: it hands over to [/help effectiveness] or answers
    in a box. *)
Theorem effectiveness_needs_a_separator (S : Commands.services)
    (c : invocation) (x : Commands.args) :
  (Separator.occurs "," (Commands.target x) = false ->
   Separator.occurs "/" (Commands.target x) = false ->
   run c (Commands.effectiveness S x)
   = ([Called false
         (sendReply "Attacker and defender must be separated with a comma.")],
      Undefined))
  /\ (Separator.occurs "," (Commands.target x) = true
      \/ Separator.occurs "/" (Commands.target x) = true ->
      forall room m,
        ~ In (Called room (sendReply m)) (trace c (Commands.effectiveness S x))).
Proof.
  split.
  - intros H1 H2. unfold Commands.effectiveness.
    now rewrite (SplitFacts.split_unseparated _ H1 H2).
  - intros H room m. unfold trace, Commands.effectiveness.
    pose proof (SplitFacts.split_separated _ H) as Hl.
    destruct (split_any _ (Commands.target x)) as [|a [|b rest]];
      simpl in Hl; try lia.
    cbn [firstn List.length Nat.eqb negb nth].
    destruct (Commands.search S _ a) as [method|]; [|simpl; intuition discriminate].
    destruct (Commands.search S _ b) as [method'|]; [|simpl; intuition discriminate].
    unfold run, guarded, reply. simpl.
    destruct (sigil c); [destruct (may_broadcast c)|]; simpl;
      intuition discriminate.
Qed.

Lemma effectiveness_needs_a_separator_witness :
  run Sample.private
    (Commands.effectiveness Sample.services (Sample.query Sample.nobody "fire water"))
  = ([Called false
        (sendReply "Attacker and defender must be separated with a comma.")],
     Undefined).
Proof.
  apply (effectiveness_needs_a_separator Sample.services Sample.private
           (Sample.query Sample.nobody "fire water")); reflexivity.
Defined.


(** ** [smogdex] *)

Module SmogdexFacts.
Import Smogdex.

(** The generation the chain settles on. *)
Lemma normalise_range typed :
  In (normalise typed) [("bw", 5); ("dp", 4); ("rs", 3); ("gs", 2); ("rb", 1)].
Proof.
  unfold normalise.
  repeat match goal with
         | |- context [if ?b then _ else _] => destruct b
         end; simpl; tauto.
Qed.

Lemma replies_shape P target :
  String.eqb (toId P (nth 0 (split "," target) "")) "previews" = false ->
  exists_ (getTemplate P (nth 0 (split "," target) "")) = false
  \/ (gen (getTemplate P (nth 0 (split "," target) ""))
      <= snd (normalise (toLowerCase (trim (element_or "bw" (split "," target) 1)))))
  ->
  exists l,
    replies P target = l /\ 1 <= List.length l <= 4
    /\ Forall (fun a => exists html, a = sendReplyBox html) l.
Proof.
  intros Hp Hg. unfold replies. rewrite Hp.
  destruct (normalise _) as [generation genNumber]. simpl snd in Hg.
  destruct (doubles _ _ _) as [doublesFormat doublesText].
  assert (E : exists_ (getTemplate P (nth 0 (split "," target) ""))
              && (genNumber <? gen (getTemplate P (nth 0 (split "," target) "")))%nat
              = false).
  { destruct Hg as [->|Hg]; [reflexivity|].
    apply andb_false_iff. right. apply Nat.ltb_ge. exact Hg. }
  rewrite E. clear E Hg.
  set (pokemon := exists_ (getTemplate P _)).
  set (shows_item := exists_ (getItem P _) && _ && _).
  set (shows_ability := exists_ (getAbility P _) && _ && _).
  set (shows_move := exists_ (getMove P _) && _).
  eexists. split; [reflexivity|].
  unfold analysis.
  destruct pokemon, shows_item, shows_ability, shows_move;
    cbn [orb negb app List.length]; (split; [lia|]);
    repeat (constructor; [eexists; reflexivity|]); constructor.
Qed.

(** The handler of the table is this one when the collaborator it takes
    its replies from is [replies]. *)
Lemma smogdex_of_table S P x :
  (forall t, Commands.smogdex_rest S t = replies P t) ->
  Commands.smogdex S x = smogdex P x.
Proof. intros H. unfold Commands.smogdex, smogdex. now rewrite H. Qed.

End SmogdexFacts.

(** X21: [smogdex] is never silent.  When the broadcast check passes the
    handler sends between one and four replies, all of them boxes, and
    returns [undefined]: the index of previews, the notice that the
    species did not exist yet, up to four analyses (species, item, ability,
    move), or the notice that nothing was found. *)
Theorem smogdex_sends_one_to_four_boxes (P : Smogdex.provider) (c : invocation)
    (x : Commands.args) :
  passes_broadcast c ->
  exists l,
    run c (Smogdex.smogdex P x)
    = ((BroadcastChecked true :: map (Called (sigil c)) l)%list, Undefined)
    /\ 1 <= List.length l <= 4
    /\ Forall (fun a => exists html, a = sendReplyBox html) l.
Proof.
  intros Hp. unfold Smogdex.smogdex.
  rewrite DexsearchRuns.run_guarded_pass by assumption.
  rewrite WhoisFacts.exec_sends. simpl. rewrite app_nil_r.
  exists (Smogdex.replies P (Commands.target x)). split; [reflexivity|].
  destruct (String.eqb
              (Smogdex.toId P (nth 0 (split "," (Commands.target x)) ""))
              "previews") eqn:E.
  - unfold Smogdex.replies. rewrite E. simpl. split; [lia|].
    repeat constructor. now eexists.
  - set (pokemon := Smogdex.getTemplate P (nth 0 (split "," (Commands.target x)) "")).
    set (n := snd (Smogdex.normalise
                     (toLowerCase
                        (trim (Smogdex.element_or "bw"
                                 (split "," (Commands.target x)) 1))))).
    destruct (Smogdex.exists_ pokemon && (n <? Smogdex.gen pokemon)%nat) eqn:G.
    + unfold Smogdex.replies. rewrite E.
      fold pokemon. subst n.
      destruct (Smogdex.normalise _) as [generation genNumber]. simpl snd in G.
      destruct (Smogdex.doubles _ _ _) as [doublesFormat doublesText].
      rewrite G. simpl. split; [lia|]. repeat constructor. now eexists.
    + destruct (SmogdexFacts.replies_shape P (Commands.target x) E)
        as (l & <- & H); [|exact H].
      fold pokemon. fold n.
      apply andb_false_iff in G as [G|G]; [now left|right].
      now apply Nat.ltb_ge.
Qed.

Lemma smogdex_sends_one_to_four_boxes_witness :
  exists l,
    run Sample.private
      (Smogdex.smogdex Smogdex.sample (Sample.query Sample.nobody "metronome, dp"))
    = ((BroadcastChecked true :: map (Called (sigil Sample.private)) l)%list,
       Undefined)
    /\ 1 <= List.length l <= 4
    /\ Forall (fun a => exists html, a = sendReplyBox html) l.
Proof.
  apply (smogdex_sends_one_to_four_boxes Smogdex.sample Sample.private
           (Sample.query Sample.nobody "metronome, dp")).
  intros H. discriminate H.
Defined.

Example smogdex_metronome :
  Smogdex.replies Smogdex.sample "metronome, dp"
  = [Smogdex.analysis "dp" "items" "item" (Smogdex.known "Metronome" 4 "");
     Smogdex.analysis "dp" "moves" "move" (Smogdex.known "Metronome" 1 "")].
Proof. vm_compute. reflexivity. Qed.

Example smogdex_leftovers :
  Smogdex.replies Smogdex.sample "Leftovers, gsc"
  = [Smogdex.analysis "gs" "items" "item" (Smogdex.known "Leftovers" 2 "")].
Proof. vm_compute. reflexivity. Qed.

(** X22: [smogdex] knows no sixth generation.  The generation the
    handler settles on is one of BW, DP, RS, GS and RB, the fifth at most,
    so for a species that exists and whose generation is 6 or later the
    only reply, whatever generation or format the user typed, is that the
    species did not exist in that generation. *)
Theorem smogdex_knows_no_sixth_generation (P : Smogdex.provider)
    (target : string) :
  let pokemon := Smogdex.getTemplate P (nth 0 (split "," target) "") in
  Smogdex.toId P (nth 0 (split "," target) "") <> "previews" ->
  Smogdex.exists_ pokemon = true ->
  6 <= Smogdex.gen pokemon ->
  exists generation,
    In generation ["BW"; "DP"; "RS"; "GS"; "RB"]
    /\ Smogdex.replies P target
       = [sendReplyBox
            (Smogdex.name pokemon ++ " did not exist in " ++ generation ++ "!")].
Proof.
  intros pokemon Hp He Hg. unfold Smogdex.replies.
  apply String.eqb_neq in Hp. rewrite Hp. fold pokemon.
  pose proof (SmogdexFacts.normalise_range
                (toLowerCase (trim (Smogdex.element_or "bw" (split "," target) 1))))
    as Hn.
  destruct (Smogdex.normalise _) as [generation genNumber].
  destruct (Smogdex.doubles _ _ _) as [doublesFormat doublesText].
  assert (Hlt : (genNumber <? Smogdex.gen pokemon)%nat = true).
  { apply Nat.ltb_lt. simpl in Hn.
    repeat (destruct Hn as [Hn|Hn]; [injection Hn as <- <-; lia|]).
    destruct Hn. }
  rewrite He, Hlt. cbn [andb]. unfold Smogdex.did_not_exist.
  exists (toUpperCase generation). split; [|reflexivity].
  simpl in Hn.
  repeat (destruct Hn as [Hn|Hn]; [injection Hn as <- <-; simpl; tauto|]).
  destruct Hn.
Qed.

Lemma smogdex_knows_no_sixth_generation_witness :
  exists generation,
    In generation ["BW"; "DP"; "RS"; "GS"; "RB"]
    /\ Smogdex.replies Smogdex.sample "Greninja, xy"
       = [sendReplyBox
            (Smogdex.name
               (Smogdex.getTemplate Smogdex.sample
                  (nth 0 (split "," "Greninja, xy") ""))
             ++ " did not exist in " ++ generation ++ "!")].
Proof.
  apply (smogdex_knows_no_sixth_generation Smogdex.sample "Greninja, xy").
  - vm_compute. discriminate.
  - reflexivity.
  - vm_compute. lia.
Defined.

(** X23: [smogdex] links to a doubles analysis for the fifth generation
    only.  For ASCII text typed second and third, the address of the
    species carries a format, and the label a text before its name, only
    when the generation settled on is BW and the format passes the test
    [in doublesFormats]: it is vgc2012, vgc2013 or doubles, with the text
    of the literal, or it is one of the inherited names [constructor] and
    [__proto__], which pass that test too, with the text the inherited
    property gives.  The format is the one typed third, trimmed and in
    lower case, or, when none was typed third, the one typed in place of
    the generation. *)
Theorem smogdex_doubles_only_for_bw (second third : string) :
  ascii_only second = true ->
  ascii_only third = true ->
  let typed := toLowerCase (trim second) in
  let generation := fst (Smogdex.normalise typed) in
  Smogdex.doubles typed generation third <> ("", "") ->
  generation = "bw"
  /\ snd (Smogdex.normalise typed) = 5
  /\ exists f text,
       In (f, text)
          [("vgc2012", "VGC 2012 "); ("vgc2013", "VGC 2013 ");
           ("doubles", "Doubles ");
           ("constructor", "function Object() { [native code] }");
           ("__proto__", "[object Object]")]
       /\ (f = toLowerCase (trim third) \/ (third = "" /\ f = typed))
       /\ Smogdex.doubles typed generation third = ("/" ++ f, text).
Proof.
  intros _ _ typed generation. subst generation.
  assert (Htyped : Recorded.no_upper typed = true)
    by apply RecordedFacts.lower_no_upper.
  pose proof (SmogdexFacts.normalise_range typed) as Hn.
  destruct (Smogdex.normalise typed) as [generation genNumber].
  cbn [fst snd].
  unfold Smogdex.doubles.
  set (f := if String.eqb third "" && js_in typed Smogdex.doublesFormats
            then typed else toLowerCase (trim third)).
  assert (Hlow : Recorded.no_upper f = true).
  { subst f. destruct (_ && _); [exact Htyped|].
    apply RecordedFacts.lower_no_upper. }
  destruct (String.eqb f ""); [congruence|].
  destruct (js_in generation ["bw"; "xy"]) eqn:Hg; cbn [negb orb]; [|congruence].
  destruct (js_in f Smogdex.doublesFormats) eqn:Hf; cbn [negb]; [|congruence].
  intros _.
  assert (Hbw : generation = "bw" /\ genNumber = 5).
  { simpl in Hn.
    repeat (destruct Hn as [Hn|Hn];
            [injection Hn as <- <-; first [now split|discriminate Hg]|]).
    destruct Hn. }
  destruct Hbw as [-> ->]. repeat split.
  exists f, (Smogdex.doublesText_of f). split; [|split; [|reflexivity]].
  - apply RecordedFacts.js_in_lower in Hf; [|exact Hlow].
    clear - Hf. unfold Smogdex.doublesFormats in Hf. simpl in Hf.
    destruct Hf as [[<-|[<-|[<-|[]]]]|[->| ->]]; simpl; tauto.
  - subst f. destruct (String.eqb third "") eqn:E3; cbn [andb]; [|now left].
    destruct (js_in typed Smogdex.doublesFormats); [|now left].
    right. split; [now apply String.eqb_eq|reflexivity].
Qed.

Lemma smogdex_doubles_only_for_bw_witness :
  Smogdex.doubles "constructor" "bw" ""
  = ("/constructor", "function Object() { [native code] }")
  /\ fst (Smogdex.normalise "constructor") = "bw"
  /\ snd (Smogdex.normalise "constructor") = 5
  /\ exists f text,
       In (f, text)
          [("vgc2012", "VGC 2012 "); ("vgc2013", "VGC 2013 ");
           ("doubles", "Doubles ");
           ("constructor", "function Object() { [native code] }");
           ("__proto__", "[object Object]")]
       /\ (f = toLowerCase (trim "") \/ ("" = "" /\ f = "constructor"))
       /\ Smogdex.doubles "constructor" (fst (Smogdex.normalise "constructor")) ""
          = ("/" ++ f, text).
Proof.
  split; [reflexivity|].
  apply (smogdex_doubles_only_for_bw " Constructor" "");
    [reflexivity|reflexivity|].
  vm_compute. discriminate.
Defined.

(** ** [dice] *)

Module DiceFacts.
Import Dice.

Lemma sum_from l : forall a, fold_left Nat.add l a = a + sum l.
Proof.
  unfold sum. induction l as [|x l IH]; intros a; simpl; [lia|].
  rewrite (IH (a + x)), (IH x). lia.
Qed.

Lemma sum_cons x l : sum (x :: l) = x + sum l.
Proof. unfold sum at 1. simpl. apply sum_from. Qed.

Lemma sum_bounds lo hi l :
  Forall (fun r => lo <= r <= hi) l ->
  lo * List.length l <= sum l <= hi * List.length l.
Proof.
  induction 1 as [|x l Hx Hl IH]; [unfold sum; simpl; lia|].
  rewrite sum_cons. simpl List.length. nia.
Qed.

Lemma rolls_fair R num faces :
  fair R -> 0 < faces ->
  List.length (rolls R num faces) = num
  /\ Forall (fun r => 1 <= r <= faces) (rolls R num faces).
Proof.
  intros HR Hf. unfold rolls. split.
  - now rewrite length_map, length_seq.
  - apply Forall_map, Forall_forall. intros i _.
    specialize (HR faces i Hf). lia.
Qed.

(** The handler of the table is this one when the collaborator it takes
    its reply from is [answer]. *)
Lemma dice_of_table S R x :
  (forall t, Commands.dice_rest S t = [answer R t]) ->
  Commands.dice S x = dice R x.
Proof. intros H. unfold Commands.dice, dice. now rewrite H. Qed.

End DiceFacts.

(** X24: what [dice] throws.  For a target with the letter d and fair
    chance, the reply is one of the three refusals, or there are between 1
    and 20 dice of between 1 and 1000 faces: each die shows a number from 1
    to its number of faces, the box lists them in the order thrown, and the
    total it gives is their sum, which lies between the number of dice and
    that number times the number of faces. *)
Theorem dice_throws_within_bounds (R : Dice.chance) (target : string) (d : nat) :
  Dice.fair R ->
  indexOf "d" target = Some d ->
  In (Dice.answer R target)
     [sendReply "The number of faces must be a valid integer.";
      sendReply "The number of faces must be between 1 and 1000";
      sendReply "The number of dice must be between 1 and 20"]
  \/ exists num faces rolled,
       1 <= num <= 20 /\ 1 <= faces <= 1000
       /\ List.length rolled = num
       /\ Forall (fun r => 1 <= r <= faces) rolled
       /\ num <= Dice.sum rolled <= num * faces
       /\ Dice.answer R target
          = sendReplyBox
              ("Random number " ++ string_of_nat num ++ "x(1 - "
               ++ string_of_nat faces ++ "): "
               ++ join ", " (map string_of_nat rolled)
               ++ "<br />Total: " ++ string_of_nat (Dice.sum rolled)).
Proof.
  intros HR Hd. unfold Dice.answer. rewrite Hd. unfold Dice.thrown.
  set (num := match parseInt (substring 0 d target) with
              | Some n => n
              | None => 1%Z
              end).
  destruct (parseInt (slice_from (d + 1) target)) as [faces|];
    [|left; simpl; tauto].
  destruct (Z.ltb_spec faces 1) as [Hf1|Hf1]; [left; simpl; tauto|].
  destruct (Z.ltb_spec 1000 faces) as [Hf2|Hf2]; [left; simpl; tauto|].
  destruct (Z.ltb_spec num 1) as [Hn1|Hn1]; [left; simpl; tauto|].
  destruct (Z.ltb_spec 20 num) as [Hn2|Hn2]; [left; simpl; tauto|].
  right. cbn [orb].
  exists (Z.to_nat num), (Z.to_nat faces),
         (Dice.rolls R (Z.to_nat num) (Z.to_nat faces)).
  destruct (DiceFacts.rolls_fair R (Z.to_nat num) (Z.to_nat faces) HR
              ltac:(lia)) as [Hlen Hall].
  pose proof (DiceFacts.sum_bounds 1 (Z.to_nat faces) _ Hall) as Hs.
  rewrite Hlen in Hs.
  repeat split; try lia; assumption.
Qed.

Lemma dice_throws_within_bounds_witness :
  In (Dice.answer Dice.loaded "2d6")
     [sendReply "The number of faces must be a valid integer.";
      sendReply "The number of faces must be between 1 and 1000";
      sendReply "The number of dice must be between 1 and 20"]
  \/ exists num faces rolled,
       1 <= num <= 20 /\ 1 <= faces <= 1000
       /\ List.length rolled = num
       /\ Forall (fun r => 1 <= r <= faces) rolled
       /\ num <= Dice.sum rolled <= num * faces
       /\ Dice.answer Dice.loaded "2d6"
          = sendReplyBox
              ("Random number " ++ string_of_nat num ++ "x(1 - "
               ++ string_of_nat faces ++ "): "
               ++ join ", " (map string_of_nat rolled)
               ++ "<br />Total: " ++ string_of_nat (Dice.sum rolled)).
Proof.
  apply (dice_throws_within_bounds Dice.loaded "2d6" 1).
  - intros faces i H. simpl. lia.
  - reflexivity.
Defined.

Example dice_2d6 :
  Dice.answer Dice.loaded "2d6"
  = sendReplyBox "Random number 2x(1 - 6): 6, 6<br />Total: 12".
Proof. vm_compute. reflexivity. Qed.

Example dice_no_count :
  Dice.answer Dice.loaded "d20"
  = sendReplyBox "Random number 1x(1 - 20): 20<br />Total: 20".
Proof. vm_compute. reflexivity. Qed.

Example dice_no_faces :
  Dice.answer Dice.loaded "3d"
  = sendReply "The number of faces must be a valid integer.".
Proof. vm_compute. reflexivity. Qed.

(** ** Handlers without a broadcast check *)

Module UncheckedFacts.
Import Commands Unchecked.

Lemma unchecked_sends l k : unchecked k -> unchecked (sends l k).
Proof. intros Hk. induction l as [|a l IH]; simpl; [exact Hk|now constructor]. Qed.

(** A run of such a program makes no broadcast check and keeps the
    [broadcasting] flag it started with. *)
Lemma unchecked_events p :
  unchecked p ->
  forall c flag e,
    In e (fst (exec c flag p)) ->
    match e with
    | BroadcastChecked _ => False
    | Called room _ => room = flag
    | _ => True
    end.
Proof.
  induction 1 as [v|a k Hk IH|permission k Hk IH|k Hk IH|message k Hk IH
                  |l k Hk IH];
    intros c flag e; simpl.
  - intros [].
  - specialize (IH c flag e). destruct (exec c flag k) as [t v]. simpl in *.
    intros [<-|Hin]; [simpl; auto|exact (IH Hin)].
  - specialize (IH (grants c permission) c flag e).
    destruct (exec c flag (k (grants c permission))) as [t v]. simpl in *.
    intros [<-|Hin]; [simpl; auto|exact (IH Hin)].
  - apply IH.
  - specialize (IH (nested c message) c flag e).
    destruct (exec c flag (k (nested c message))) as [t v]. simpl in *.
    intros [<-|Hin]; [simpl; auto|exact (IH Hin)].
  - apply IH.
Qed.

Ltac unchecked_tac :=
  repeat first
    [ apply un_Return
    | apply unchecked_sends
    | apply un_Do
    | apply un_can; intros ?
    | apply un_broadcasting; intros ?
    | apply un_parse; intros ?
    | match goal with
      | |- unchecked (if ?b then _ else _) => destruct b
      | |- unchecked (match ?x with _ => _ end) => destruct x
      end ].

Lemma help_unchecked S x : unchecked (help S x).
Proof.
  destruct (HelpFacts.help_answers S x) as (L & -> & _).
  apply unchecked_sends. constructor.
Qed.

Lemma handlers_unchecked (S : services) (name : string) (h : handler) (x : args) :
  In (name, h) (handlers S) -> In name unbroadcast -> unchecked (h x).
Proof.
  rewrite TableFacts.handlers_listed. intros H Hn.
  repeat (destruct H as [H|H];
          [injection H as <- <-;
           first
             [ solve [ apply help_unchecked ]
             | solve [ exfalso; unfold unbroadcast in Hn; simpl in Hn;
                       intuition discriminate ]
             | solve [ match goal with
                       | |- unchecked (?f S x) => unfold f
                       | |- unchecked (?f x) => unfold f
                       end;
                       cbv beta zeta; unfold reply; unchecked_tac ] ]|]).
  destruct H.
Qed.

End UncheckedFacts.

(** X25: the handlers that never broadcast.  [whois], [ipsearch],
    [invite], [weakness], [birkal], [potd], [banredirect], [lobbychat], [a]
    and [help] do not call [canBroadcast]: whatever the sigil and the
    rights of the user, a run of one of them makes no broadcast check, and
    each of its replies goes to the user alone. *)
Theorem unchecked_handlers_answer_in_private (S : Commands.services)
    (c : invocation) (name : string) (h : Commands.handler)
    (x : Commands.args) :
  In (name, h) (Commands.handlers S) ->
  In name Unchecked.unbroadcast ->
  (forall granted, ~ In (BroadcastChecked granted) (trace c (h x)))
  /\ (forall room a, In (Called room a) (trace c (h x)) -> room = false).
Proof.
  intros Hin Hn.
  pose proof (UncheckedFacts.unchecked_events _
                (UncheckedFacts.handlers_unchecked S name h x Hin Hn) c false)
    as H.
  split.
  - intros granted Hg. exact (H _ Hg).
  - intros room a Ha. exact (H _ Ha).
Qed.

Lemma unchecked_handlers_answer_in_private_witness :
  (forall granted,
      ~ In (BroadcastChecked granted)
          (trace Sample.announced
             (Commands.whois Sample.services (Sample.query Sample.zarel ""))))
  /\ (forall room a,
         In (Called room a)
            (trace Sample.announced
               (Commands.whois Sample.services (Sample.query Sample.zarel ""))) ->
         room = false).
Proof.
  apply (unchecked_handlers_answer_in_private Sample.services Sample.announced
           "whois" (Commands.whois Sample.services)
           (Sample.query Sample.zarel "")).
  - rewrite TableFacts.handlers_listed. left. reflexivity.
  - unfold Unchecked.unbroadcast. simpl. tauto.
Defined.

(** ** [help]: the topics *)

Module TopicFacts.
Import Commands Topics.

Lemma unknown_topic t s :
  mem t topics = false -> mem s topics = true -> String.eqb t s = false.
Proof.
  intros Ht Hs. apply String.eqb_neq. intros ->. congruence.
Qed.

Lemma help_unknown S c x :
  toLowerCase (target x) <> "" ->
  mem (toLowerCase (target x)) topics = false ->
  run c (help S x) = ([Called false (missing (toLowerCase (target x)))], Undefined).
Proof.
  intros Hne Hm. unfold help. cbv zeta.
  generalize dependent (toLowerCase (target x)). intros t Hne Hm.
  rewrite !(unknown_topic t _ Hm) by reflexivity.
  cbn [orb]. cbv beta iota.
  unfold nonempty. apply String.eqb_neq in Hne. rewrite Hne. reflexivity.
Qed.

Lemma not_missing t l :
  existsb (is_missing t) l = false -> ~ In (Called false (missing t)) l.
Proof.
  intros H Hin.
  assert (E : existsb (is_missing t) l = true).
  { apply existsb_exists. eexists. split; [exact Hin|].
    unfold is_missing, missing. apply String.eqb_refl. }
  congruence.
Qed.

Lemma every_topic (f : string -> bool) :
  forallb f topics = true -> forall t, mem t topics = true -> f t = true.
Proof.
  intros H t Ht. rewrite forallb_forall in H.
  apply H. now apply RecordedFacts.mem_In.
Qed.

Lemma help_known S c x :
  mem (toLowerCase (target x)) topics = true ->
  ~ In (Called false (missing (toLowerCase (target x)))) (trace c (help S x)).
Proof.
  unfold help, trace, run. cbv zeta.
  generalize (toLowerCase (target x)). intros t Hm.
  apply not_missing, negb_true_iff.
  match goal with
  | |- ?b = true =>
      let f := eval pattern t in b in
      match f with
      | ?g t => change (g t = true); apply (every_topic g); [|exact Hm]
      end
  end.
  vm_compute. reflexivity.
Qed.

End TopicFacts.

(** X26: [help] knows exactly its topics.  For a target of ASCII
    characters that is not empty, in lower case: when it is none of the
    strings the tests of the handler name, the run is the one line that
    says the command was not found and quotes it; when it is one of them,
    that line is not sent.  The strings are those of the source as
    written, [caclulator] and [kickbattle ] (with its space) among them. *)
Theorem help_knows_its_topics (S : Commands.services) (c : invocation)
    (x : Commands.args) :
  ascii_only (Commands.target x) = true ->
  let t := toLowerCase (Commands.target x) in
  t <> "" ->
  (~ In t Topics.topics ->
   run c (Commands.help S x) = ([Called false (Topics.missing t)], Undefined))
  /\ (In t Topics.topics ->
      ~ In (Called false (Topics.missing t)) (trace c (Commands.help S x))).
Proof.
  intros _ t Hne. split.
  - intros Hn. apply TopicFacts.help_unknown; [exact Hne|].
    destruct (mem t Topics.topics) eqn:E; [|exact E].
    exfalso. apply Hn. now apply RecordedFacts.mem_In.
  - intros Hin. apply TopicFacts.help_known.
    now apply RecordedFacts.In_mem.
Qed.

Lemma help_knows_its_topics_witness :
  run Sample.private
    (Commands.help Sample.services (Sample.query Sample.nobody "Calculator"))
  = ([Called false (Topics.missing "calculator")], Undefined).
Proof.
  apply (help_knows_its_topics Sample.services Sample.private
           (Sample.query Sample.nobody "Calculator")).
  - reflexivity.
  - vm_compute. discriminate.
  - vm_compute. intuition discriminate.
Defined.
